(** * LLM Observability service: annotation registry, span factory,
      evaluation submission and header activation

    A shallow embedding of [ddtrace/llmobs/_llmobs.py] (class [LLMObs]).
    Python objects that the service mutates live in an explicit state
    record; spans are referenced by their id into a store, so that two
    references to one span see the same tags.  Log calls, the acquisition
    and release of the annotation lock and the writes to the annotation
    registry are recorded as events. *)

From stdpp Require Import base option list strings gmap.
From Stdlib Require Import ZArith Ascii String.
From Stdlib Require DecimalString HexadecimalString DecimalZ HexadecimalZ
  DecimalPos HexadecimalPos.

Set Warnings "-register-all".

Open Scope string_scope.
Open Scope list_scope.
Open Scope Z_scope.

(** ** Python values *)

(** The values a caller can hand to the public methods.  A float is kept as
    its IEEE-754 binary64 bit pattern; no float arithmetic is performed by the
    code under study.  [PMessages] and [PDocuments] are instances of the
    helper classes [Messages] and [Documents], holding their normalised
    list. *)
Inductive pyval :=
  | PNone
  | PBool (b : bool)
  | PInt (z : Z)
  | PFloat (bits : Z)
  | PStr (s : string)
  | PList (l : list pyval)
  | PDict (d : list (string * pyval))
  | PMessages (messages : list pyval)
  | PDocuments (documents : list pyval).

(** Python truthiness ([if v:], [not v]). *)
Definition truthy (v : pyval) : bool :=
  match v with
  | PNone => false
  | PBool b => b
  | PInt z => negb (z =? 0)
  | PFloat bits => negb ((bits =? 0) || (bits =? 2 ^ 63))
  | PStr s => negb (String.eqb s "")
  | PList l => match l with [] => false | _ => true end
  | PDict d => match d with [] => false | _ => true end
  | PMessages _ | PDocuments _ => true
  end.

Definition is_none (v : pyval) : bool :=
  match v with PNone => true | _ => false end.

(** [isinstance(v, dict)], [isinstance(v, str)]. *)
Definition isinstance_dict (v : pyval) : bool :=
  match v with PDict _ => true | _ => false end.

Definition isinstance_str (v : pyval) : bool :=
  match v with PStr _ => true | _ => false end.

(** [isinstance(v, int)]: [bool] is a subclass of [int]. *)
Definition isinstance_int (v : pyval) : bool :=
  match v with PInt _ | PBool _ => true | _ => false end.

(** [isinstance(v, (int, float))]. *)
Definition isinstance_int_float (v : pyval) : bool :=
  match v with PInt _ | PBool _ | PFloat _ => true | _ => false end.

(** [v < 0] for a value that passed [isinstance(v, int)]. *)
Definition lt_zero (v : pyval) : bool :=
  match v with
  | PInt z => z <? 0
  | _ => false
  end.

(** ** Dictionaries: insertion-ordered association lists *)

Fixpoint dict_lookup (k : string) (d : list (string * pyval)) : option pyval :=
  match d with
  | [] => None
  | (k', v) :: d' => if String.eqb k k' then Some v else dict_lookup k d'
  end.

(** [d[k] = v]: an existing key keeps its position, a new key goes last. *)
Fixpoint dict_set (k : string) (v : pyval) (d : list (string * pyval))
  : list (string * pyval) :=
  match d with
  | [] => [(k, v)]
  | (k', v') :: d' =>
      if String.eqb k k' then (k, v) :: d' else (k', v') :: dict_set k v d'
  end.

(** [d.update(new)]. *)
Definition dict_update (d new : list (string * pyval)) : list (string * pyval) :=
  fold_left (fun acc kv => dict_set kv.1 kv.2 acc) new d.

(** [v.get(k)] on a value known to be a dict; [None] when the key is absent. *)
Definition py_get (v : pyval) (k : string) : pyval :=
  match v with
  | PDict d => default PNone (dict_lookup k d)
  | _ => PNone
  end.

(** ** Text *)

(** [str.lower] on the ASCII letters.  A code point outside ASCII either
    stays outside ASCII when lowered or becomes the letter k (the Kelvin
    sign), and k occurs in none of the three metric-type names, so membership
    in those names is decided as in Python. *)
Definition lower_ascii (c : ascii) : ascii :=
  let n := nat_of_ascii c in
  if ((65 <=? n) && (n <=? 90))%nat then ascii_of_nat (n + 32) else c.

Fixpoint lower (s : string) : string :=
  match s with
  | EmptyString => EmptyString
  | String c s' => String (lower_ascii c) (lower s')
  end.

(** Modelled from the spec: [safe_json] (ddtrace.llmobs._utils) and
    [json.loads] are not under src/.  The spec stores serialised payloads as
    opaque blobs and has the tag merge deserialise the blob it wrote; a blob
    is therefore kept as the value it encodes, next to plain text. *)
Inductive text :=
  | Plain (s : string)
  | Json (v : pyval).

Definition safe_json (v : pyval) : text := Json v.

Definition text_truthy (t : text) : bool :=
  match t with
  | Plain s => negb (String.eqb s "")
  | Json _ => true
  end.

(** ** Events, exceptions and the service state *)

Inductive level := DEBUG | WARNING.

(** What the service does that can be observed from outside, in order: a
    log call, the lock of the annotation registry taken or released, and a
    write to the registry ([self._annotations.append], [.pop(i)]). *)
Inductive event :=
  | Log (lvl : level) (msg : string)
  | LockAcquire
  | LockRelease
  | RegistryAppend (annotation_id : Z)
  | RegistryPop (i : nat).

(** [InvalidReference] is not a Python exception: it marks the use of a span
    reference that is not in the store, which no Python caller can hold. *)
Inductive exn := AttributeError | JSONDecodeError | InvalidReference.

Inductive outcome (A : Type) :=
  | Done (a : A)
  | Raised (e : exn).
Arguments Done {A} a.
Arguments Raised {A} e.

(** A span object of the generic tracer, as far as this module reads or
    writes it. *)
Record Span := mkSpan {
  span_id : Z;
  trace_id : Z;
  _parent : option Z;
  name : string;
  resource : string;
  span_type : option string;
  finished : bool;
  _meta : gmap string text;
}.

(** A trace context with its tag side-channel and its baggage. *)
Inductive baggage_val :=
  | BInt (z : Z)
  | BStr (s : string).

Global Instance baggage_val_eq_dec : EqDecision baggage_val.
Proof. solve_decision. Defined.

Definition baggage_truthy (b : option baggage_val) : bool :=
  match b with
  | None => false
  | Some (BInt z) => negb (z =? 0)
  | Some (BStr s) => negb (String.eqb s "")
  end.

Record Context := mkContext {
  ctx_trace_id : option Z;
  ctx_span_id : option Z;
  ctx_meta : gmap string string;
  ctx_baggage : gmap string baggage_val;
}.

(** The keyword arguments an annotation scope passes to [annotate]. *)
Record annotation_kwargs := mkKwargs {
  kw_tags : pyval;
  kw_prompt : pyval;
  kw_name : option string;
}.

(** A registry entry: (annotation id, ambient context id, kwargs). *)
Definition annotation_entry : Type := Z * baggage_val * annotation_kwargs.

Record Config := mkConfig {
  _dd_api_key : option string;
  _llmobs_ml_app : option string;
}.

Record LLMObsState := mkState {
  enabled : bool;
  config : Config;
  clock_ms : Z;                          (* int(time.time() * 1000) *)
  spans : gmap Z Span;                   (* span objects, by reference *)
  current_span : option Z;               (* tracer.current_span() *)
  current_trace_context : option Context;(* tracer.current_trace_context() *)
  hook_registered : bool;                (* _do_annotations is a start hook *)
  next_span_id : Z;
  _annotations : list annotation_entry;
  eval_queue : list pyval;               (* _llmobs_eval_metric_writer *)
  events : list event;
}.

(** Field updates. *)
Definition add_event (e : event) (st : LLMObsState) : LLMObsState :=
  mkState (enabled st) (config st) (clock_ms st) (spans st) (current_span st)
    (current_trace_context st) (hook_registered st) (next_span_id st)
    (_annotations st) (eval_queue st) (events st ++ [e]).

Definition set_spans (m : gmap Z Span) (st : LLMObsState) : LLMObsState :=
  mkState (enabled st) (config st) (clock_ms st) m (current_span st)
    (current_trace_context st) (hook_registered st) (next_span_id st)
    (_annotations st) (eval_queue st) (events st).

Definition set_annotations (l : list annotation_entry) (st : LLMObsState)
  : LLMObsState :=
  mkState (enabled st) (config st) (clock_ms st) (spans st) (current_span st)
    (current_trace_context st) (hook_registered st) (next_span_id st)
    l (eval_queue st) (events st).

Definition set_context (c : option Context) (st : LLMObsState) : LLMObsState :=
  mkState (enabled st) (config st) (clock_ms st) (spans st) (current_span st)
    c (hook_registered st) (next_span_id st)
    (_annotations st) (eval_queue st) (events st).

Definition set_eval_queue (q : list pyval) (st : LLMObsState) : LLMObsState :=
  mkState (enabled st) (config st) (clock_ms st) (spans st) (current_span st)
    (current_trace_context st) (hook_registered st) (next_span_id st)
    (_annotations st) q (events st).

Definition add_events (evs : list event) (st : LLMObsState) : LLMObsState :=
  fold_left (fun s e => add_event e s) evs st.

(** ** A state monad with exceptions *)

Definition M (A : Type) : Type := LLMObsState -> outcome A * LLMObsState.

Global Instance M_ret : MRet M := fun A a st => (Done a, st).

Global Instance M_bind : MBind M := fun A B f m st =>
  match m st with
  | (Done a, st') => f a st'
  | (Raised e, st') => (Raised e, st')
  end.

Definition get_state : M LLMObsState := fun st => (Done st, st).
Definition modify (f : LLMObsState -> LLMObsState) : M unit :=
  fun st => (Done tt, f st).
Definition raise {A} (e : exn) : M A := fun st => (Raised e, st).

Definition log_warning (msg : string) : M unit := modify (add_event (Log WARNING msg)).
Definition log_debug (msg : string) : M unit := modify (add_event (Log DEBUG msg)).

(** Run a computation and keep the final state. *)
Definition exec {A} (m : M A) (st : LLMObsState) : LLMObsState := (m st).2.
Definition result {A} (m : M A) (st : LLMObsState) : outcome A := (m st).1.

Definition enqueue (record : pyval) : M unit :=
  modify (fun st => set_eval_queue (eval_queue st ++ [record]) st).

(** A configuration value ([Optional[str]]) as a Python value. *)
Definition config_value (o : option string) : pyval :=
  match o with Some s => PStr s | None => PNone end.

(** What the module imports and src/ does not hold is taken as a
    parameter: [ddtrace.__version__]; [ensure_text], [Messages], [Documents]
    and [validate_prompt] (with [None] for a raised [TypeError]); [repr] of a
    value that is not a string; the JSON parser on text that [safe_json] did
    not produce; the three ancestor walks of [ddtrace.llmobs._utils]; the tags
    a span carries when the tracer hands it out; and the propagator's
    [extract]. *)
Class Imports := {
  ddtrace_version : string;
  ensure_text : pyval -> option string;
  py_repr : pyval -> string;
  json_loads_plain : string -> option pyval;
  Messages : pyval -> option (list pyval);
  Documents : pyval -> option (list pyval);
  validate_prompt : pyval -> option pyval;
  _get_session_id : LLMObsState -> Span -> option string;
  _get_ml_app : LLMObsState -> Span -> string;
  _get_llmobs_parent_id : LLMObsState -> Span -> option string;
  new_span_meta : LLMObsState -> gmap string text;
  HTTPPropagator_extract : gmap string string -> Context;
}.

Section Service.

Context `{Imports}.

(** [str(v)]. *)
Definition str_ (v : pyval) : string :=
  match v with PStr s => s | _ => py_repr v end.

(** [json.loads]; [None] stands for a raised decode error. *)
Definition json_loads (t : text) : option pyval :=
  match t with
  | Json v => Some v
  | Plain s => json_loads_plain s
  end.

(** ** Evaluation submission *)

Definition MSG_EVAL_DISABLED : string :=
  "LLMObs.submit_evaluation() called when LLMObs is not enabled. Evaluation metric data will not be sent.".
Definition MSG_EVAL_API_KEY : string :=
  "DD_API_KEY is required for sending evaluation metrics. Evaluation metric data will not be sent. Ensure this configuration is set before running your application.".
Definition MSG_EVAL_SPAN_CONTEXT : string :=
  "span_context must be a dictionary containing both span_id and trace_id keys. LLMObs.export_span() can be used to generate this dictionary from a given span.".
Definition MSG_EVAL_ML_APP : string :=
  "ML App name is required for sending evaluation metrics. Evaluation metric data will not be sent. Ensure this configuration is set before running your application.".
Definition MSG_EVAL_TIMESTAMP : string :=
  "timestamp_ms must be a non-negative integer. Evaluation metric data will not be sent".
Definition MSG_EVAL_IDS : string :=
  "span_id and trace_id must both be specified for the given evaluation metric to be submitted.".
Definition MSG_EVAL_LABEL : string :=
  "label must be the specified name of the evaluation metric.".
Definition MSG_EVAL_METRIC_TYPE : string :=
  "metric_type must be one of 'categorical' or 'score'.".
Definition MSG_EVAL_NUMERICAL : string :=
  "The evaluation metric type 'numerical' is unsupported. Use 'score' instead. Converting `numerical` metric to `score` type.".
Definition MSG_EVAL_CATEGORICAL_VALUE : string :=
  "value must be a string for a categorical metric.".
Definition MSG_EVAL_SCORE_VALUE : string :=
  "value must be an integer or float for a score metric.".
Definition MSG_EVAL_TAGS : string :=
  "tags must be a dictionary of string key-value pairs.".
Definition MSG_EVAL_TAG_PARSE : string :=
  "Failed to parse tags. Tags for evaluation metrics must be strings.".
Definition MSG_EVAL_METADATA : string :=
  "metadata must be json serializable dictionary.".

(** [metric_type.lower()]: only a string has the method. *)
Definition py_lower (v : pyval) : M string :=
  match v with
  | PStr s => mret (lower s)
  | _ => raise AttributeError
  end.

Definition in_metric_types (s : string) : bool :=
  String.eqb s "categorical" || String.eqb s "numerical" || String.eqb s "score".

(** The loop over [tags.items()]: the value is converted first, then the
    key; a [TypeError] of either skips that one tag with a warning. *)
Fixpoint tags_loop (items : list (string * pyval))
    (evaluation_tags : list (string * pyval)) : M (list (string * pyval)) :=
  match items with
  | [] => mret evaluation_tags
  | (k, v) :: rest =>
      match ensure_text v, ensure_text (PStr k) with
      | Some v', Some k' => tags_loop rest (dict_set k' (PStr v') evaluation_tags)
      | _, _ => log_warning MSG_EVAL_TAG_PARSE ;; tags_loop rest evaluation_tags
      end
  end.

Definition dict_items (v : pyval) : list (string * pyval) :=
  match v with PDict d => d | _ => [] end.

(** ["{}:{}".format(k, v)]. *)
Definition format_tag (kv : string * pyval) : pyval :=
  PStr (kv.1 +:+ ":" +:+ str_ kv.2).

(** The second half of [submit_evaluation], from the comment "initialize
    tags with default values" to the end: no check is left, the record is
    built and enqueued. *)
Definition enqueue_evaluation_metric
    (span_id trace_id label : pyval) (metric_type : string)
    (value tags ml_app timestamp_ms metadata : pyval) : M unit :=
  let evaluation_tags :=
    [("ddtrace.version", PStr ddtrace_version); ("ml_app", ml_app)] in
  evaluation_tags ← (if truthy tags then tags_loop (dict_items tags) evaluation_tags
                     else mret evaluation_tags);
  let evaluation_metric :=
    [("span_id", span_id);
     ("trace_id", trace_id);
     ("label", PStr (str_ label));
     ("metric_type", PStr (lower metric_type));
     ("timestamp_ms", timestamp_ms);
     (metric_type +:+ "_value", value);
     ("ml_app", ml_app);
     ("tags", PList (map format_tag evaluation_tags))] in
  evaluation_metric ←
    (if truthy metadata then
       if negb (isinstance_dict metadata) then
         log_warning MSG_EVAL_METADATA ;; mret evaluation_metric
       else
         let metadata := safe_json metadata in
         if text_truthy metadata then
           match json_loads metadata with
           | Some v => mret (dict_set "metadata" v evaluation_metric)
           | None => raise JSONDecodeError
           end
         else mret evaluation_metric
     else mret evaluation_metric);
  enqueue (PDict evaluation_metric).

Definition submit_evaluation
    (span_context label metric_type value tags ml_app timestamp_ms metadata : pyval)
  : M unit :=
  st ← get_state;
  if negb (enabled st) then log_warning MSG_EVAL_DISABLED
  else if negb (truthy (config_value (_dd_api_key (config st)))) then
    log_warning MSG_EVAL_API_KEY
  else if negb (isinstance_dict span_context) then
    log_warning MSG_EVAL_SPAN_CONTEXT
  else
  let ml_app :=
    if truthy ml_app then ml_app else config_value (_llmobs_ml_app (config st)) in
  if negb (truthy ml_app) then log_warning MSG_EVAL_ML_APP
  else
  let timestamp_ms :=
    if truthy timestamp_ms then timestamp_ms else PInt (clock_ms st) in
  if negb (isinstance_int timestamp_ms) || lt_zero timestamp_ms then
    log_warning MSG_EVAL_TIMESTAMP
  else
  let span_id := py_get span_context "span_id" in
  let trace_id := py_get span_context "trace_id" in
  if negb (truthy span_id && truthy trace_id) then log_warning MSG_EVAL_IDS
  else if negb (truthy label) then log_warning MSG_EVAL_LABEL
  else
  bad ← (if negb (truthy metric_type) then mret true
         else l ← py_lower metric_type; mret (negb (in_metric_types l)));
  if bad : bool then log_warning MSG_EVAL_METRIC_TYPE
  else
  metric_type ← py_lower metric_type;
  metric_type ← (if String.eqb metric_type "numerical"
                 then log_warning MSG_EVAL_NUMERICAL ;; mret "score"
                 else mret metric_type);
  if String.eqb metric_type "categorical" && negb (isinstance_str value) then
    log_warning MSG_EVAL_CATEGORICAL_VALUE
  else if String.eqb metric_type "score" && negb (isinstance_int_float value) then
    log_warning MSG_EVAL_SCORE_VALUE
  else if negb (is_none tags) && negb (isinstance_dict tags) then
    log_warning MSG_EVAL_TAGS
  else
    enqueue_evaluation_metric span_id trace_id label metric_type value tags
      ml_app timestamp_ms metadata.

(** ** Tag keys *)

(** Modelled from the spec: [ddtrace.llmobs._constants] and [SpanTypes] are
    not under src/.  Each constant is a tag key of its own; the spec tells
    them apart by role (kind, model name, model provider, session, ...). *)
Definition SpanTypes_LLM : string := "llm".
Definition ANNOTATIONS_CONTEXT_ID : string := "annotations_context_id".
Definition SPAN_KIND : string := "_ml_obs.meta.span.kind".
Definition MODEL_NAME : string := "_ml_obs.meta.model_name".
Definition MODEL_PROVIDER : string := "_ml_obs.meta.model_provider".
Definition SESSION_ID : string := "_ml_obs.session_id".
Definition ML_APP : string := "_ml_obs.meta.ml_app".
Definition PARENT_ID_KEY : string := "_ml_obs.llmobs_parent_id".
Definition PROPAGATED_PARENT_ID_KEY : string := "_dd.p.llmobs_parent_id".
Definition TAGS : string := "_ml_obs.tags".
Definition METADATA : string := "_ml_obs.meta.metadata".
Definition METRICS : string := "_ml_obs.metrics".
Definition INPUT_PROMPT : string := "_ml_obs.meta.input.prompt".
Definition INPUT_PARAMETERS : string := "_ml_obs.meta.input.parameters".
Definition INPUT_VALUE : string := "_ml_obs.meta.input.value".
Definition INPUT_MESSAGES : string := "_ml_obs.meta.input.messages".
Definition INPUT_DOCUMENTS : string := "_ml_obs.meta.input.documents".
Definition OUTPUT_VALUE : string := "_ml_obs.meta.output.value".
Definition OUTPUT_MESSAGES : string := "_ml_obs.meta.output.messages".
Definition OUTPUT_DOCUMENTS : string := "_ml_obs.meta.output.documents".
Definition SPAN_START_WHILE_DISABLED_WARNING : string :=
  "Span started while LLMObs is disabled. Spans will not be sent to LLM Observability.".

(** ** Span objects in the store *)

Definition set_tag_str (key : string) (value : text) (sp : Span) : Span :=
  mkSpan (span_id sp) (trace_id sp) (_parent sp) (name sp) (resource sp)
    (span_type sp) (finished sp) (<[key := value]> (_meta sp)).

Definition set_name (n : string) (sp : Span) : Span :=
  mkSpan (span_id sp) (trace_id sp) (_parent sp) n (resource sp)
    (span_type sp) (finished sp) (_meta sp).

Definition get_tag (key : string) (sp : Span) : option text := _meta sp !! key.

Definition is_llm_span (sp : Span) : bool :=
  bool_decide (span_type sp = Some SpanTypes_LLM).

(** Dereference a span. *)
Definition get_span (ref : Z) : M Span := fun st =>
  match spans st !! ref with
  | Some sp => (Done sp, st)
  | None => (Raised InvalidReference, st)
  end.

(** Mutate the span a reference points to. *)
Definition update_span (ref : Z) (f : Span -> Span) : M unit :=
  modify (fun st => set_spans (alter f ref (spans st)) st).

Definition when (b : bool) (m : M unit) : M unit := if b then m else mret tt.

(** ** Tag normalizer *)

Definition _tag_prompt (span : Z) (prompt : pyval) : M unit :=
  match validate_prompt prompt with
  | Some validated_prompt =>
      update_span span (set_tag_str INPUT_PROMPT (safe_json validated_prompt))
  | None => log_warning "Failed to validate prompt with error: "
  end.

Definition _tag_params (span : Z) (params : pyval) : M unit :=
  if negb (isinstance_dict params) then
    log_warning "parameters must be a dictionary of key-value pairs."
  else update_span span (set_tag_str INPUT_PARAMETERS (safe_json params)).

(** [v if isinstance(v, Messages) else Messages(v)], then [.messages]. *)
Definition as_messages (v : pyval) : option (list pyval) :=
  match v with PMessages ms => Some ms | _ => Messages v end.

Definition as_documents (v : pyval) : option (list pyval) :=
  match v with PDocuments ds => Some ds | _ => Documents v end.

Definition nonempty (l : list pyval) : bool :=
  match l with [] => false | _ => true end.

Definition _tag_llm_io (span : Z) (input_messages output_messages : pyval) : M unit :=
  when (negb (is_none input_messages))
    (match as_messages input_messages with
     | Some messages =>
         when (nonempty messages)
           (update_span span (set_tag_str INPUT_MESSAGES (safe_json (PList messages))))
     | None => log_warning "Failed to parse input messages."
     end) ;;
  if is_none output_messages then mret tt
  else
    match as_messages output_messages with
    | Some messages =>
        if negb (nonempty messages) then mret tt
        else update_span span (set_tag_str OUTPUT_MESSAGES (safe_json (PList messages)))
    | None => log_warning "Failed to parse output messages."
    end.

Definition _tag_embedding_io (span : Z) (input_documents output_text : pyval) : M unit :=
  when (negb (is_none input_documents))
    (match as_documents input_documents with
     | Some documents =>
         when (nonempty documents)
           (update_span span (set_tag_str INPUT_DOCUMENTS (safe_json (PList documents))))
     | None => log_warning "Failed to parse input documents."
     end) ;;
  if is_none output_text then mret tt
  else update_span span (set_tag_str OUTPUT_VALUE (safe_json output_text)).

Definition _tag_retrieval_io (span : Z) (input_text output_documents : pyval) : M unit :=
  when (negb (is_none input_text))
    (update_span span (set_tag_str INPUT_VALUE (safe_json input_text))) ;;
  if is_none output_documents then mret tt
  else
    match as_documents output_documents with
    | Some documents =>
        if negb (nonempty documents) then mret tt
        else update_span span (set_tag_str OUTPUT_DOCUMENTS (safe_json (PList documents)))
    | None => log_warning "Failed to parse output documents."
    end.

Definition _tag_text_io (span : Z) (input_value output_value : pyval) : M unit :=
  when (negb (is_none input_value))
    (update_span span (set_tag_str INPUT_VALUE (safe_json input_value))) ;;
  when (negb (is_none output_value))
    (update_span span (set_tag_str OUTPUT_VALUE (safe_json output_value))).

(** The merge of [_tag_span_tags] on the current blob: decoding may fail, and
    only a decoded dict has [update]; every exception ends in the warning. *)
Definition merged_tags (current_tags_str : option text)
    (span_tags : list (string * pyval)) : option (list (string * pyval)) :=
  match current_tags_str with
  | Some t =>
      if text_truthy t then
        match json_loads t with
        | Some (PDict current_tags) => Some (dict_update current_tags span_tags)
        | _ => None
        end
      else Some span_tags
  | None => Some span_tags
  end.

Definition _tag_span_tags (span : Z) (span_tags : pyval) : M unit :=
  if negb (truthy span_tags) then mret tt
  else
    match span_tags with
    | PDict new_tags =>
        sp ← get_span span;
        match merged_tags (get_tag TAGS sp) new_tags with
        | Some d => update_span span (set_tag_str TAGS (safe_json (PDict d)))
        | None => log_warning "Failed to parse tags."
        end
    | _ => log_warning "span_tags must be a dictionary of string key - primitive value pairs."
    end.

Definition _tag_metadata (span : Z) (metadata : pyval) : M unit :=
  if negb (truthy metadata) then mret tt
  else if negb (isinstance_dict metadata) then
    log_warning "metadata must be a dictionary of string key-value pairs."
  else update_span span (set_tag_str METADATA (safe_json metadata)).

Definition _tag_metrics (span : Z) (metrics : pyval) : M unit :=
  if negb (truthy metrics) then mret tt
  else if negb (isinstance_dict metrics) then
    log_warning "metrics must be a dictionary of string key - numeric value pairs."
  else update_span span (set_tag_str METRICS (safe_json metrics)).

(** ** annotate *)

Definition MSG_NO_SPAN : string :=
  "No span provided and no active LLMObs-generated span found.".
Definition MSG_NOT_LLMOBS_SPAN : string := "Span must be an LLMObs-generated span.".
Definition MSG_FINISHED : string := "Cannot annotate a finished span.".
Definition MSG_PARAMETERS_DEPRECATED : string :=
  "Setting parameters is deprecated, please set parameters and other metadata as tags instead.".
Definition MSG_NO_KIND : string :=
  "Span kind not specified, skipping annotation for input/output data".

Definition kind_is (span_kind : option text) (k : string) : bool :=
  match span_kind with
  | Some (Plain s) => String.eqb s k
  | _ => false
  end.

(** The span [annotate] works on: the given one, else the current one. *)
Definition annotated_span (st : LLMObsState) (span : option Z) : option Z :=
  match span with Some r => Some r | None => current_span st end.

Definition annotate (span : option Z)
    (parameters prompt input_data output_data metadata metrics tags : pyval)
    (_name : option string) : M unit :=
  st ← get_state;
  match annotated_span st span with
  | None => log_warning MSG_NO_SPAN
  | Some span =>
      sp ← get_span span;
      if negb (is_llm_span sp) then log_warning MSG_NOT_LLMOBS_SPAN
      else if finished sp then log_warning MSG_FINISHED
      else
        when (negb (is_none metadata)) (_tag_metadata span metadata) ;;
        when (negb (is_none metrics)) (_tag_metrics span metrics) ;;
        when (negb (is_none tags)) (_tag_span_tags span tags) ;;
        sp ← get_span span;
        let span_kind := get_tag SPAN_KIND sp in
        when (negb (is_none parameters))
          (log_warning MSG_PARAMETERS_DEPRECATED ;; _tag_params span parameters) ;;
        match _name with
        | Some n => update_span span (set_name n)
        | None => mret tt
        end ;;
        when (negb (is_none prompt)) (_tag_prompt span prompt) ;;
        if negb (from_option text_truthy false span_kind) then log_debug MSG_NO_KIND
        else
          when (negb (is_none input_data) || negb (is_none output_data))
            (if kind_is span_kind "llm" then
               _tag_llm_io span input_data output_data
             else if kind_is span_kind "embedding" then
               _tag_embedding_io span input_data output_data
             else if kind_is span_kind "retrieval" then
               _tag_retrieval_io span input_data output_data
             else _tag_text_io span input_data output_data)
  end.

(** ** Annotation context registry *)

(** [with self._annotation_context_lock: body]; the lock is released on
    every way out of the body. *)
Definition with_lock {A} (body : M A) : M A := fun st =>
  let r := body (add_event LockAcquire st) in
  (r.1, add_event LockRelease r.2).

Fixpoint annotations_loop (span : Z) (current_context_id : option baggage_val)
    (entries : list annotation_entry) : M unit :=
  match entries with
  | [] => mret tt
  | (_, context_id, annotation_kwargs) :: rest =>
      when (bool_decide (current_context_id = Some context_id))
        (annotate (Some span) PNone (kw_prompt annotation_kwargs) PNone PNone
           PNone PNone (kw_tags annotation_kwargs) (kw_name annotation_kwargs)) ;;
      annotations_loop span current_context_id rest
  end.

Definition _do_annotations (span : Z) : M unit :=
  sp ← get_span span;
  if negb (is_llm_span sp) then mret tt
  else
    st ← get_state;
    match current_trace_context st with
    | None => raise AttributeError
    | Some current_context =>
        let current_context_id :=
          ctx_baggage current_context !! ANNOTATIONS_CONTEXT_ID in
        with_lock (st ← get_state;
                   annotations_loop span current_context_id (_annotations st))
    end.

Definition set_baggage_item (k : string) (v : baggage_val) (c : Context) : Context :=
  mkContext (ctx_trace_id c) (ctx_span_id c) (ctx_meta c) (<[k := v]> (ctx_baggage c)).

(** [tracer.context_provider.activate(context)]: the context becomes the
    active one and no span is current under it. *)
Definition activate (c : Context) : M unit :=
  modify (fun st =>
    mkState (enabled st) (config st) (clock_ms st) (spans st) None (Some c)
      (hook_registered st) (next_span_id st) (_annotations st) (eval_queue st)
      (events st)).

Definition get_annotations_context_id (annotation_id : Z) : M baggage_val :=
  st ← get_state;
  let ctx_id := BInt annotation_id in
  match current_trace_context st with
  | None =>
      let current_ctx :=
        set_baggage_item ANNOTATIONS_CONTEXT_ID ctx_id (mkContext None None ∅ ∅) in
      activate current_ctx ;; mret ctx_id
  | Some current_ctx =>
      let item := ctx_baggage current_ctx !! ANNOTATIONS_CONTEXT_ID in
      if negb (baggage_truthy item) then
        modify (set_context
                  (Some (set_baggage_item ANNOTATIONS_CONTEXT_ID ctx_id current_ctx))) ;;
        mret ctx_id
      else mret (default ctx_id item)
  end.

(** [self._annotations.append(entry)] and [self._annotations.pop(i)]: the
    write and its event are one step, so the events tell where the write
    stands with respect to the lock. *)
Definition append_annotation (entry : annotation_entry) : M unit :=
  modify (fun st =>
    add_event (RegistryAppend entry.1.1)
      (set_annotations (_annotations st ++ [entry]) st)).

Definition pop_annotation (i : nat) : M unit :=
  modify (fun st =>
    add_event (RegistryPop i) (set_annotations (delete i (_annotations st)) st)).

Definition register_annotation (annotation_id : Z) (tags prompt : pyval)
    (name : option string) : M unit :=
  with_lock (ctx_id ← get_annotations_context_id annotation_id;
             append_annotation (annotation_id, ctx_id, mkKwargs tags prompt name)).

(** The index the [enumerate] loop stops at. *)
Fixpoint find_annotation (annotation_id : Z) (entries : list annotation_entry)
  : option nat :=
  match entries with
  | [] => None
  | (key, _, _) :: rest =>
      if bool_decide (key = annotation_id) then Some 0%nat
      else S <$> find_annotation annotation_id rest
  end.

Definition entry_id (e : annotation_entry) : Z := e.1.1.

(** The entry was opened by another scope. *)
Definition has_other_id (annotation_id : Z) (e : annotation_entry) : bool :=
  negb (bool_decide (entry_id e = annotation_id)).

Definition deregister_annotation (annotation_id : Z) : M unit :=
  with_lock (st ← get_state;
             match find_annotation annotation_id (_annotations st) with
             | Some i => pop_annotation i
             | None => log_debug "Failed to pop annotation context"
             end).

(** ** Span factory *)

(** Modelled from the spec: the generic tracer is an external collaborator
    that "supplies span creation ... and hook points for span started
    notifications".  [tracer.trace] allocates the span as a child of the
    current span inside the current trace context (a new one when none is
    active), makes it current, and then runs the start hook on it. *)
Definition tracer_new_span (st : LLMObsState) (name resource : string)
    (span_type : option string) : Span :=
  let id := next_span_id st in
  let ctx := default (mkContext None None ∅ ∅) (current_trace_context st) in
  mkSpan id (default id (ctx_trace_id ctx)) (current_span st) name resource
    span_type false (new_span_meta st).

(** The tracer after the allocation, the new span not yet stored. *)
Definition tracer_activate_new (st : LLMObsState) : LLMObsState :=
  let id := next_span_id st in
  let ctx := default (mkContext None None ∅ ∅) (current_trace_context st) in
  mkState (enabled st) (config st) (clock_ms st) (spans st) (Some id)
    (Some (mkContext (Some (default id (ctx_trace_id ctx))) (Some id)
             (ctx_meta ctx) (ctx_baggage ctx)))
    (hook_registered st) (id + 1) (_annotations st) (eval_queue st) (events st).

Definition tracer_trace (name resource : string) (span_type : option string)
  : M Z := fun st =>
  let id := next_span_id st in
  let sp := tracer_new_span st name resource span_type in
  let st' := set_spans (<[id := sp]> (spans st)) (tracer_activate_new st) in
  (when (hook_registered st) (_do_annotations id) ;; mret id) st'.

Definition _start_span (operation_kind : string)
    (name session_id model_name model_provider ml_app : option string) : M Z :=
  let name := default operation_kind name in
  span ← tracer_trace name operation_kind (Some SpanTypes_LLM);
  update_span span (set_tag_str SPAN_KIND (Plain operation_kind)) ;;
  match model_name with
  | Some m => update_span span (set_tag_str MODEL_NAME (Plain m))
  | None => mret tt
  end ;;
  match model_provider with
  | Some m => update_span span (set_tag_str MODEL_PROVIDER (Plain m))
  | None => mret tt
  end ;;
  st ← get_state;
  sp ← get_span span;
  let session_id :=
    match session_id with Some s => Some s | None => _get_session_id st sp end in
  match session_id with
  | Some s => update_span span (set_tag_str SESSION_ID (Plain s))
  | None => mret tt
  end ;;
  st ← get_state;
  sp ← get_span span;
  let ml_app := match ml_app with Some a => a | None => _get_ml_app st sp end in
  update_span span (set_tag_str ML_APP (Plain ml_app)) ;;
  st ← get_state;
  sp ← get_span span;
  match get_tag PROPAGATED_PARENT_ID_KEY sp with
  | None =>
      let parent_id :=
        match _get_llmobs_parent_id st sp with
        | Some p => if String.eqb p "" then "undefined" else p
        | None => "undefined"
        end in
      update_span span (set_tag_str PARENT_ID_KEY (Plain parent_id))
  | Some _ => mret tt
  end ;;
  mret span.

Definition warn_if_disabled : M unit :=
  st ← get_state;
  when (negb (enabled st)) (log_warning SPAN_START_WHILE_DISABLED_WARNING).

Definition llm (model_name name model_provider session_id ml_app : option string)
  : M Z :=
  warn_if_disabled ;;
  let model_name := match model_name with None => "custom" | Some m => m end in
  let model_provider := match model_provider with None => "custom" | Some m => m end in
  _start_span "llm" name session_id (Some model_name) (Some model_provider) ml_app.

Definition tool (name session_id ml_app : option string) : M Z :=
  warn_if_disabled ;; _start_span "tool" name session_id None None ml_app.

Definition task (name session_id ml_app : option string) : M Z :=
  warn_if_disabled ;; _start_span "task" name session_id None None ml_app.

Definition agent (name session_id ml_app : option string) : M Z :=
  warn_if_disabled ;; _start_span "agent" name session_id None None ml_app.

Definition workflow (name session_id ml_app : option string) : M Z :=
  warn_if_disabled ;; _start_span "workflow" name session_id None None ml_app.

Definition embedding (model_name name model_provider session_id ml_app : option string)
  : M Z :=
  warn_if_disabled ;;
  let model_name := match model_name with None => "custom" | Some m => m end in
  let model_provider := match model_provider with None => "custom" | Some m => m end in
  _start_span "embedding" name session_id (Some model_name) (Some model_provider) ml_app.

Definition retrieval (name session_id ml_app : option string) : M Z :=
  warn_if_disabled ;; _start_span "retrieval" name session_id None None ml_app.

(** ** Distributed propagation *)

Definition MSG_ACTIVATE_DISABLED : string :=
  "LLMObs.activate_distributed_headers() called when LLMObs is not enabled. Distributed context will not be activated.".
Definition MSG_ACTIVATE_IDS : string :=
  "Failed to extract trace ID or span ID from request headers.".
Definition MSG_ACTIVATE_PARENT : string :=
  "Failed to extract LLMObs parent ID from request headers.".

Definition activate_distributed_headers (request_headers : gmap string string)
  : M unit :=
  st ← get_state;
  if negb (enabled st) then log_warning MSG_ACTIVATE_DISABLED
  else
    let context := HTTPPropagator_extract request_headers in
    if bool_decide (ctx_trace_id context = None)
       || bool_decide (ctx_span_id context = None) then
      log_warning MSG_ACTIVATE_IDS
    else
      when (bool_decide (ctx_meta context !! PROPAGATED_PARENT_ID_KEY = None))
        (log_warning MSG_ACTIVATE_PARENT) ;;
      activate context.

(** ** The validation checks of evaluation submission, one by one *)

Record EvalArgs := mkEvalArgs {
  arg_span_context : pyval;
  arg_label : pyval;
  arg_metric_type : pyval;
  arg_value : pyval;
  arg_tags : pyval;
  arg_ml_app : pyval;
  arg_timestamp_ms : pyval;
  arg_metadata : pyval;
}.

Definition submit (a : EvalArgs) : M unit :=
  submit_evaluation (arg_span_context a) (arg_label a) (arg_metric_type a)
    (arg_value a) (arg_tags a) (arg_ml_app a) (arg_timestamp_ms a)
    (arg_metadata a).

Definition with_metric_type (v : pyval) (a : EvalArgs) : EvalArgs :=
  mkEvalArgs (arg_span_context a) (arg_label a) v (arg_value a) (arg_tags a)
    (arg_ml_app a) (arg_timestamp_ms a) (arg_metadata a).

Definition with_timestamp_ms (v : pyval) (a : EvalArgs) : EvalArgs :=
  mkEvalArgs (arg_span_context a) (arg_label a) (arg_metric_type a)
    (arg_value a) (arg_tags a) (arg_ml_app a) v (arg_metadata a).

(** The checks.  [ChkSpanRef] is the spec's third check ("a mapping with
    both ids present"); [ChkSpanRefMapping] and [ChkSpanRefIds] are its two
    halves. *)
Inductive check :=
  | ChkEnabled
  | ChkCredential
  | ChkSpanRef
  | ChkSpanRefMapping
  | ChkSpanRefIds
  | ChkAppId
  | ChkTimestamp
  | ChkLabel
  | ChkMetricKind
  | ChkValue.

Definition resolved_ml_app (st : LLMObsState) (a : EvalArgs) : pyval :=
  if truthy (arg_ml_app a) then arg_ml_app a
  else config_value (_llmobs_ml_app (config st)).

Definition resolved_timestamp (st : LLMObsState) (a : EvalArgs) : pyval :=
  if truthy (arg_timestamp_ms a) then arg_timestamp_ms a else PInt (clock_ms st).

(** The metric kind after lower-casing and after the alias is mapped. *)
Definition resolved_kind (a : EvalArgs) : option string :=
  match arg_metric_type a with
  | PStr s =>
      let l := lower s in
      if String.eqb l "categorical" then Some "categorical"
      else if String.eqb l "score" || String.eqb l "numerical" then Some "score"
      else None
  | _ => None
  end.

Definition ids_present (a : EvalArgs) : bool :=
  truthy (py_get (arg_span_context a) "span_id")
  && truthy (py_get (arg_span_context a) "trace_id").

Definition check_passes (st : LLMObsState) (a : EvalArgs) (c : check) : bool :=
  match c with
  | ChkEnabled => enabled st
  | ChkCredential => truthy (config_value (_dd_api_key (config st)))
  | ChkSpanRef => isinstance_dict (arg_span_context a) && ids_present a
  | ChkSpanRefMapping => isinstance_dict (arg_span_context a)
  | ChkSpanRefIds => ids_present a
  | ChkAppId => truthy (resolved_ml_app st a)
  | ChkTimestamp =>
      isinstance_int (resolved_timestamp st a)
      && negb (lt_zero (resolved_timestamp st a))
  | ChkLabel => truthy (arg_label a)
  | ChkMetricKind => bool_decide (is_Some (resolved_kind a))
  | ChkValue =>
      match resolved_kind a with
      | Some k =>
          if String.eqb k "categorical" then isinstance_str (arg_value a)
          else isinstance_int_float (arg_value a)
      | None => true
      end
  end.

Definition warnings_of (c : check) : list string :=
  match c with
  | ChkEnabled => [MSG_EVAL_DISABLED]
  | ChkCredential => [MSG_EVAL_API_KEY]
  | ChkSpanRef => [MSG_EVAL_SPAN_CONTEXT; MSG_EVAL_IDS]
  | ChkSpanRefMapping => [MSG_EVAL_SPAN_CONTEXT]
  | ChkSpanRefIds => [MSG_EVAL_IDS]
  | ChkAppId => [MSG_EVAL_ML_APP]
  | ChkTimestamp => [MSG_EVAL_TIMESTAMP]
  | ChkLabel => [MSG_EVAL_LABEL]
  | ChkMetricKind => [MSG_EVAL_METRIC_TYPE]
  | ChkValue => [MSG_EVAL_CATEGORICAL_VALUE; MSG_EVAL_SCORE_VALUE]
  end.

(** The order in which the spec lists the checks. *)
Definition spec_order : list check :=
  [ChkEnabled; ChkCredential; ChkSpanRef; ChkAppId; ChkTimestamp; ChkLabel;
   ChkMetricKind; ChkValue].

(** The order in which [submit_evaluation] runs them. *)
Definition code_order : list check :=
  [ChkEnabled; ChkCredential; ChkSpanRefMapping; ChkAppId; ChkTimestamp;
   ChkSpanRefIds; ChkLabel; ChkMetricKind; ChkValue].

Definition first_failure (order : list check) (st : LLMObsState) (a : EvalArgs)
  : option check :=
  List.find (fun c => negb (check_passes st a c)) order.

(** The call was aborted by check [c]: it returned normally, enqueued
    nothing, and the last thing it did was to log a warning of [c]. *)
Definition aborted_by (st : LLMObsState) (a : EvalArgs) (c : check) : Prop :=
  result (submit a) st = Done tt
  /\ eval_queue (exec (submit a) st) = eval_queue st
  /\ exists msg, In msg (warnings_of c)
       /\ last (events (exec (submit a) st)) = Some (Log WARNING msg).

(** The metric kind is text or absent, as the signature declares it. *)
Definition metric_type_typed (a : EvalArgs) : bool :=
  isinstance_str (arg_metric_type a) || negb (truthy (arg_metric_type a)).

(** The checks that run before the metric kind is looked at, in the order
    of the code. *)
Definition early_checks : list check :=
  [ChkEnabled; ChkCredential; ChkSpanRefMapping; ChkAppId; ChkTimestamp;
   ChkSpanRefIds; ChkLabel].

(** The record that is built, looked up by key. *)
Definition record_has (em : list (string * pyval))
    (span_id trace_id : pyval) (metric_type : string)
    (value ml_app timestamp_ms : pyval) : Prop :=
  dict_lookup "span_id" em = Some span_id
  /\ dict_lookup "trace_id" em = Some trace_id
  /\ dict_lookup "metric_type" em = Some (PStr (lower metric_type))
  /\ dict_lookup "timestamp_ms" em = Some timestamp_ms
  /\ dict_lookup (metric_type +:+ "_value") em = Some value
  /\ dict_lookup "ml_app" em = Some ml_app.

(** The five checks that run before the identifiers are read. *)
Definition prefix_ok (st : LLMObsState) (a : EvalArgs) : Prop :=
  check_passes st a ChkEnabled = true
  /\ check_passes st a ChkCredential = true
  /\ check_passes st a ChkSpanRefMapping = true
  /\ check_passes st a ChkAppId = true
  /\ check_passes st a ChkTimestamp = true.

(** The deprecation notice logged when the alias is mapped. *)
Definition numerical_notice (a : EvalArgs) (st : LLMObsState) : LLMObsState :=
  match arg_metric_type a with
  | PStr s =>
      if String.eqb (lower s) "numerical"
      then add_event (Log WARNING MSG_EVAL_NUMERICAL) st else st
  | _ => st
  end.

(** Every check passes, and [tags] is absent or a dict. *)
Definition valid (st : LLMObsState) (a : EvalArgs) : bool :=
  forallb (check_passes st a) code_order
  && (is_none (arg_tags a) || isinstance_dict (arg_tags a)).

(** ** What an annotation scope does to a span *)

(** [self.annotate(span, **annotation_kwargs)] for one entry, and for a
    list of entries, first to last. *)
Definition annotate_entry (span : Z) (e : annotation_entry) : M unit :=
  annotate (Some span) PNone (kw_prompt e.2) PNone PNone PNone PNone
    (kw_tags e.2) (kw_name e.2).

Fixpoint apply_annotations (span : Z) (entries : list annotation_entry) : M unit :=
  match entries with
  | [] => mret tt
  | e :: rest => annotate_entry span e ;; apply_annotations span rest
  end.

Definition entry_matches (current_context_id : option baggage_val)
    (e : annotation_entry) : bool :=
  bool_decide (current_context_id = Some e.1.2).

(** The tag blob after [_tag_span_tags], from the blob before. *)
Definition tags_after (current_tags_str : option text) (tags : pyval) : option text :=
  if negb (truthy tags) then current_tags_str
  else
    match tags with
    | PDict new_tags =>
        match merged_tags current_tags_str new_tags with
        | Some d => Some (Json (PDict d))
        | None => current_tags_str
        end
    | _ => current_tags_str
    end.

Definition put_tag (key : string) (value : option text) (sp : Span) : Span :=
  match value with
  | Some v => set_tag_str key v sp
  | None => sp
  end.

(** The span after [annotate] was called with the kwargs of a scope, on an
    unfinished span of type LLM. *)
Definition apply_scope (kw : annotation_kwargs) (sp : Span) : Span :=
  let sp := put_tag TAGS (tags_after (get_tag TAGS sp) (kw_tags kw)) sp in
  let sp := match kw_name kw with Some n => set_name n sp | None => sp end in
  if is_none (kw_prompt kw) then sp
  else match validate_prompt (kw_prompt kw) with
       | Some validated_prompt =>
           set_tag_str INPUT_PROMPT (safe_json validated_prompt) sp
       | None => sp
       end.

(** The span after the scopes of [entries] were applied, first to last. *)
Definition apply_scopes (entries : list annotation_entry) (sp : Span) : Span :=
  fold_left (fun sp e => apply_scope e.2 sp) entries sp.

(** The span the tracer hands to [_start_span]: the new span, with the
    scopes of the active ambient id applied when the hook is registered. *)
Definition hooked_span (st : LLMObsState) (sp : Span) : Span :=
  if hook_registered st then
    apply_scopes
      (List.filter
         (entry_matches
            (ctx_baggage (default (mkContext None None ∅ ∅) (current_trace_context st))
               !! ANNOTATIONS_CONTEXT_ID))
         (_annotations st)) sp
  else sp.

(** The tag keys an annotation scope writes. *)
Definition scope_keys : list string := [TAGS; INPUT_PROMPT].

(** [sp'] is [sp] up to its name and the keys an annotation scope writes. *)
Definition same_outside_scope (sp sp' : Span) : Prop :=
  span_id sp' = span_id sp
  /\ trace_id sp' = trace_id sp
  /\ _parent sp' = _parent sp
  /\ resource sp' = resource sp
  /\ span_type sp' = span_type sp
  /\ finished sp' = finished sp
  /\ forall k, k ∉ scope_keys -> _meta sp' !! k = _meta sp !! k.

(** [st] with the span at [ref] replaced by [sp'] and the events [evs]
    logged after those of [st]. *)
Definition with_span (ref : Z) (sp' : Span) (evs : list event)
    (st : LLMObsState) : LLMObsState :=
  mkState (enabled st) (config st) (clock_ms st) (<[ref := sp']> (spans st))
    (current_span st) (current_trace_context st) (hook_registered st)
    (next_span_id st) (_annotations st) (eval_queue st) (events st ++ evs).

(** The tag dictionary stored on a span, when its blob holds one. *)
Definition stored_tags (st : LLMObsState) (ref : Z)
  : option (list (string * pyval)) :=
  match spans st !! ref with
  | Some sp =>
      match get_tag TAGS sp with
      | Some (Json (PDict d)) => Some d
      | _ => None
      end
  | None => None
  end.

End Service.

(** ** A concrete set of imports, for running the model *)

Definition sample_messages (v : pyval) : option (list pyval) :=
  match v with
  | PStr s => Some [PDict [("content", PStr s)]]
  | PDict d => match dict_lookup "content" d with Some _ => Some [v] | None => None end
  | PList l => Some l
  | _ => None
  end.

Definition sample_documents (v : pyval) : option (list pyval) :=
  match v with
  | PStr s => Some [PDict [("text", PStr s)]]
  | PDict d => match dict_lookup "text" d with Some _ => Some [v] | None => None end
  | PList l => Some l
  | _ => None
  end.

Definition sample_imports : Imports := {|
  ddtrace_version := "2.14.0";
  ensure_text := fun v => match v with PStr s => Some s | _ => None end;
  py_repr := fun _ => "<object>";
  json_loads_plain := fun _ => None;
  Messages := sample_messages;
  Documents := sample_documents;
  validate_prompt := fun v => if isinstance_dict v then Some v else None;
  _get_session_id := fun _ _ => None;
  _get_ml_app := fun st _ => default "" (_llmobs_ml_app (config st));
  _get_llmobs_parent_id := fun _ _ => None;
  new_span_meta := fun _ => ∅;
  HTTPPropagator_extract := fun h =>
    mkContext
      (if bool_decide (h !! "x-datadog-trace-id" = None) then None else Some 7)
      (if bool_decide (h !! "x-datadog-parent-id" = None) then None else Some 9)
      (if bool_decide (h !! "x-datadog-tags" = None) then ∅
       else {[ PROPAGATED_PARENT_ID_KEY := "9" ]}) ∅;
|}.

(** An enabled service with a credential and a default application. *)
Definition sample_state : LLMObsState :=
  mkState true (mkConfig (Some "key") (Some "app")) 1700000000000 ∅ None None
    true 1 [] [] [].

(** A span reference without ids, and a negative timestamp. *)
Definition args_without_ids : EvalArgs :=
  mkEvalArgs (PDict []) (PStr "toxicity") (PStr "score") (PInt 1)
    PNone PNone (PInt (-1)) PNone.

Definition sample_args : EvalArgs :=
  mkEvalArgs (PDict [("span_id", PStr "123"); ("trace_id", PStr "456")])
    (PStr "toxicity") (PStr "score") (PFloat 4602678819172646912)
    PNone PNone PNone PNone.

(** A service that was never enabled, and a carrier that has both physical
    ids but not the logical-parent key. *)
Definition disabled_state : LLMObsState :=
  mkState false (mkConfig (Some "key") (Some "app")) 1700000000000 ∅ None None
    true 1 [] [] [].

Definition headers_without_parent_tag : gmap string string :=
  {[ "x-datadog-trace-id" := "7"; "x-datadog-parent-id" := "9" ]}.

(** Spans and states for running [annotate] and the start hook: one span
    of type LLM at reference 1, finished or not, inside a trace context whose
    ambient id is 11, with two scopes registered under that id. *)
Definition open_llm_span : Span :=
  mkSpan 1 1 None "llm" "llm" (Some SpanTypes_LLM) false ∅.

Definition finished_llm_span : Span :=
  mkSpan 1 1 None "llm" "llm" (Some SpanTypes_LLM) true
    {[ SPAN_KIND := Plain "llm" ]}.

Definition scoped_context : Context :=
  mkContext (Some 1) (Some 1) ∅ {[ ANNOTATIONS_CONTEXT_ID := BInt 11 ]}.

Definition first_scope : annotation_kwargs :=
  mkKwargs (PDict [("a", PInt 1); ("c", PInt 5)]) PNone None.

Definition second_scope : annotation_kwargs :=
  mkKwargs (PDict [("a", PInt 2); ("b", PInt 3)]) PNone (Some "renamed").

Definition state_with_span (sp : Span) : LLMObsState :=
  mkState true (mkConfig (Some "key") (Some "app")) 1700000000000
    {[ 1 := sp ]} (Some 1) (Some scoped_context) true 2
    [(11, BInt 11, first_scope); (12, BInt 11, second_scope)] [] [].

(** ** Further definitions: evaluation submission *)

Definition is_warning (e : event) : bool :=
  match e with Log WARNING _ => true | _ => false end.

Section ServiceExtras.

Context `{Imports}.

(** The tags a caller passes that [ensure_text] accepts, as the loop of
    [submit_evaluation] stores them. *)
Definition text_tag (kv : string * pyval) : option (string * pyval) :=
  match ensure_text kv.2, ensure_text (PStr kv.1) with
  | Some v, Some k => Some (k, PStr v)
  | _, _ => None
  end.

End ServiceExtras.

Section ServiceExtras2.

Context `{Imports}.

(** The default tags of an evaluation record. *)
Definition default_evaluation_tags (ml_app : pyval) : list (string * pyval) :=
  [("ddtrace.version", PStr ddtrace_version); ("ml_app", ml_app)].

(** The tags of an evaluation record: the defaults, updated with the
    caller's tags that [ensure_text] accepts. *)
Definition merged_evaluation_tags (ml_app tags : pyval) : list (string * pyval) :=
  if truthy tags
  then dict_update (default_evaluation_tags ml_app) (omap text_tag (dict_items tags))
  else default_evaluation_tags ml_app.

(** The [metadata] entry of an evaluation record. *)
Definition metadata_entry (metadata : pyval) : option pyval :=
  if truthy metadata && isinstance_dict metadata then Some metadata else None.

(** The caller's tags whose value [ensure_text] refuses. *)
Definition dropped_tags (items : list (string * pyval)) : list (string * pyval) :=
  List.filter (fun kv => match ensure_text kv.2 with Some _ => false | None => true end)
    items.

End ServiceExtras2.

(** ** Further definitions: annotate *)

(** The input and output keys [annotate] may write, by the kind tag of the
    span. *)
Definition io_keys (span_kind : option text) : list string :=
  if negb (from_option text_truthy false span_kind) then []
  else if kind_is span_kind "llm" then [INPUT_MESSAGES; OUTPUT_MESSAGES]
  else if kind_is span_kind "embedding" then [INPUT_DOCUMENTS; OUTPUT_VALUE]
  else if kind_is span_kind "retrieval" then [INPUT_VALUE; OUTPUT_DOCUMENTS]
  else [INPUT_VALUE; OUTPUT_VALUE].

(** All the keys [annotate] may write on a span of that kind. *)
Definition annotation_keys (span_kind : option text) : list string :=
  [METADATA; METRICS; TAGS; INPUT_PARAMETERS; INPUT_PROMPT] ++ io_keys span_kind.

(** [sp'] is [sp] but for the tags of [keys]. *)
Definition span_frame (keys : list string) (sp sp' : Span) : Prop :=
  span_id sp' = span_id sp
  /\ trace_id sp' = trace_id sp
  /\ _parent sp' = _parent sp
  /\ name sp' = name sp
  /\ resource sp' = resource sp
  /\ span_type sp' = span_type sp
  /\ finished sp' = finished sp
  /\ forall k, k ∉ keys -> _meta sp' !! k = _meta sp !! k.

(** [m] returns normally and changes nothing but the log and, on the span
    at [ref], the tags of [keys]. *)
Definition writes_only (ref : Z) (keys : list string) (m : M unit) : Prop :=
  forall sp evs st,
    exists sp' evs',
      m (with_span ref sp evs st) = (Done tt, with_span ref sp' (evs ++ evs') st)
      /\ span_frame keys sp sp'.

Section ServiceExtras3.

Context `{Imports}.

(** A messages tag after [_tag_llm_io], from the tag before and the value
    passed: it is written when the value is given and normalises to a list
    that is not empty. *)
Definition messages_after (cur : option text) (v : pyval) : option text :=
  if is_none v then cur
  else match as_messages v with
       | Some (m :: ms) => Some (Json (PList (m :: ms)))
       | _ => cur
       end.

Definition documents_after (cur : option text) (v : pyval) : option text :=
  if is_none v then cur
  else match as_documents v with
       | Some (d :: ds) => Some (Json (PList (d :: ds)))
       | _ => cur
       end.

(** A value tag: the value is serialised as it is. *)
Definition value_after (cur : option text) (v : pyval) : option text :=
  if is_none v then cur else Some (Json v).

(** The last step of [annotate]: the input and output data, by kind. *)
Definition annotate_io (span : Z) (span_kind : option text)
    (input_data output_data : pyval) : M unit :=
  if negb (from_option text_truthy false span_kind) then log_debug MSG_NO_KIND
  else
    when (negb (is_none input_data) || negb (is_none output_data))
      (if kind_is span_kind "llm" then
         _tag_llm_io span input_data output_data
       else if kind_is span_kind "embedding" then
         _tag_embedding_io span input_data output_data
       else if kind_is span_kind "retrieval" then
         _tag_retrieval_io span input_data output_data
       else _tag_text_io span input_data output_data).

End ServiceExtras3.

(** ** Further definitions: annotation scopes *)

(** The ambient annotation id of the active trace context, if any. *)
Definition ambient_id (st : LLMObsState) : option baggage_val :=
  match current_trace_context st with
  | Some ctx => ctx_baggage ctx !! ANNOTATIONS_CONTEXT_ID
  | None => None
  end.

(** ** Further definitions: span creation *)

(** The tags [_start_span] itself may write. *)
Definition start_keys : list string :=
  [SPAN_KIND; MODEL_NAME; MODEL_PROVIDER; SESSION_ID; ML_APP; PARENT_ID_KEY].


Section ServiceExtras4.

Context `{Imports}.

(** The constructors that take no model: each with its kind. *)
Definition plain_constructors
  : list (string * (option string -> option string -> option string -> M Z)) :=
  [("tool", tool); ("task", task); ("agent", agent); ("workflow", workflow);
   ("retrieval", retrieval)].

End ServiceExtras4.

(** ** Further samples *)

(** An open span of type LLM and of kind llm, and the state that holds it. *)
Definition open_span_of_kind_llm : Span :=
  mkSpan 1 1 None "llm" "llm" (Some SpanTypes_LLM) false {[ SPAN_KIND := Plain "llm" ]}.

(** Valid arguments, but for tags that are a list. *)
Definition args_with_list_tags : EvalArgs :=
  mkEvalArgs (PDict [("span_id", PStr "123"); ("trace_id", PStr "456")])
    (PStr "toxicity") (PStr "score") (PInt 1) (PList []) PNone PNone PNone.

(** The tags of a caller: one takes the place of a default, one is no text. *)
Definition caller_tags : list (string * pyval) :=
  [("ml_app", PStr "other"); ("team", PInt 3)].

(** ** Further definitions: exporting a span *)

(** [str(n)] and ["{:x}".format(n)] for an int [n]. *)
Definition str_int (n : Z) : string :=
  DecimalString.NilZero.string_of_int (Z.to_int n).

Definition format_x (n : Z) : string :=
  HexadecimalString.NilZero.string_of_int (Z.to_hex_int n).

(** [int(s)] and [int(s, 16)] on the text of a number. *)
Definition int_of_str (s : string) : option Z :=
  Z.of_int <$> DecimalString.NilZero.int_of_string s.

Definition int_of_hex (s : string) : option Z :=
  Z.of_hex_int <$> HexadecimalString.NilZero.int_of_string s.

(** What a caller passes as [span]: a span object, or anything else, [None]
    among it. *)
Inductive span_arg :=
  | ASpan (ref : Z)
  | AOther (v : pyval).

Definition MSG_EXPORT_FAILED : string :=
  "Failed to export span. Span must be a valid Span object.".

(** [ExportedLLMObsSpan(span_id=str(span.span_id),
    trace_id="{:x}".format(span.trace_id))]: the dictionary that
    [submit_evaluation] takes as [span_context]. *)
Definition exported (sp : Span) : pyval :=
  PDict [("span_id", PStr (str_int (span_id sp)));
         ("trace_id", PStr (format_x (trace_id sp)))].

(** A span object is truthy, and its ids are ints, so nothing raises inside
    the [try]; any other value that is truthy has no [span_type], and the
    [AttributeError] ends in the handler. *)
Definition export_span (span : span_arg) : M pyval :=
  let of_current_span : M pyval :=
    st ← get_state;
    match current_span st with
    | None => log_warning MSG_NO_SPAN ;; mret PNone
    | Some span =>
        sp ← get_span span;
        if negb (is_llm_span sp) then log_warning MSG_NOT_LLMOBS_SPAN ;; mret PNone
        else mret (exported sp)
    end in
  match span with
  | ASpan span =>
      sp ← get_span span;
      if negb (is_llm_span sp) then log_warning MSG_NOT_LLMOBS_SPAN ;; mret PNone
      else mret (exported sp)
  | AOther v =>
      if truthy v then log_warning MSG_EXPORT_FAILED ;; mret PNone
      else of_current_span
  end.

(** The span [export_span] looks at. *)
Definition exported_span (st : LLMObsState) (span : span_arg) : option Z :=
  match span with
  | ASpan span => Some span
  | AOther v => if truthy v then None else current_span st
  end.

(** ** Further definitions: flush and disable *)






Section Collaborators.

(** The calls into objects that live outside this module: [periodic] of the
    two writers, [atexit.unregister], [stop] of the service base class and
    the telemetry writer.  Each may do to the state what it likes, and may
    raise. *)
Variable _llmobs_span_writer_periodic : M unit.
Variable _llmobs_eval_metric_writer_periodic : M unit.
Variable other_instance_hook : bool.
Variable atexit_unregister : M unit.
Variable stop : M unit.
Variable telemetry_product_activated : bool -> M unit.



End Collaborators.






(** An evaluation of the span that [open_llm_span] exports. *)
Definition args_for_exported_span : EvalArgs :=
  mkEvalArgs (exported open_llm_span) (PStr "toxicity") (PStr "score") (PInt 1)
    PNone PNone PNone PNone.

(** ** Further definitions: enable *)

(** The settings [enable] reads and writes on [ddtrace.config]. *)
Record Settings := mkSettings {
  base : Config;                        (* _dd_api_key, _llmobs_ml_app *)
  _dd_site : option string;
  env : option string;
  service : option string;
  _llmobs_agentless_enabled : bool;
  _remote_config_enabled : bool;
}.

(** The calls [enable] makes into other modules, by name. *)
Inductive external_call :=
  | remoteconfig_poller_disable
  | telemetry_writer_enable_agentless_client
  | patch_integrations (modules : list string)
  | new_instance            (* cls(tracer=_tracer) *)
  | instance_start          (* cls._instance.start() *)
  | atexit_register_disable
  | telemetry_writer_product_activated.

Inductive effect :=
  | Logged (lvl : level) (msg : string)
  | Called (c : external_call).

(** The process as [enable] sees it: the class flag, the settings, the
    environment, and what was logged and called so far, in order. *)
Record Runtime := mkRuntime {
  rt_enabled : bool;
  rt_config : Settings;
  rt_environ : gmap string string;
  rt_trace : list effect;
}.

Record EnableArgs := mkEnableArgs {
  enable_ml_app : option string;
  integrations_enabled : bool;
  agentless_enabled : bool;
  enable_site : option string;
  enable_api_key : option string;
  enable_env : option string;
  enable_service : option string;
}.

Inductive enable_end :=
  | Returned
  | ValueError (msg : string).

Definition MSG_ML_APP_REQUIRED : string :=
  "DD_LLMOBS_ML_APP is required for sending LLMObs data. Ensure this configuration is set before running your application.".
Definition MSG_API_KEY_REQUIRED : string :=
  "DD_API_KEY is required for sending LLMObs data when agentless mode is enabled. Ensure this configuration is set before running your application.".
Definition MSG_SITE_REQUIRED : string :=
  "DD_SITE is required for sending LLMObs data when agentless mode is enabled. Ensure this configuration is set before running your application.".

Definition SUPPORTED_LLMOBS_INTEGRATIONS : list (string * string) :=
  [("anthropic", "anthropic"); ("bedrock", "botocore"); ("openai", "openai");
   ("langchain", "langchain"); ("google_generativeai", "google_generativeai")].

(** [a or b] on two optional strings. *)
Definition or_str (a b : option string) : option string :=
  if truthy (config_value a) then a else b.

Definition getenv (rt : Runtime) (key : string) : option string :=
  rt_environ rt !! key.

Definition emit (e : effect) (rt : Runtime) : Runtime :=
  mkRuntime (rt_enabled rt) (rt_config rt) (rt_environ rt) (rt_trace rt ++ [e]).

Definition set_config (c : Settings) (rt : Runtime) : Runtime :=
  mkRuntime (rt_enabled rt) c (rt_environ rt) (rt_trace rt).

Definition set_rt_enabled (b : bool) (rt : Runtime) : Runtime :=
  mkRuntime b (rt_config rt) (rt_environ rt) (rt_trace rt).

Definition with_dd_site (v : option string) (c : Settings) : Settings :=
  mkSettings (base c) v (env c) (service c) (_llmobs_agentless_enabled c)
    (_remote_config_enabled c).

Definition with_dd_api_key (v : option string) (c : Settings) : Settings :=
  mkSettings (mkConfig v (_llmobs_ml_app (base c))) (_dd_site c) (env c) (service c)
    (_llmobs_agentless_enabled c) (_remote_config_enabled c).

Definition with_env (v : option string) (c : Settings) : Settings :=
  mkSettings (base c) (_dd_site c) v (service c) (_llmobs_agentless_enabled c)
    (_remote_config_enabled c).

Definition with_service (v : option string) (c : Settings) : Settings :=
  mkSettings (base c) (_dd_site c) (env c) v (_llmobs_agentless_enabled c)
    (_remote_config_enabled c).

Definition with_llmobs_ml_app (v : option string) (c : Settings) : Settings :=
  mkSettings (mkConfig (_dd_api_key (base c)) v) (_dd_site c) (env c) (service c)
    (_llmobs_agentless_enabled c) (_remote_config_enabled c).

Definition with_agentless_enabled (v : bool) (c : Settings) : Settings :=
  mkSettings (base c) (_dd_site c) (env c) (service c) v (_remote_config_enabled c).

Definition with_remote_config_enabled (v : bool) (c : Settings) : Settings :=
  mkSettings (base c) (_dd_site c) (env c) (service c)
    (_llmobs_agentless_enabled c) v.

(** [_patch_integrations]. *)
Definition _patch_integrations (rt : Runtime) : Runtime :=
  emit (Logged DEBUG
          "Patched LLM integrations: ['anthropic', 'botocore', 'openai', 'langchain', 'google_generativeai']")
    (emit (Called (patch_integrations (map snd SUPPORTED_LLMOBS_INTEGRATIONS))) rt).

Section Enable.

(** [ddtrace.internal.utils.formats.asbool], on the text of a variable. *)
Variable asbool : string -> bool.

(** The lines of [enable] that write the settings, up to the first check. *)
Definition resolve_settings (a : EnableArgs) (rt : Runtime) : Runtime :=
  let rt := set_config (with_dd_site (or_str (enable_site a) (_dd_site (rt_config rt)))
                          (rt_config rt)) rt in
  let rt := set_config (with_dd_api_key
                          (or_str (enable_api_key a) (_dd_api_key (base (rt_config rt))))
                          (rt_config rt)) rt in
  let rt := set_config (with_env (or_str (enable_env a) (env (rt_config rt)))
                          (rt_config rt)) rt in
  let rt := set_config (with_service (or_str (enable_service a) (service (rt_config rt)))
                          (rt_config rt)) rt in
  let rt :=
    if truthy (config_value (getenv rt "DD_LLMOBS_APP_NAME")) then
      let rt := emit (Logged WARNING
                        "`DD_LLMOBS_APP_NAME` is deprecated. Use `DD_LLMOBS_ML_APP` instead.")
                  rt in
      set_config (with_llmobs_ml_app
                    (or_str (enable_ml_app a) (getenv rt "DD_LLMOBS_APP_NAME"))
                    (rt_config rt)) rt
    else rt in
  set_config (with_llmobs_ml_app
                (or_str (enable_ml_app a) (_llmobs_ml_app (base (rt_config rt))))
                (rt_config rt)) rt.

(** The last lines of [enable], after the checks.  Each call is taken to
    return. *)
Definition start_instance (a : EnableArgs) (rt : Runtime) : Runtime :=
  let rt := if integrations_enabled a then _patch_integrations rt else rt in
  let rt := emit (Called new_instance) rt in
  let rt := set_rt_enabled true rt in
  let rt := emit (Called instance_start) rt in
  let rt := emit (Called atexit_register_disable) rt in
  let rt := emit (Called telemetry_writer_product_activated) rt in
  emit (Logged DEBUG "LLMObs enabled") rt.

Definition enable (a : EnableArgs) (rt : Runtime) : enable_end * Runtime :=
  if rt_enabled rt then (Returned, emit (Logged DEBUG "LLMObs already enabled") rt)
  else if truthy (config_value (getenv rt "DD_LLMOBS_ENABLED"))
          && negb (asbool (default "" (getenv rt "DD_LLMOBS_ENABLED")))
  then
    (Returned,
     emit (Logged DEBUG
             "LLMObs.enable() called when DD_LLMOBS_ENABLED is set to false or 0, not starting LLMObs service")
       rt)
  else
    let rt := resolve_settings a rt in
    if negb (truthy (config_value (_llmobs_ml_app (base (rt_config rt))))) then
      (ValueError MSG_ML_APP_REQUIRED, rt)
    else
      let rt := set_config (with_agentless_enabled
                              (agentless_enabled a
                               || _llmobs_agentless_enabled (rt_config rt))
                              (rt_config rt)) rt in
      if _llmobs_agentless_enabled (rt_config rt) then
        if negb (truthy (config_value (_dd_api_key (base (rt_config rt))))) then
          (ValueError MSG_API_KEY_REQUIRED, rt)
        else if negb (truthy (config_value (_dd_site (rt_config rt)))) then
          (ValueError MSG_SITE_REQUIRED, rt)
        else
          let rt :=
            if negb (truthy (config_value (getenv rt "DD_REMOTE_CONFIG_ENABLED"))) then
              let rt := set_config (with_remote_config_enabled false (rt_config rt)) rt in
              let rt := emit (Logged DEBUG
                                "Remote configuration disabled because DD_LLMOBS_AGENTLESS_ENABLED is set to true.")
                          rt in
              emit (Called remoteconfig_poller_disable) rt
            else rt in
          let rt := emit (Called telemetry_writer_enable_agentless_client) rt in
          (Returned, start_instance a rt)
      else (Returned, start_instance a rt).

End Enable.

(** The values [enable] resolves, from its arguments, the environment and
    the settings it finds. *)
Definition resolved_app (a : EnableArgs) (rt : Runtime) : option string :=
  or_str (enable_ml_app a)
    (if truthy (config_value (getenv rt "DD_LLMOBS_APP_NAME"))
     then or_str (enable_ml_app a) (getenv rt "DD_LLMOBS_APP_NAME")
     else _llmobs_ml_app (base (rt_config rt))).

Definition resolved_agentless (a : EnableArgs) (rt : Runtime) : bool :=
  agentless_enabled a || _llmobs_agentless_enabled (rt_config rt).

(** The call gets past the two guards: the service is not enabled yet and
    the environment does not switch it off. *)
Definition proceeds (asbool : string -> bool) (rt : Runtime) : bool :=
  negb (rt_enabled rt)
  && negb (truthy (config_value (getenv rt "DD_LLMOBS_ENABLED"))
           && negb (asbool (default "" (getenv rt "DD_LLMOBS_ENABLED")))).

(** The configuration [enable] accepts. *)
Definition acceptable (a : EnableArgs) (rt : Runtime) : bool :=
  truthy (config_value (resolved_app a rt))
  && (negb (resolved_agentless a rt)
      || (truthy (config_value (or_str (enable_api_key a)
                                  (_dd_api_key (base (rt_config rt)))))
          && truthy (config_value (or_str (enable_site a) (_dd_site (rt_config rt)))))).



(** The calls in a trace, in order. *)
Definition calls_of (trace : list effect) : list external_call :=
  omap (fun e => match e with Called c => Some c | Logged _ _ => None end) trace.

(** The calls of an [enable] that starts the service. *)
Definition expected_calls (a : EnableArgs) (rt : Runtime) : list external_call :=
  (if resolved_agentless a rt then
     (if truthy (config_value (getenv rt "DD_REMOTE_CONFIG_ENABLED")) then []
      else [remoteconfig_poller_disable])
     ++ [telemetry_writer_enable_agentless_client]
   else [])
  ++ (if integrations_enabled a then
        [patch_integrations
           ["anthropic"; "botocore"; "openai"; "langchain"; "google_generativeai"]]
      else [])
  ++ [new_instance; instance_start; atexit_register_disable;
      telemetry_writer_product_activated].

(** The error of an [enable] that is rejected. *)
Definition expected_error (a : EnableArgs) (rt : Runtime) : string :=
  if negb (truthy (config_value (resolved_app a rt))) then MSG_ML_APP_REQUIRED
  else if negb (truthy (config_value (or_str (enable_api_key a)
                                        (_dd_api_key (base (rt_config rt))))))
       then MSG_API_KEY_REQUIRED
       else MSG_SITE_REQUIRED.


(** A process where only the deprecated variable names the application,
    next to a configured name, and a call of [enable] with no argument. *)
Definition sample_asbool (s : string) : bool :=
  String.eqb (lower s) "true" || String.eqb s "1".

Definition sample_runtime : Runtime :=
  mkRuntime false
    (mkSettings (mkConfig None (Some "configured")) (Some "datadoghq.com") None None
       false true)
    {[ "DD_LLMOBS_APP_NAME" := "legacy" ]} [].

Definition enable_with_defaults : EnableArgs :=
  mkEnableArgs None true false None None None None.

(** * The cookie check of the IAST taint sinks

    [ddtrace/appsec/_iast/taint_sinks/insecure_cookie.py].  Text is a
    string of characters below 256; on such text the model's [lower] and
    Python's differ only on letters outside ASCII, which match none of the
    ASCII patterns the check looks for. *)

(** [s.replace(" ", "")]. *)
Fixpoint replace_spaces (s : string) : string :=
  match s with
  | EmptyString => EmptyString
  | String c s' =>
      if Ascii.eqb c " "%char then replace_spaces s' else String c (replace_spaces s')
  end.

(** [s.startswith(p)]. *)
Definition startswith (s p : string) : bool := String.prefix p s.

(** [sub in s]. *)
Fixpoint contains (sub s : string) : bool :=
  String.prefix sub s
  || match s with
     | EmptyString => false
     | String _ s' => contains sub s'
     end.

Fixpoint drop_chars (n : nat) (s : string) : string :=
  match n, s with
  | O, _ => s
  | S n', String _ s' => drop_chars n' s'
  | S _, EmptyString => EmptyString
  end.

(** The text before and after the first [sep] in [s]. *)
Fixpoint cut (sep s : string) : option (string * string) :=
  if String.prefix sep s then Some (EmptyString, drop_chars (String.length sep) s)
  else
    match s with
    | EmptyString => None
    | String c s' =>
        match cut sep s' with
        | Some (before, after) => Some (String c before, after)
        | None => None
        end
    end.

(** [s.split(sep)] for a [sep] that is not empty: the pieces between the
    occurrences of [sep], found from the left; each cut leaves less text, so
    the length of [s] is fuel enough. *)
Fixpoint split_fuel (fuel : nat) (sep s : string) : list string :=
  match fuel with
  | O => [s]
  | S fuel' =>
      match cut sep s with
      | Some (before, after) => before :: split_fuel fuel' sep after
      | None => [s]
      end
  end.

Definition split (s sep : string) : list string :=
  split_fuel (String.length s) sep s.

(** The string of two double quotes. *)
Definition two_quotes : string :=
  String "034"%char (String "034"%char EmptyString).

Inductive vulnerability_type :=
  | VULN_INSECURE_COOKIE
  | VULN_NO_HTTPONLY_COOKIE
  | VULN_NO_SAMESITE_COOKIE.

(** The calls the check makes into the IAST runtime, by name; each is taken
    to return.  The text [iast_taint_log_error] is given holds the
    interpreter's description of the exception and is left out. *)
Inductive iast_call :=
  | increment_iast_span_metric (v : vulnerability_type)
  | _set_metric_iast_executed_sink (v : vulnerability_type)
  | report (v : vulnerability_type) (evidence_value : string)
  | iast_taint_log_error.

(** The three calls that report one vulnerability. *)
Definition report_calls (v : vulnerability_type) (cookie_key : string)
  : list iast_call :=
  [increment_iast_span_metric v; _set_metric_iast_executed_sink v; report v cookie_key].

Definition report_samesite (lvalue : string) : bool :=
  if contains ";samesite=" lvalue then
    let ss_tokens := split lvalue ";samesite=" in
    if (List.length ss_tokens <=? 1)%nat then true
    else
      let token := lower (nth 1 ss_tokens EmptyString) in
      if startswith token "strict" || startswith token "lax" then false else true
  else true.

(** The body of the loop, for one cookie whose value is text. *)
Definition check_cookie (cookie_key cookie_value : string) : list iast_call :=
  let lvalue := replace_spaces (lower cookie_value) in
  if String.eqb lvalue "" || startswith lvalue ";" || startswith lvalue two_quotes
  then []
  else
    (if negb (contains ";secure" lvalue)
     then report_calls VULN_INSECURE_COOKIE cookie_key else [])
    ++ (if negb (contains ";httponly" lvalue)
        then report_calls VULN_NO_HTTPONLY_COOKIE cookie_key else [])
    ++ (if report_samesite lvalue
        then report_calls VULN_NO_SAMESITE_COOKIE cookie_key else []).

(** The loop: a value that is not text has no [lower], and the exception
    ends the loop; the flag says so. *)
Fixpoint check_items (items : list (string * pyval)) : list iast_call * bool :=
  match items with
  | [] => ([], false)
  | (cookie_key, PStr cookie_value) :: rest =>
      let (calls, raised) := check_items rest in
      (check_cookie cookie_key cookie_value ++ calls, raised)
  | (_, _) :: _ => ([], true)
  end.

(** [asm_check_cookies], given what [_is_iast_enabled()] and
    [is_iast_request_enabled()] return: the calls it makes, in order.  A
    truthy value that is not a dict has no [items], which ends in the handler
    as well. *)
Definition asm_check_cookies (_is_iast_enabled is_iast_request_enabled : bool)
    (cookies : pyval) : list iast_call :=
  if negb (truthy cookies) then []
  else if _is_iast_enabled && is_iast_request_enabled then
    match cookies with
    | PDict items =>
        let (calls, raised) := check_items items in
        calls ++ (if raised then [iast_taint_log_error] else [])
    | _ => [iast_taint_log_error]
    end
  else [].

(** The cookie is one the check skips: no value, or a value that starts
    with a semicolon or with two double quotes. *)
Definition skipped (lvalue : string) : bool :=
  String.eqb lvalue "" || startswith lvalue ";" || startswith lvalue two_quotes.

(** The vulnerabilities reported in a list of calls, with their evidence. *)
Definition reported (calls : list iast_call) : list (vulnerability_type * string) :=
  omap (fun c => match c with report v k => Some (v, k) | _ => None end) calls.


(** The character [c] does not occur in [p]. *)
Fixpoint no_char (c : ascii) (p : string) : Prop :=
  match p with
  | EmptyString => True
  | String d p' => d <> c /\ no_char c p'
  end.

(** The vulnerability a call is about. *)
Definition call_type (c : iast_call) : option vulnerability_type :=
  match c with
  | increment_iast_span_metric v | _set_metric_iast_executed_sink v | report v _ => Some v
  | iast_taint_log_error => None
  end.

Definition is_about (v : vulnerability_type) (c : iast_call) : bool :=
  match call_type c, v with
  | Some VULN_INSECURE_COOKIE, VULN_INSECURE_COOKIE
  | Some VULN_NO_HTTPONLY_COOKIE, VULN_NO_HTTPONLY_COOKIE
  | Some VULN_NO_SAMESITE_COOKIE, VULN_NO_SAMESITE_COOKIE => true
  | _, _ => false
  end.

(** The calls, but for those about [v]. *)
Definition without (v : vulnerability_type) (calls : list iast_call) : list iast_call :=
  List.filter (fun c => negb (is_about v c)) calls.

(** The calls for the cookies of a dict whose values are all text. *)
Definition calls_for (items : list (string * string)) : list iast_call :=
  flat_map (fun kv => check_cookie kv.1 kv.2) items.

Definition text_items (items : list (string * string)) : list (string * pyval) :=
  map (fun kv => (kv.1, PStr kv.2)) items.

(** * Properties *)

Section Properties.

Context `{Imports}.

Ltac monad_simpl :=
  unfold submit, submit_evaluation, py_lower, enqueue, log_warning, log_debug,
    modify, get_state, raise, when;
  unfold mbind, M_bind, mret, M_ret.

(** ** Dictionaries *)

Lemma dict_lookup_set_eq k v d : dict_lookup k (dict_set k v d) = Some v.
Proof.
  induction d as [|[k' v'] d IH]; simpl.
  - by rewrite String.eqb_refl.
  - destruct (String.eqb k k') eqn:E; simpl; rewrite ?String.eqb_refl, ?E; done.
Qed.

Lemma dict_lookup_set_ne k k' v d :
  k <> k' -> dict_lookup k (dict_set k' v d) = dict_lookup k d.
Proof.
  intros Hne. induction d as [|[k2 v2] d IH]; simpl.
  - by apply String.eqb_neq in Hne as ->.
  - destruct (String.eqb k' k2) eqn:E; simpl.
    + apply String.eqb_eq in E as <-. by apply String.eqb_neq in Hne as ->.
    + by rewrite IH.
Qed.

Lemma dict_lookup_set k k' v d :
  dict_lookup k (dict_set k' v d)
  = if String.eqb k k' then Some v else dict_lookup k d.
Proof.
  destruct (String.eqb k k') eqn:E.
  - apply String.eqb_eq in E as ->. apply dict_lookup_set_eq.
  - apply String.eqb_neq in E. by apply dict_lookup_set_ne.
Qed.

(** [d.update(new)] is right-biased: a key of [new] gets the value [new]
    gives it last, any other key keeps the value of [d]. *)
Lemma dict_lookup_update k d new :
  dict_lookup k (dict_update d new)
  = match dict_lookup k (rev new) with
    | Some v => Some v
    | None => dict_lookup k d
    end.
Proof.
  unfold dict_update. revert d.
  induction new as [|[k' v'] new IH] using rev_ind; intros d; [done|].
  rewrite fold_left_app, rev_app_distr. simpl.
  rewrite dict_lookup_set. destruct (String.eqb k k'); [done|]. apply IH.
Qed.

(** ** Evaluation submission, check by check *)

Lemma submit_disabled st a :
  check_passes st a ChkEnabled = false ->
  submit a st = (Done tt, add_event (Log WARNING MSG_EVAL_DISABLED) st).
Proof. simpl. intros He. monad_simpl. by rewrite He. Qed.

Lemma submit_no_credential st a :
  check_passes st a ChkEnabled = true ->
  check_passes st a ChkCredential = false ->
  submit a st = (Done tt, add_event (Log WARNING MSG_EVAL_API_KEY) st).
Proof. simpl. intros He Hc. monad_simpl. by rewrite He, Hc. Qed.

Lemma submit_not_mapping st a :
  check_passes st a ChkEnabled = true ->
  check_passes st a ChkCredential = true ->
  check_passes st a ChkSpanRefMapping = false ->
  submit a st = (Done tt, add_event (Log WARNING MSG_EVAL_SPAN_CONTEXT) st).
Proof. simpl. intros He Hc Hm. monad_simpl. by rewrite He, Hc, Hm. Qed.

Lemma submit_no_ml_app st a :
  check_passes st a ChkEnabled = true ->
  check_passes st a ChkCredential = true ->
  check_passes st a ChkSpanRefMapping = true ->
  check_passes st a ChkAppId = false ->
  submit a st = (Done tt, add_event (Log WARNING MSG_EVAL_ML_APP) st).
Proof.
  simpl. unfold resolved_ml_app. intros He Hc Hm Ha. monad_simpl.
  rewrite He, Hc, Hm. simpl. by rewrite Ha.
Qed.

Lemma timestamp_check st a :
  negb (isinstance_int (resolved_timestamp st a)) || lt_zero (resolved_timestamp st a)
  = negb (check_passes st a ChkTimestamp).
Proof. simpl. by rewrite negb_andb, negb_involutive. Qed.

Lemma submit_bad_timestamp st a :
  check_passes st a ChkEnabled = true ->
  check_passes st a ChkCredential = true ->
  check_passes st a ChkSpanRefMapping = true ->
  check_passes st a ChkAppId = true ->
  check_passes st a ChkTimestamp = false ->
  submit a st = (Done tt, add_event (Log WARNING MSG_EVAL_TIMESTAMP) st).
Proof.
  intros He Hc Hm Ha Ht. pose proof (timestamp_check st a) as Hts.
  rewrite Ht in Hts. simpl in He, Hc, Hm, Ha. unfold resolved_ml_app in Ha.
  unfold resolved_timestamp in Hts. monad_simpl.
  rewrite He, Hc, Hm. simpl. rewrite Ha. simpl. by rewrite Hts.
Qed.

Ltac enter_prefix Hp :=
  let He := fresh "He" in let Hc := fresh "Hc" in let Hm := fresh "Hm" in
  let Ha := fresh "Ha" in let Ht := fresh "Ht" in let Hts := fresh "Hts" in
  destruct Hp as (He & Hc & Hm & Ha & Ht);
  match goal with |- context [submit ?a ?st] =>
    pose proof (timestamp_check st a) as Hts end;
  rewrite Ht in Hts; simpl in He, Hc, Hm, Ha;
  unfold resolved_ml_app in Ha; unfold resolved_timestamp in Hts;
  monad_simpl; rewrite He, Hc, Hm; simpl; rewrite Ha; simpl; rewrite Hts; simpl.

Lemma submit_missing_ids st a :
  prefix_ok st a ->
  check_passes st a ChkSpanRefIds = false ->
  submit a st = (Done tt, add_event (Log WARNING MSG_EVAL_IDS) st).
Proof.
  intros Hp Hi. simpl in Hi. unfold ids_present in Hi.
  enter_prefix Hp. by rewrite Hi.
Qed.

Lemma submit_no_label st a :
  prefix_ok st a ->
  check_passes st a ChkSpanRefIds = true ->
  check_passes st a ChkLabel = false ->
  submit a st = (Done tt, add_event (Log WARNING MSG_EVAL_LABEL) st).
Proof.
  intros Hp Hi Hl. simpl in Hi, Hl. unfold ids_present in Hi.
  enter_prefix Hp. by rewrite Hi, Hl.
Qed.

Lemma resolved_kind_in_metric_types a s :
  arg_metric_type a = PStr s ->
  in_metric_types (lower s) = bool_decide (is_Some (resolved_kind a)).
Proof.
  intros Hs. unfold resolved_kind, in_metric_types. rewrite Hs.
  destruct (String.eqb (lower s) "categorical"),
    (String.eqb (lower s) "numerical"), (String.eqb (lower s) "score");
    reflexivity.
Qed.

Lemma submit_bad_metric_type st a :
  metric_type_typed a = true ->
  prefix_ok st a ->
  check_passes st a ChkSpanRefIds = true ->
  check_passes st a ChkLabel = true ->
  check_passes st a ChkMetricKind = false ->
  submit a st = (Done tt, add_event (Log WARNING MSG_EVAL_METRIC_TYPE) st).
Proof.
  intros Hty Hp Hi Hl Hk. simpl in Hi, Hl, Hk. unfold ids_present in Hi.
  unfold metric_type_typed in Hty.
  enter_prefix Hp. rewrite Hi, Hl. simpl.
  destruct (truthy (arg_metric_type a)) eqn:Htr; simpl; [|done].
  rewrite orb_false_r in Hty.
  destruct (arg_metric_type a) as [| | | |s| | | |] eqn:Hmt; try done.
  by rewrite (resolved_kind_in_metric_types a s Hmt), Hk.
Qed.

(** An untyped metric kind: a truthy value that is not text has no [lower]. *)
Lemma submit_metric_type_raises st a :
  metric_type_typed a = false ->
  prefix_ok st a ->
  check_passes st a ChkSpanRefIds = true ->
  check_passes st a ChkLabel = true ->
  submit a st = (Raised AttributeError, st).
Proof.
  intros Hty Hp Hi Hl. simpl in Hi, Hl. unfold ids_present in Hi.
  unfold metric_type_typed in Hty. apply orb_false_iff in Hty as [Hs Htr].
  apply negb_false_iff in Htr.
  enter_prefix Hp. rewrite Hi, Hl, Htr. simpl.
  by destruct (arg_metric_type a).
Qed.

(** ** The record-building half *)

Lemma eval_queue_add_events evs st :
  eval_queue (add_events evs st) = eval_queue st.
Proof. revert st. induction evs as [|e evs IH]; intros st; [done|]. simpl. by rewrite IH. Qed.

Lemma events_add_events evs st :
  events (add_events evs st) = events st ++ evs.
Proof.
  revert st. induction evs as [|e evs IH]; intros st; simpl.
  - by rewrite app_nil_r.
  - rewrite IH. simpl. by rewrite <- app_assoc.
Qed.

Lemma add_events_app evs1 evs2 st :
  add_events (evs1 ++ evs2) st = add_events evs2 (add_events evs1 st).
Proof. apply fold_left_app. Qed.

(** The tag loop always ends normally; its result and what it logs do not
    depend on the state it runs in. *)
Lemma tags_loop_spec items acc :
  exists acc' evs, forall st,
    tags_loop items acc st = (Done acc', add_events evs st).
Proof.
  revert acc. induction items as [|[k v] items IH]; intros acc; simpl.
  - by exists acc, [].
  - destruct (ensure_text v) as [v'|], (ensure_text (PStr k)) as [k'|].
    1: apply IH.
    all: destruct (IH acc) as (acc' & evs & Hl);
      exists acc', (Log WARNING MSG_EVAL_TAG_PARSE :: evs); intros st;
      monad_simpl; by rewrite Hl.
Qed.

Lemma enqueue_evaluation_metric_spec
    span_id trace_id label (metric_type : string) value tags ml_app timestamp_ms metadata :
  metric_type = "score" \/ metric_type = "categorical" ->
  exists em evs,
    record_has em span_id trace_id metric_type value ml_app timestamp_ms
    /\ forall st,
      enqueue_evaluation_metric span_id trace_id label metric_type value tags
        ml_app timestamp_ms metadata st
      = (Done tt, set_eval_queue (eval_queue st ++ [PDict em]) (add_events evs st)).
Proof.
  intros Hmt. unfold enqueue_evaluation_metric.
  set (tags0 := [("ddtrace.version", PStr ddtrace_version); ("ml_app", ml_app)]).
  assert (exists tags' evs, forall st,
    (if truthy tags then tags_loop (dict_items tags) tags0 else mret tags0) st
    = (Done tags', add_events evs st)) as (tags' & evs & Htags).
  { destruct (truthy tags); [apply tags_loop_spec|]. by exists tags0, []. }
  set (em := [("span_id", span_id); ("trace_id", trace_id);
              ("label", PStr (str_ label)); ("metric_type", PStr (lower metric_type));
              ("timestamp_ms", timestamp_ms); (metric_type +:+ "_value", value);
              ("ml_app", ml_app); ("tags", PList (map format_tag tags'))]).
  assert (record_has em span_id trace_id metric_type value ml_app timestamp_ms) as Hem.
  { unfold record_has, em. destruct Hmt as [-> | ->]; by repeat split. }
  destruct (truthy metadata) eqn:Hmd; [destruct (isinstance_dict metadata) eqn:Hd|].
  - destruct metadata as [| | | | | |d| |]; try done.
    exists (dict_set "metadata" (PDict d) em), evs. split.
    + destruct Hem as (? & ? & ? & ? & ? & ?).
      destruct Hmt as [-> | ->]; unfold record_has;
        rewrite !dict_lookup_set_ne by done; by repeat split.
    + intros st. monad_simpl. unfold mbind, M_bind. rewrite Htags. simpl.
      by rewrite eval_queue_add_events.
  - exists em, (evs ++ [Log WARNING MSG_EVAL_METADATA]). split; [done|].
    intros st. monad_simpl. unfold mbind, M_bind. rewrite Htags. simpl.
    rewrite eval_queue_add_events, add_events_app. done.
  - exists em, evs. split; [done|].
    intros st. monad_simpl. unfold mbind, M_bind. rewrite Htags. simpl.
    by rewrite eval_queue_add_events.
Qed.

(** ** After the metric kind is resolved *)

Lemma resolved_kind_cases a k :
  resolved_kind a = Some k ->
  exists s, arg_metric_type a = PStr s /\ truthy (PStr s) = true
    /\ in_metric_types (lower s) = true
    /\ (if String.eqb (lower s) "numerical" then k = "score" else k = lower s)
    /\ (k = "score" \/ k = "categorical").
Proof.
  unfold resolved_kind, in_metric_types.
  destruct (arg_metric_type a) as [| | | |s| | | |]; try done.
  intros Hk. exists s. split; [done|].
  destruct (String.eqb (lower s) "categorical") eqn:E1.
  - apply String.eqb_eq in E1. rewrite E1. simplify_eq. simpl.
    destruct s; [done|]. auto.
  - destruct (String.eqb (lower s) "score") eqn:E2;
      destruct (String.eqb (lower s) "numerical") eqn:E3; simpl in Hk; simplify_eq;
      (destruct s; [done|]); simpl; repeat split; auto.
    apply String.eqb_eq in E2. auto.
Qed.

Lemma submit_checked st a k :
  prefix_ok st a ->
  check_passes st a ChkSpanRefIds = true ->
  check_passes st a ChkLabel = true ->
  resolved_kind a = Some k ->
  submit a st =
    if String.eqb k "categorical" && negb (isinstance_str (arg_value a)) then
      (Done tt, add_event (Log WARNING MSG_EVAL_CATEGORICAL_VALUE) (numerical_notice a st))
    else if String.eqb k "score" && negb (isinstance_int_float (arg_value a)) then
      (Done tt, add_event (Log WARNING MSG_EVAL_SCORE_VALUE) (numerical_notice a st))
    else if negb (is_none (arg_tags a)) && negb (isinstance_dict (arg_tags a)) then
      (Done tt, add_event (Log WARNING MSG_EVAL_TAGS) (numerical_notice a st))
    else
      enqueue_evaluation_metric (py_get (arg_span_context a) "span_id")
        (py_get (arg_span_context a) "trace_id") (arg_label a) k (arg_value a)
        (arg_tags a) (resolved_ml_app st a) (resolved_timestamp st a)
        (arg_metadata a) (numerical_notice a st).
Proof.
  intros Hp Hi Hl Hk. simpl in Hi, Hl. unfold ids_present in Hi.
  destruct (resolved_kind_cases a k Hk) as (s & Hs & Htr & Hin & Hmap & _).
  unfold numerical_notice, resolved_ml_app, resolved_timestamp.
  enter_prefix Hp. rewrite Hi, Hl, Hs, Htr. simpl. rewrite Hin. simpl.
  destruct (String.eqb (lower s) "numerical"); subst k; simpl.
  - destruct (isinstance_int_float (arg_value a)); simpl; [|done].
    by destruct (negb (is_none (arg_tags a)) && negb (isinstance_dict (arg_tags a))).
  - destruct (String.eqb (lower s) "categorical" && negb (isinstance_str (arg_value a)));
      [done|].
    destruct (String.eqb (lower s) "score" && negb (isinstance_int_float (arg_value a)));
      [done|].
    by destruct (negb (is_none (arg_tags a)) && negb (isinstance_dict (arg_tags a))).
Qed.

(** A failing check before the metric kind: one warning, nothing else. *)
Lemma submit_early st a c :
  first_failure early_checks st a = Some c ->
  exists msg, warnings_of c = [msg]
    /\ submit a st = (Done tt, add_event (Log WARNING msg) st).
Proof.
  unfold first_failure, early_checks. cbn [List.find].
  destruct (check_passes st a ChkEnabled) eqn:He; cbn [negb];
    [|intros [= <-]; eexists; split; [done|]; by apply submit_disabled].
  destruct (check_passes st a ChkCredential) eqn:Hc; cbn [negb];
    [|intros [= <-]; eexists; split; [done|]; by apply submit_no_credential].
  destruct (check_passes st a ChkSpanRefMapping) eqn:Hm; cbn [negb];
    [|intros [= <-]; eexists; split; [done|]; by apply submit_not_mapping].
  destruct (check_passes st a ChkAppId) eqn:Ha; cbn [negb];
    [|intros [= <-]; eexists; split; [done|]; by apply submit_no_ml_app].
  destruct (check_passes st a ChkTimestamp) eqn:Ht; cbn [negb];
    [|intros [= <-]; eexists; split; [done|]; by apply submit_bad_timestamp].
  destruct (check_passes st a ChkSpanRefIds) eqn:Hi; cbn [negb];
    [|intros [= <-]; eexists; split; [done|]; by apply submit_missing_ids].
  destruct (check_passes st a ChkLabel) eqn:Hl; cbn [negb];
    [|intros [= <-]; eexists; split; [done|]; by apply submit_no_label].
  done.
Qed.

Lemma early_checks_pass st a :
  first_failure early_checks st a = None ->
  prefix_ok st a
  /\ check_passes st a ChkSpanRefIds = true
  /\ check_passes st a ChkLabel = true.
Proof.
  unfold first_failure, early_checks, prefix_ok. cbn [List.find].
  repeat (match goal with
          | |- context [negb (check_passes st a ?c)] =>
              destruct (check_passes st a c) eqn:?; cbn [negb]; [|done]
          end).
  done.
Qed.

(** The code's order is the early checks, then kind and value. *)
Lemma first_failure_code_order st a :
  first_failure code_order st a
  = match first_failure early_checks st a with
    | Some c => Some c
    | None => first_failure [ChkMetricKind; ChkValue] st a
    end.
Proof.
  unfold first_failure, code_order, early_checks. cbn [List.find].
  repeat (match goal with
          | |- context [negb (check_passes st a ?c)] =>
              destruct (check_passes st a c); cbn [negb]; try done
          end).
Qed.

Lemma last_add_event e st : last (events (add_event e st)) = Some e.
Proof. simpl. apply last_snoc. Qed.

Lemma eval_queue_numerical_notice a st :
  eval_queue (numerical_notice a st) = eval_queue st.
Proof.
  unfold numerical_notice. destruct (arg_metric_type a); try done.
  by destruct (String.eqb _ _).
Qed.

(** A call that passes every check enqueues exactly one record. *)
Lemma submit_valid st a :
  valid st a = true ->
  exists k em evs,
    resolved_kind a = Some k
    /\ record_has em (py_get (arg_span_context a) "span_id")
         (py_get (arg_span_context a) "trace_id") k (arg_value a)
         (resolved_ml_app st a) (resolved_timestamp st a)
    /\ submit a st
       = (Done tt, set_eval_queue (eval_queue st ++ [PDict em])
                     (add_events evs (numerical_notice a st))).
Proof.
  unfold valid. intros [Hall Htags]%andb_prop.
  assert (first_failure code_order st a = None) as Hff.
  { unfold first_failure. destruct (List.find _ _) as [c|] eqn:Hf; [|done].
    apply List.find_some in Hf as [Hin Hc].
    rewrite forallb_forall in Hall. rewrite (Hall c Hin) in Hc. done. }
  rewrite first_failure_code_order in Hff.
  destruct (first_failure early_checks st a) eqn:Hearly; [done|].
  apply early_checks_pass in Hearly as (Hp & Hi & Hl).
  unfold first_failure in Hff. cbn [List.find] in Hff.
  destruct (check_passes st a ChkMetricKind) eqn:Hk; [|done].
  destruct (check_passes st a ChkValue) eqn:Hv; [|done].
  simpl in Hk. apply bool_decide_eq_true in Hk as [k Hk].
  destruct (resolved_kind_cases a k Hk) as (s & _ & _ & _ & _ & Hsc).
  destruct (enqueue_evaluation_metric_spec (py_get (arg_span_context a) "span_id")
    (py_get (arg_span_context a) "trace_id") (arg_label a) k (arg_value a)
    (arg_tags a) (resolved_ml_app st a) (resolved_timestamp st a)
    (arg_metadata a) Hsc) as (em & evs & Hem & Hrun).
  exists k, em, evs. split; [done|]. split; [done|].
  rewrite (submit_checked st a k Hp Hi Hl Hk), Hrun, eval_queue_numerical_notice.
  simpl in Hv. rewrite Hk in Hv.
  replace (negb (is_none (arg_tags a)) && negb (isinstance_dict (arg_tags a)))
    with false by (by destruct (is_none (arg_tags a)), (isinstance_dict (arg_tags a))).
  destruct Hsc as [-> | ->]; simpl in Hv |- *; by rewrite Hv.
Qed.

(** C1 (amended): [submit_evaluation] runs its checks in the order
    enabled, credential, span reference is a mapping, application id,
    timestamp, both ids present, label, metric kind, value type.  For a metric
    kind that is text or absent, the first check that fails aborts the call:
    it returns without raising, leaves the queue as it was, and the last
    thing it logs is a warning of that check. *)
Theorem submit_evaluation_first_failure_aborts st a c :
  metric_type_typed a = true ->
  first_failure code_order st a = Some c ->
  aborted_by st a c.
Proof.
  intros Hty. rewrite first_failure_code_order. unfold aborted_by, result, exec.
  destruct (first_failure early_checks st a) as [c'|] eqn:Hearly.
  - intros [= <-]. destruct (submit_early st a c' Hearly) as (msg & Hw & ->).
    rewrite Hw. do 2 (split; [done|]). exists msg. split; [by left|apply last_add_event].
  - apply early_checks_pass in Hearly as (Hp & Hi & Hl).
    unfold first_failure. cbn [List.find].
    destruct (check_passes st a ChkMetricKind) eqn:Hk; cbn [negb].
    + destruct (check_passes st a ChkValue) eqn:Hv; cbn [negb]; [done|].
      intros [= <-]. simpl in Hk. apply bool_decide_eq_true in Hk as [k Hk].
      destruct (resolved_kind_cases a k Hk) as (s & _ & _ & _ & _ & Hsc).
      rewrite (submit_checked st a k Hp Hi Hl Hk).
      simpl in Hv. rewrite Hk in Hv.
      destruct Hsc as [-> | ->]; simpl in Hv |- *; rewrite Hv; simpl;
        (split; [done|]); (split; [apply eval_queue_numerical_notice|]);
        eexists; (split; [|apply last_snoc]); simpl; auto.
    + intros [= <-]. rewrite (submit_bad_metric_type st a Hty Hp Hi Hl Hk).
      do 2 (split; [done|]). eexists. split; [by left|apply last_add_event].
Qed.

(** C5: a metric kind that lower-cases to "numerical" passes the kind
    check; the call returns and enqueues exactly what it does for "score";
    and when every check passes, the one record it enqueues has metric type
    "score" and carries the value under "score_value". *)
Theorem numerical_is_stored_as_score st a s :
  lower s = "numerical" ->
  check_passes st (with_metric_type (PStr s) a) ChkMetricKind = true
  /\ result (submit (with_metric_type (PStr s) a)) st
     = result (submit (with_metric_type (PStr "score") a)) st
  /\ eval_queue (exec (submit (with_metric_type (PStr s) a)) st)
     = eval_queue (exec (submit (with_metric_type (PStr "score") a)) st)
  /\ (valid st (with_metric_type (PStr s) a) = true ->
      exists em,
        eval_queue (exec (submit (with_metric_type (PStr s) a)) st)
        = eval_queue st ++ [PDict em]
        /\ dict_lookup "metric_type" em = Some (PStr "score")
        /\ dict_lookup "score_value" em = Some (arg_value a)).
Proof.
  intros Hs.
  assert (resolved_kind (with_metric_type (PStr s) a) = Some "score") as Hk.
  { unfold resolved_kind. simpl. by rewrite Hs. }
  assert (resolved_kind (with_metric_type (PStr "score") a) = Some "score") as Hk' by done.
  split; [simpl; rewrite Hk; by apply bool_decide_eq_true_2|].
  unfold result, exec.
  match goal with
  | |- ?A /\ ?B /\ ?C =>
      cut (A /\ B); [intros [HA HB]; split; [exact HA|split; [exact HB|]]|]
  end.
  - intros Hv. destruct (submit_valid _ _ Hv) as (k & em & evs & Hk2 & Hem & ->).
    rewrite Hk in Hk2. injection Hk2 as <-.
    destruct Hem as (_ & _ & Hmt & _ & Hval & _).
    exists em. split; [done|split; [exact Hmt|exact Hval]].
  - destruct (first_failure early_checks st (with_metric_type (PStr s) a)) as [c|] eqn:He.
    + destruct (submit_early _ _ _ He) as (msg & _ & ->).
      change (first_failure early_checks st (with_metric_type (PStr "score") a) = Some c) in He.
      destruct (submit_early _ _ _ He) as (msg' & _ & ->). done.
    + pose proof He as He'.
      change (first_failure early_checks st (with_metric_type (PStr "score") a) = None) in He'.
      apply early_checks_pass in He as (Hp & Hi & Hl).
      apply early_checks_pass in He' as (Hp' & Hi' & Hl').
      rewrite (submit_checked _ _ _ Hp Hi Hl Hk), (submit_checked _ _ _ Hp' Hi' Hl' Hk').
      unfold resolved_ml_app, resolved_timestamp.
      cbn [arg_span_context arg_label arg_value arg_tags arg_ml_app
           arg_timestamp_ms arg_metadata with_metric_type
           String.eqb Ascii.eqb Bool.eqb andb].
      destruct (negb (isinstance_int_float (arg_value a)));
        [by simpl; rewrite !eval_queue_numerical_notice|].
      destruct (negb (is_none (arg_tags a)) && negb (isinstance_dict (arg_tags a)));
        [by simpl; rewrite !eval_queue_numerical_notice|].
      match goal with
      | |- context [enqueue_evaluation_metric ?i ?t ?l ?k ?v ?tg ?m ?ts ?md _] =>
          destruct (enqueue_evaluation_metric_spec i t l k v tg m ts md
                      (or_introl eq_refl)) as (em & evs & _ & Hrun)
      end.
      rewrite !Hrun. simpl.
      by rewrite ?eval_queue_add_events, ?eval_queue_numerical_notice.
Qed.

(** C10: a call with [timestamp_ms = 0] runs exactly as a call without
    a timestamp, and when every check passes the one record it enqueues
    carries the current time in milliseconds, not 0. *)
Theorem zero_timestamp_is_replaced_by_now st a :
  submit (with_timestamp_ms (PInt 0) a) st = submit (with_timestamp_ms PNone a) st
  /\ (valid st (with_timestamp_ms (PInt 0) a) = true ->
      exists em,
        eval_queue (exec (submit (with_timestamp_ms (PInt 0) a)) st)
        = eval_queue st ++ [PDict em]
        /\ dict_lookup "timestamp_ms" em = Some (PInt (clock_ms st))).
Proof.
  split; [reflexivity|].
  intros Hv. destruct (submit_valid _ _ Hv) as (k & em & evs & _ & Hem & Hrun).
  destruct Hem as (_ & _ & _ & Hts & _).
  exists em. split; [|done]. unfold exec. by rewrite Hrun.
Qed.

End Properties.

Section SpanProperties.

Context `{Imports}.

(** ** Running the monad *)

Lemma bind_run {A B} (m : M A) (f : A -> M B) st :
  (m ≫= f) st
  = match m st with
    | (Done a, st') => f a st'
    | (Raised e, st') => (Raised e, st')
    end.
Proof. done. Qed.

Lemma get_span_run ref sp st :
  spans st !! ref = Some sp -> get_span ref st = (Done sp, st).
Proof. unfold get_span. by intros ->. Qed.

(** ** One span and the log *)

Lemma with_span_id ref sp st :
  spans st !! ref = Some sp -> with_span ref sp [] st = st.
Proof.
  intros Hl. destruct st. unfold with_span. simpl in *.
  by rewrite insert_id, app_nil_r.
Qed.

Lemma with_span_with_span ref sp1 evs1 sp2 evs2 st :
  with_span ref sp2 evs2 (with_span ref sp1 evs1 st)
  = with_span ref sp2 (evs1 ++ evs2) st.
Proof. unfold with_span. simpl. by rewrite insert_insert_eq, app_assoc. Qed.

Lemma get_state_with_span ref sp evs st :
  get_state (with_span ref sp evs st)
  = (Done (with_span ref sp evs st), with_span ref sp evs st).
Proof. done. Qed.

Lemma get_span_with_span ref sp evs st :
  get_span ref (with_span ref sp evs st) = (Done sp, with_span ref sp evs st).
Proof. unfold get_span. simpl. by rewrite lookup_insert_eq. Qed.

Lemma update_span_with_span ref f sp evs st :
  update_span ref f (with_span ref sp evs st)
  = (Done tt, with_span ref (f sp) evs st).
Proof.
  unfold update_span, modify, set_spans, with_span. simpl.
  by rewrite alter_insert_eq.
Qed.

Lemma add_event_with_span e ref sp evs st :
  add_event e (with_span ref sp evs st) = with_span ref sp (evs ++ [e]) st.
Proof. unfold add_event, with_span. simpl. by rewrite app_assoc. Qed.

Lemma add_event_as_with_span e ref sp st :
  spans st !! ref = Some sp -> add_event e st = with_span ref sp [e] st.
Proof.
  intros Hsp. rewrite <- (with_span_id ref sp st Hsp) at 1.
  apply add_event_with_span.
Qed.

Lemma log_warning_with_span msg ref sp evs st :
  log_warning msg (with_span ref sp evs st)
  = (Done tt, with_span ref sp (evs ++ [Log WARNING msg]) st).
Proof. unfold log_warning, modify. by rewrite add_event_with_span. Qed.

Lemma log_debug_with_span msg ref sp evs st :
  log_debug msg (with_span ref sp evs st)
  = (Done tt, with_span ref sp (evs ++ [Log DEBUG msg]) st).
Proof. unfold log_debug, modify. by rewrite add_event_with_span. Qed.

(** ** The tag merge on a span *)

Lemma _tag_span_tags_with_span ref sp evs st tags :
  exists evs',
    _tag_span_tags ref tags (with_span ref sp evs st)
    = (Done tt, with_span ref (put_tag TAGS (tags_after (get_tag TAGS sp) tags) sp)
                  (evs ++ evs') st)
    /\ (forall d, tags = PDict d -> is_Some (merged_tags (get_tag TAGS sp) d) ->
        evs' = []).
Proof.
  assert (put_tag TAGS (get_tag TAGS sp) sp = sp) as Hsame.
  { unfold put_tag, get_tag. destruct (_meta sp !! TAGS) eqn:E; [|done].
    destruct sp. unfold set_tag_str. simpl in *. by rewrite insert_id. }
  unfold _tag_span_tags, tags_after.
  destruct (truthy tags) eqn:Htr; simpl.
  2:{ exists []. rewrite Hsame, app_nil_r. done. }
  destruct tags as [| | | | | |d| |];
    try (exists [Log WARNING "span_tags must be a dictionary of string key - primitive value pairs."];
         unfold mbind, M_bind; rewrite log_warning_with_span, Hsame; by split).
  unfold mbind, M_bind. rewrite get_span_with_span.
  destruct (merged_tags (get_tag TAGS sp) d) as [m|] eqn:Hm.
  - exists []. rewrite update_span_with_span, app_nil_r. done.
  - exists [Log WARNING "Failed to parse tags."].
    rewrite log_warning_with_span, Hsame. split; [done|].
    intros d' [= <-] [? ?]. congruence.
Qed.

(** ** annotate *)

(** A span that is finished, or not of type LLM, is left alone: the call
    logs one warning and does nothing else. *)
Lemma annotate_refused st span ref sp
    parameters prompt input_data output_data metadata metrics tags _name :
  annotated_span st span = Some ref ->
  spans st !! ref = Some sp ->
  is_llm_span sp = false \/ finished sp = true ->
  annotate span parameters prompt input_data output_data metadata metrics
    tags _name st
  = (Done tt,
     add_event (Log WARNING (if is_llm_span sp then MSG_FINISHED
                             else MSG_NOT_LLMOBS_SPAN)) st).
Proof.
  intros Href Hsp Hno. unfold annotate.
  unfold mbind at 1, M_bind at 1. cbn [get_state]. rewrite Href.
  unfold mbind, M_bind, get_span. rewrite Hsp.
  destruct (is_llm_span sp); simpl; [|done].
  destruct Hno as [?|Hfin]; [done|]. by rewrite Hfin.
Qed.

Lemma annotate_entry_with_span ref sp evs st e :
  is_llm_span sp = true ->
  finished sp = false ->
  exists evs',
    annotate_entry ref e (with_span ref sp evs st)
    = (Done tt, with_span ref (apply_scope e.2 sp) (evs ++ evs') st).
Proof.
  intros Hllm Hfin. unfold annotate_entry, annotate, apply_scope.
  destruct e as [[aid cid] [tags prompt nm]]. simpl.
  unfold mbind at 1, M_bind at 1. rewrite get_state_with_span.
  unfold mbind at 1, M_bind at 1. rewrite get_span_with_span.
  rewrite Hllm, Hfin. simpl.
  set (sp1 := put_tag TAGS (tags_after (get_tag TAGS sp) tags) sp).
  assert (exists evs1, forall (k : M unit),
    (when (negb (is_none tags)) (_tag_span_tags ref tags) ;; k) (with_span ref sp evs st)
    = k (with_span ref sp1 (evs ++ evs1) st)) as (evs1 & Htags).
  { destruct (is_none tags) eqn:Hn; simpl.
    - exists []. intros k. unfold mbind, M_bind. simpl. rewrite app_nil_r.
      destruct tags; try done. unfold sp1, tags_after, put_tag, get_tag. simpl.
      destruct (_meta sp !! TAGS) eqn:E; [|done].
      destruct sp. unfold set_tag_str. simpl in *. by rewrite insert_id.
    - destruct (_tag_span_tags_with_span ref sp evs st tags) as (evs1 & Hrun & _).
      exists evs1. intros k. unfold mbind, M_bind. by rewrite Hrun. }
  unfold mbind at 1, M_bind at 1. cbn [when mret M_ret].
  unfold mbind at 1, M_bind at 1. cbn [when mret M_ret].
  rewrite Htags. clear Htags.
  unfold mbind at 1, M_bind at 1. rewrite get_span_with_span.
  unfold mbind at 1, M_bind at 1. cbn [when mret M_ret].
  set (sp2 := match nm with Some n => set_name n sp1 | None => sp1 end).
  assert (forall (k : M unit),
    (match nm with Some n => update_span ref (set_name n) | None => mret tt end ;; k)
      (with_span ref sp1 (evs ++ evs1) st)
    = k (with_span ref sp2 (evs ++ evs1) st)) as Hname.
  { intros k. unfold mbind, M_bind, sp2. destruct nm; [|done].
    by rewrite update_span_with_span. }
  rewrite Hname. clear Hname.
  assert (exists evs2,
    when (negb (is_none prompt)) (_tag_prompt ref prompt) (with_span ref sp2 (evs ++ evs1) st)
    = (Done tt,
       with_span ref
         (if is_none prompt then sp2
          else match validate_prompt prompt with
               | Some v => set_tag_str INPUT_PROMPT (safe_json v) sp2
               | None => sp2
               end) (evs ++ evs1 ++ evs2) st)) as (evs2 & Hprompt).
  { destruct (is_none prompt); simpl.
    - exists []. by rewrite app_nil_r.
    - unfold _tag_prompt. destruct (validate_prompt prompt).
      + exists []. by rewrite update_span_with_span, app_nil_r.
      + eexists [_]. by rewrite log_warning_with_span, <- app_assoc. }
  unfold mbind at 1, M_bind at 1. rewrite Hprompt.
  destruct (negb (from_option text_truthy false (get_tag SPAN_KIND sp1))).
  - eexists. rewrite log_debug_with_span. by rewrite <- !app_assoc.
  - eexists. cbn [negb is_none orb when mret M_ret]. reflexivity.
Qed.

(** ** What a scope leaves untouched *)

Lemma tags_after_None cur tags : tags_after cur tags = None -> cur = None.
Proof.
  unfold tags_after. destruct (negb (truthy tags)); [done|].
  destruct tags; try done. by destruct (merged_tags cur d).
Qed.

Lemma get_tag_put_tag_TAGS cur tags sp :
  cur = get_tag TAGS sp ->
  get_tag TAGS (put_tag TAGS (tags_after cur tags) sp) = tags_after cur tags.
Proof.
  intros ->. unfold put_tag. destruct (tags_after _ _) eqn:E.
  - unfold get_tag, set_tag_str. simpl. apply lookup_insert_eq.
  - by apply tags_after_None in E.
Qed.

Lemma apply_scope_TAGS kw sp :
  get_tag TAGS (apply_scope kw sp) = tags_after (get_tag TAGS sp) (kw_tags kw).
Proof.
  pose proof (get_tag_put_tag_TAGS (get_tag TAGS sp) (kw_tags kw) sp eq_refl) as Hput.
  unfold apply_scope. revert Hput.
  set (sp1 := put_tag TAGS _ sp). intros <-.
  assert (get_tag TAGS (match kw_name kw with Some n => set_name n sp1 | None => sp1 end)
          = get_tag TAGS sp1) as Hn by (by destruct (kw_name kw)).
  destruct (is_none (kw_prompt kw)); [done|].
  destruct (validate_prompt (kw_prompt kw)); [|done].
  rewrite <- Hn. unfold get_tag, set_tag_str. simpl. by apply lookup_insert_ne.
Qed.

Lemma same_outside_scope_refl sp : same_outside_scope sp sp.
Proof. by repeat split. Qed.

Lemma same_outside_scope_trans sp1 sp2 sp3 :
  same_outside_scope sp1 sp2 -> same_outside_scope sp2 sp3 ->
  same_outside_scope sp1 sp3.
Proof.
  intros (? & ? & ? & ? & ? & ? & Hm1) (? & ? & ? & ? & ? & ? & Hm2).
  repeat split; try congruence. intros k Hk. by rewrite Hm2, Hm1.
Qed.

Lemma apply_scope_same_outside kw sp : same_outside_scope sp (apply_scope kw sp).
Proof.
  unfold apply_scope.
  assert (same_outside_scope sp (put_tag TAGS (tags_after (get_tag TAGS sp) (kw_tags kw)) sp)) as H1.
  { unfold put_tag. destruct (tags_after _ _); [|apply same_outside_scope_refl].
    repeat split. intros k Hk. simpl. apply lookup_insert_ne.
    intros <-. apply Hk. unfold scope_keys. set_solver. }
  set (sp1 := put_tag TAGS _ sp) in *.
  assert (same_outside_scope sp1
            (match kw_name kw with Some n => set_name n sp1 | None => sp1 end)) as H2.
  { destruct (kw_name kw); by repeat split. }
  set (sp2 := match kw_name kw with Some n => set_name n sp1 | None => sp1 end) in *.
  eapply same_outside_scope_trans; [exact H1|].
  eapply same_outside_scope_trans; [exact H2|].
  destruct (is_none (kw_prompt kw)); [apply same_outside_scope_refl|].
  destruct (validate_prompt (kw_prompt kw)); [|apply same_outside_scope_refl].
  repeat split. intros k Hk. simpl. apply lookup_insert_ne.
  intros <-. apply Hk. unfold scope_keys. set_solver.
Qed.

Lemma same_outside_scope_llm sp sp' :
  same_outside_scope sp sp' ->
  is_llm_span sp' = is_llm_span sp /\ finished sp' = finished sp.
Proof. intros (_ & _ & _ & _ & Ht & Hf & _). unfold is_llm_span. by rewrite Ht, Hf. Qed.

(** ** The start hook *)

Lemma apply_scopes_same_outside entries sp :
  same_outside_scope sp (apply_scopes entries sp).
Proof.
  revert sp. induction entries as [|e entries IH]; intros sp; simpl.
  - apply same_outside_scope_refl.
  - eapply same_outside_scope_trans; [apply apply_scope_same_outside|apply IH].
Qed.

Lemma annotations_loop_filter ref cid entries st :
  annotations_loop ref cid entries st
  = apply_annotations ref (List.filter (entry_matches cid) entries) st.
Proof.
  revert st. induction entries as [|[[aid c] kw] entries IH]; intros st; [done|].
  simpl. unfold entry_matches at 1. simpl.
  destruct (bool_decide (cid = Some c)); simpl.
  - unfold mbind, M_bind, annotate_entry. simpl.
    destruct (annotate _ _ _ _ _ _ _ _ _ st) as [[[]|e] st']; [apply IH|done].
  - unfold mbind, M_bind. simpl. apply IH.
Qed.

Lemma apply_annotations_with_span ref entries sp evs st :
  is_llm_span sp = true ->
  finished sp = false ->
  exists evs',
    apply_annotations ref entries (with_span ref sp evs st)
    = (Done tt, with_span ref (apply_scopes entries sp) (evs ++ evs') st).
Proof.
  revert sp evs. induction entries as [|e entries IH]; intros sp evs Hllm Hfin; simpl.
  - exists []. by rewrite app_nil_r.
  - destruct (annotate_entry_with_span ref sp evs st e Hllm Hfin) as (evs1 & Hrun).
    destruct (same_outside_scope_llm _ _ (apply_scope_same_outside e.2 sp)) as [Hl' Hf'].
    destruct (IH (apply_scope e.2 sp) (evs ++ evs1)) as (evs2 & Hrest);
      [congruence..|].
    exists (evs1 ++ evs2). unfold mbind, M_bind. rewrite Hrun, Hrest.
    by rewrite app_assoc.
Qed.

Lemma with_lock_run {A} (body : M A) st r st' :
  body (add_event LockAcquire st) = (r, st') ->
  with_lock body st = (r, add_event LockRelease st').
Proof. unfold with_lock. by intros ->. Qed.

(** The hook on a span of type LLM that is not finished: every entry of
    the active ambient id is applied, first registered first. *)
Lemma _do_annotations_with_span ref sp st ctx :
  spans st !! ref = Some sp ->
  is_llm_span sp = true ->
  finished sp = false ->
  current_trace_context st = Some ctx ->
  exists evs,
    _do_annotations ref st
    = (Done tt,
       with_span ref
         (apply_scopes
            (List.filter (entry_matches (ctx_baggage ctx !! ANNOTATIONS_CONTEXT_ID))
               (_annotations st)) sp)
         ([LockAcquire] ++ evs ++ [LockRelease]) st).
Proof.
  intros Hsp Hllm Hfin Hctx. unfold _do_annotations.
  rewrite bind_run, (get_span_run ref sp st Hsp), Hllm. cbn [negb].
  rewrite bind_run. cbn [get_state]. rewrite Hctx.
  destruct (apply_annotations_with_span ref
    (List.filter (entry_matches (ctx_baggage ctx !! ANNOTATIONS_CONTEXT_ID)) (_annotations st))
    sp [LockAcquire] st Hllm Hfin) as (evs & Hrun).
  exists evs. erewrite with_lock_run.
  2:{ rewrite (add_event_as_with_span LockAcquire ref sp st Hsp).
      rewrite bind_run. cbn [get_state].
      change (_annotations (with_span ref sp [LockAcquire] st)) with (_annotations st).
      rewrite annotations_loop_filter. exact Hrun. }
  by rewrite add_event_with_span, <- app_assoc.
Qed.

(** ** Claims about annotate, the tag merge and the start hook *)

(** C2: on a span whose finished flag is set, [annotate] does nothing
    whatever it is asked to write (tags, metadata, metrics, prompt, name,
    parameters, input and output data): it returns, the state is the one it
    started from with one warning logged after it, and so the span, its tag
    map and its name are what they were. *)
Theorem annotate_finished_span_is_noop st span ref sp
    parameters prompt input_data output_data metadata metrics tags _name :
  annotated_span st span = Some ref ->
  spans st !! ref = Some sp ->
  finished sp = true ->
  exists msg,
    annotate span parameters prompt input_data output_data metadata metrics
      tags _name st
    = (Done tt, add_event (Log WARNING msg) st)
    /\ (is_llm_span sp = true -> msg = MSG_FINISHED)
    /\ spans (exec (annotate span parameters prompt input_data output_data
                      metadata metrics tags _name) st) !! ref = Some sp.
Proof.
  intros Href Hsp Hfin.
  exists (if is_llm_span sp then MSG_FINISHED else MSG_NOT_LLMOBS_SPAN).
  pose proof (annotate_refused st span ref sp parameters prompt input_data
                output_data metadata metrics tags _name Href Hsp (or_intror Hfin)) as Hrun.
  split; [exact Hrun|]. split; [by intros ->|].
  unfold exec. by rewrite Hrun.
Qed.

(** ** Dictionaries with distinct keys *)

Lemma dict_lookup_app k d1 d2 :
  dict_lookup k (d1 ++ d2)
  = match dict_lookup k d1 with Some v => Some v | None => dict_lookup k d2 end.
Proof.
  induction d1 as [|[k' v'] d1 IH]; simpl; [done|].
  by destruct (String.eqb k k').
Qed.

Lemma dict_lookup_None k d : dict_lookup k d = None <-> k ∉ d.*1.
Proof.
  induction d as [|[k' v'] d IH]; simpl.
  - split; [intros _; apply not_elem_of_nil|done].
  - rewrite not_elem_of_cons. destruct (String.eqb k k') eqn:E.
    + apply String.eqb_eq in E. split; [done|]. by intros [? _].
    + apply String.eqb_neq in E. rewrite IH. tauto.
Qed.

Lemma dict_lookup_rev k d : NoDup d.*1 -> dict_lookup k (rev d) = dict_lookup k d.
Proof.
  induction d as [|[k' v'] d IH]; intros Hnd; [done|].
  simpl in Hnd. apply NoDup_cons in Hnd as [Hk' Hnd].
  simpl. rewrite dict_lookup_app, IH by done. simpl.
  destruct (String.eqb k k') eqn:E; [|by destruct (dict_lookup k d)].
  apply String.eqb_eq in E as ->.
  by apply dict_lookup_None in Hk' as ->.
Qed.

(** With distinct keys in [new], every key of [new] takes the value [new]
    gives it and the other keys keep the value of [d]. *)
Lemma dict_update_right_biased k d new :
  NoDup new.*1 ->
  dict_lookup k (dict_update d new)
  = match dict_lookup k new with Some v => Some v | None => dict_lookup k d end.
Proof. intros Hnd. by rewrite dict_lookup_update, dict_lookup_rev. Qed.

(** C3: tagging a span that carries the tag dictionary [old] with the
    dictionary [new] stores the shallow merge of the two and logs nothing.
    In the merge a key of [new] has the value of [new] and any other key the
    value of [old] (new wins); and when no key is in both, merging in the
    other order gives a dictionary with the same value at every key. *)
Theorem tag_merge_is_right_biased st ref sp old new :
  spans st !! ref = Some sp ->
  get_tag TAGS sp = Some (Json (PDict old)) ->
  new <> [] ->
  NoDup new.*1 ->
  _tag_span_tags ref (PDict new) st
  = (Done tt,
     with_span ref (set_tag_str TAGS (safe_json (PDict (dict_update old new))) sp) [] st)
  /\ stored_tags (exec (_tag_span_tags ref (PDict new)) st) ref
     = Some (dict_update old new)
  /\ (forall k,
        dict_lookup k (dict_update old new)
        = match dict_lookup k new with
          | Some v => Some v
          | None => dict_lookup k old
          end)
  /\ (NoDup old.*1 ->
      (forall k, dict_lookup k old = None \/ dict_lookup k new = None) ->
      forall k,
        dict_lookup k (dict_update old new) = dict_lookup k (dict_update new old)).
Proof.
  intros Hsp Htags Hne Hnd.
  assert (_tag_span_tags ref (PDict new) st
          = (Done tt,
             with_span ref
               (set_tag_str TAGS (safe_json (PDict (dict_update old new))) sp) [] st))
    as Hrun.
  { destruct (_tag_span_tags_with_span ref sp [] st (PDict new)) as (evs' & Hrun & Hquiet).
    rewrite (with_span_id ref sp st Hsp) in Hrun. rewrite Hrun.
    unfold tags_after, merged_tags in *. rewrite Htags in *. simpl in *.
    destruct new; [done|]. simpl in *.
    rewrite (Hquiet _ eq_refl) by eauto. done. }
  split; [exact Hrun|]. split.
  - unfold exec, stored_tags. rewrite Hrun. simpl.
    rewrite lookup_insert_eq. unfold get_tag. simpl. by rewrite lookup_insert_eq.
  - split; [intros k; by apply dict_update_right_biased|].
    intros Hnd' Hdisj k.
    rewrite !dict_update_right_biased by done.
    destruct (Hdisj k) as [-> | ->]; by destruct (dict_lookup k _).
Qed.

Lemma tags_after_fresh t :
  t <> [] -> tags_after None (PDict t) = Some (Json (PDict t)).
Proof. intros Hne. unfold tags_after. by destruct t. Qed.

Lemma tags_after_merge old t :
  t <> [] ->
  tags_after (Some (Json (PDict old))) (PDict t)
  = Some (Json (PDict (dict_update old t))).
Proof. intros Hne. unfold tags_after. by destruct t. Qed.

(** C4: the start hook returns at once on a span that is not of type
    LLM: no event, so no lock, and the state is untouched.  On a span of type
    LLM it takes the lock and calls [annotate] once for every registered entry
    whose ambient context id is the one of the active context, in the order of
    registration.  When two entries share that id and the span is new, the
    tags of both are on the span afterwards, a key of the entry registered
    later having the later value. *)
Theorem start_hook_applies_matching_scopes st ref sp :
  spans st !! ref = Some sp ->
  (is_llm_span sp = false -> _do_annotations ref st = (Done tt, st))
  /\ (is_llm_span sp = true ->
      forall ctx, current_trace_context st = Some ctx ->
        _do_annotations ref st
        = with_lock
            (apply_annotations ref
               (List.filter
                  (entry_matches (ctx_baggage ctx !! ANNOTATIONS_CONTEXT_ID))
                  (_annotations st))) st)
  /\ (is_llm_span sp = true -> finished sp = false -> get_tag TAGS sp = None ->
      forall ctx cid a1 a2 kw1 kw2 t1 t2,
        current_trace_context st = Some ctx ->
        ctx_baggage ctx !! ANNOTATIONS_CONTEXT_ID = Some cid ->
        _annotations st = [(a1, cid, kw1); (a2, cid, kw2)] ->
        kw_tags kw1 = PDict t1 -> kw_tags kw2 = PDict t2 ->
        t1 <> [] -> t2 <> [] -> NoDup t2.*1 ->
        result (_do_annotations ref) st = Done tt
        /\ stored_tags (exec (_do_annotations ref) st) ref
           = Some (dict_update t1 t2)
        /\ forall k,
             dict_lookup k (dict_update t1 t2)
             = match dict_lookup k t2 with
               | Some v => Some v
               | None => dict_lookup k t1
               end).
Proof.
  intros Hsp. split; [|split].
  - intros Hllm. unfold _do_annotations.
    by rewrite bind_run, (get_span_run ref sp st Hsp), Hllm.
  - intros Hllm ctx Hctx. unfold _do_annotations.
    rewrite bind_run, (get_span_run ref sp st Hsp), Hllm. cbn [negb].
    rewrite bind_run. cbn [get_state]. rewrite Hctx.
    unfold with_lock. rewrite bind_run. cbn [get_state].
    by rewrite annotations_loop_filter.
  - intros Hllm Hfin Hfresh ctx cid a1 a2 kw1 kw2 t1 t2 Hctx Hcid Hreg Hk1 Hk2
      Hne1 Hne2 Hnd.
    destruct (_do_annotations_with_span ref sp st ctx Hsp Hllm Hfin Hctx)
      as (evs & Hrun).
    unfold result, exec. rewrite Hrun. cbn [fst snd].
    split; [done|]. split; [|intros k; by apply dict_update_right_biased].
    unfold stored_tags. cbn [spans with_span]. rewrite lookup_insert_eq.
    rewrite Hreg, Hcid. unfold entry_matches. cbn [List.filter fst snd].
    rewrite bool_decide_eq_true_2 by done.
    unfold apply_scopes. cbn [fold_left fst snd].
    rewrite !apply_scope_TAGS, Hfresh, Hk1, Hk2.
    by rewrite tags_after_fresh, tags_after_merge.
Qed.

(** ** Closing a scope *)

Lemma find_annotation_Some annotation_id entries i :
  find_annotation annotation_id entries = Some i ->
  exists pre e post,
    entries = pre ++ e :: post
    /\ entry_id e = annotation_id
    /\ Forall (fun x => entry_id x <> annotation_id) pre
    /\ delete i entries = pre ++ post
    /\ i = List.length pre.
Proof.
  revert i. induction entries as [|[[key cid] kw] entries IH]; intros i; [done|].
  simpl. case_bool_decide as Hkey.
  - intros [= <-]. by exists [], (key, cid, kw), entries.
  - destruct (find_annotation annotation_id entries) as [j|]; [|done].
    intros [= <-].
    destruct (IH j eq_refl) as (pre & e & post & -> & He & Hpre & Hdel & Hj).
    exists ((key, cid, kw) :: pre), e, post. repeat split; [done| | |].
    + by constructor.
    + simpl. by rewrite Hdel.
    + simpl. by rewrite Hj.
Qed.

Lemma find_annotation_None annotation_id entries :
  find_annotation annotation_id entries = None ->
  Forall (fun x => entry_id x <> annotation_id) entries.
Proof.
  induction entries as [|[[key cid] kw] entries IH]; [by constructor|].
  simpl. case_bool_decide as Hkey; [done|].
  destruct (find_annotation annotation_id entries); [done|].
  intros _. constructor; [done|]. by apply IH.
Qed.

Lemma filter_keeps_other_ids annotation_id (l : list annotation_entry) :
  Forall (fun x => entry_id x <> annotation_id) l ->
  List.filter (has_other_id annotation_id) l = l.
Proof.
  induction l as [|x l IHl]; [done|]. intros [Hx Hl]%Forall_cons. simpl.
  unfold has_other_id at 1. rewrite bool_decide_eq_false_2 by done. simpl.
  by rewrite IHl.
Qed.

Lemma filter_other_ids annotation_id (pre post : list annotation_entry) e :
  entry_id e = annotation_id ->
  Forall (fun x => entry_id x <> annotation_id) pre ->
  NoDup (map entry_id (pre ++ e :: post)) ->
  List.filter (has_other_id annotation_id) (pre ++ e :: post)
  = pre ++ post.
Proof.
  intros He Hpre Hnd.
  rewrite List.filter_app, (filter_keeps_other_ids _ pre Hpre). cbn [List.filter].
  unfold has_other_id at 1. rewrite bool_decide_eq_true_2 by done. cbn [negb].
  f_equal. apply filter_keeps_other_ids.
  rewrite map_app in Hnd. simpl in Hnd.
  apply NoDup_app in Hnd as (_ & _ & Hnd). apply NoDup_cons in Hnd as [Hnot _].
  apply Forall_forall. intros x Hx Heq. apply Hnot.
  rewrite He, <- Heq. apply (list_elem_of_fmap_2 entry_id), Hx.
Qed.

(** C8: closing a scope never fails, and what it does to the registry it
    does under the lock.  When an entry carries the annotation id, the first
    such entry is removed and every other entry stays, in its place, whatever
    the ambient context ids are; the removal is the one write to the registry
    and it stands between the taking and the release of the lock.  With
    distinct annotation ids what is left is exactly the entries of the other
    ids.  When no entry carries the id, the registry is not written: the lock
    is taken, the miss is logged and the lock is released. *)
Theorem close_scope_removes_one_entry st annotation_id :
  result (deregister_annotation annotation_id) st = Done tt
  /\ ((exists pre e post,
         _annotations st = pre ++ e :: post
         /\ entry_id e = annotation_id
         /\ Forall (fun x => entry_id x <> annotation_id) pre
         /\ _annotations (exec (deregister_annotation annotation_id) st) = pre ++ post
         /\ events (exec (deregister_annotation annotation_id) st)
            = events st ++ [LockAcquire; RegistryPop (List.length pre); LockRelease])
      \/ (Forall (fun x => entry_id x <> annotation_id) (_annotations st)
          /\ _annotations (exec (deregister_annotation annotation_id) st) = _annotations st
          /\ events (exec (deregister_annotation annotation_id) st)
             = events st ++ [LockAcquire; Log DEBUG "Failed to pop annotation context";
                             LockRelease]))
  /\ (NoDup (map entry_id (_annotations st)) ->
      _annotations (exec (deregister_annotation annotation_id) st)
      = List.filter (has_other_id annotation_id)
          (_annotations st)).
Proof.
  unfold result, exec, deregister_annotation, with_lock.
  rewrite bind_run. cbn [get_state _annotations add_event].
  destruct (find_annotation annotation_id (_annotations st)) as [i|] eqn:Hfind.
  - destruct (find_annotation_Some _ _ _ Hfind)
      as (pre & e & post & Hreg & He & Hpre & Hdel & Hi).
    cbn. split; [done|]. split.
    + left. exists pre, e, post. rewrite Hdel, Hi, <- !app_assoc. done.
    + intros Hnd. rewrite Hdel. rewrite Hreg in Hnd |- *.
      symmetry. by apply filter_other_ids.
  - pose proof (find_annotation_None _ _ Hfind) as Hnone.
    cbn. split; [done|]. split.
    + right. rewrite <- !app_assoc. done.
    + intros _. symmetry. by apply filter_keeps_other_ids.
Qed.

(** ** Header activation *)

(** C6 (amended): when the service is enabled, the context is extracted
    from the carrier; if the trace id or the span id is absent the call logs a
    warning and activates nothing; if both are there the extracted context
    becomes the active one, after a warning when the logical-parent key is not
    among its tags.  When the service is not enabled, the call logs a warning
    and activates nothing. *)
Theorem activate_distributed_headers_spec st request_headers :
  let context := HTTPPropagator_extract request_headers in
  (enabled st = false ->
   activate_distributed_headers request_headers st
   = (Done tt, add_event (Log WARNING MSG_ACTIVATE_DISABLED) st))
  /\ (enabled st = true ->
      ctx_trace_id context = None \/ ctx_span_id context = None ->
      activate_distributed_headers request_headers st
      = (Done tt, add_event (Log WARNING MSG_ACTIVATE_IDS) st))
  /\ (enabled st = true ->
      ctx_trace_id context <> None -> ctx_span_id context <> None ->
      ctx_meta context !! PROPAGATED_PARENT_ID_KEY = None ->
      activate_distributed_headers request_headers st
      = (Done tt, exec (activate context) (add_event (Log WARNING MSG_ACTIVATE_PARENT) st))
      /\ current_trace_context (exec (activate_distributed_headers request_headers) st)
         = Some context)
  /\ (enabled st = true ->
      ctx_trace_id context <> None -> ctx_span_id context <> None ->
      ctx_meta context !! PROPAGATED_PARENT_ID_KEY <> None ->
      activate_distributed_headers request_headers st
      = (Done tt, exec (activate context) st)).
Proof.
  intros context. unfold activate_distributed_headers.
  rewrite bind_run. cbn [get_state]. fold context.
  split; [|split; [|split]].
  - by intros ->.
  - intros -> Hids. cbn [negb].
    rewrite orb_true_intro; [done|].
    destruct Hids as [-> | ->]; [left|right]; done.
  - intros He Ht Hs Hk.
    assert (activate_distributed_headers request_headers st
            = (Done tt, exec (activate context)
                          (add_event (Log WARNING MSG_ACTIVATE_PARENT) st))) as Hrun.
    { unfold activate_distributed_headers. rewrite bind_run. cbn [get_state].
      fold context. rewrite He. cbn [negb].
      rewrite !bool_decide_eq_false_2 by done. by rewrite bool_decide_eq_true_2. }
    unfold activate_distributed_headers in Hrun. rewrite bind_run in Hrun.
    cbn [get_state] in Hrun. fold context in Hrun.
    split; [exact Hrun|].
    unfold exec at 1. unfold activate_distributed_headers. rewrite bind_run.
    cbn [get_state]. fold context. by rewrite Hrun.
  - intros -> Ht Hs Hk. cbn [negb].
    rewrite !bool_decide_eq_false_2 by done. done.
Qed.

(** ** The span factory *)

Lemma set_spans_as_with_span ref sp st :
  set_spans (<[ref := sp]> (spans st)) st = with_span ref sp [] st.
Proof. unfold set_spans, with_span. by rewrite app_nil_r. Qed.

Lemma mret_run {A} (a : A) st : (mret a : M A) st = (Done a, st).
Proof. done. Qed.

Lemma tracer_trace_llm_run st name resource :
  exists evs,
    tracer_trace name resource (Some SpanTypes_LLM) st
    = (Done (next_span_id st),
       with_span (next_span_id st)
         (hooked_span st (tracer_new_span st name resource (Some SpanTypes_LLM)))
         evs (tracer_activate_new st)).
Proof.
  unfold tracer_trace, hooked_span.
  change (spans st) with (spans (tracer_activate_new st)).
  rewrite set_spans_as_with_span, bind_run.
  set (sp0 := tracer_new_span st name resource (Some SpanTypes_LLM)).
  set (base := tracer_activate_new st).
  destruct (hook_registered st); cbn [when].
  - destruct (_do_annotations_with_span (next_span_id st) sp0
                (with_span (next_span_id st) sp0 [] base)
                (mkContext
                   (Some (default (next_span_id st)
                            (ctx_trace_id (default (mkContext None None ∅ ∅)
                                             (current_trace_context st)))))
                   (Some (next_span_id st))
                   (ctx_meta (default (mkContext None None ∅ ∅) (current_trace_context st)))
                   (ctx_baggage (default (mkContext None None ∅ ∅) (current_trace_context st)))))
      as (evs & Hrun); [by apply lookup_insert_eq|done..|].
    rewrite Hrun, with_span_with_span. by eexists.
  - by exists [].
Qed.

Lemma not_scope_key k : k <> TAGS -> k <> INPUT_PROMPT -> k ∉ scope_keys.
Proof.
  intros H1 H2 Hin. unfold scope_keys in Hin.
  apply elem_of_cons in Hin as [?|Hin]; [done|].
  apply elem_of_cons in Hin as [?|Hin]; [done|].
  by apply elem_of_nil in Hin.
Qed.

Lemma hooked_span_same_outside st sp : same_outside_scope sp (hooked_span st sp).
Proof.
  unfold hooked_span. destruct (hook_registered st);
    [apply apply_scopes_same_outside|apply same_outside_scope_refl].
Qed.

Lemma hooked_span_no_scope st sp :
  hook_registered st = false \/ _annotations st = [] -> hooked_span st sp = sp.
Proof.
  unfold hooked_span. intros [-> | ->]; [done|]. by destruct (hook_registered st).
Qed.

Lemma get_tag_set_tag_str_eq k v sp : get_tag k (set_tag_str k v sp) = Some v.
Proof. unfold get_tag, set_tag_str. simpl. apply lookup_insert_eq. Qed.

Lemma get_tag_set_tag_str_ne k k' v sp :
  k' <> k -> get_tag k (set_tag_str k' v sp) = get_tag k sp.
Proof. intros Hne. unfold get_tag, set_tag_str. simpl. by apply lookup_insert_ne. Qed.

(** What [_start_span] leaves in the store: the span the tracer handed out,
    with the kind tag, the model tags that were given, and the session,
    application and parent tags. *)
Lemma _start_span_run st operation_kind nm session_id model_name model_provider ml_app :
  exists sp evs,
    _start_span operation_kind nm session_id model_name model_provider ml_app st
    = (Done (next_span_id st),
       with_span (next_span_id st) sp evs (tracer_activate_new st))
    /\ get_tag SPAN_KIND sp = Some (Plain operation_kind)
    /\ name sp
       = name
           (hooked_span st
              (tracer_new_span st (default operation_kind nm) operation_kind
                 (Some SpanTypes_LLM)))
    /\ get_tag MODEL_NAME sp
       = match model_name with
         | Some m => Some (Plain m)
         | None => new_span_meta st !! MODEL_NAME
         end
    /\ get_tag MODEL_PROVIDER sp
       = match model_provider with
         | Some m => Some (Plain m)
         | None => new_span_meta st !! MODEL_PROVIDER
         end.
Proof.
  unfold _start_span.
  destruct (tracer_trace_llm_run st (default operation_kind nm) operation_kind)
    as (evs & Htrace).
  set (sp0 := tracer_new_span st (default operation_kind nm) operation_kind
                (Some SpanTypes_LLM)) in *.
  pose proof (hooked_span_same_outside st sp0) as (_ & _ & _ & _ & _ & _ & Hmeta).
  assert (get_tag MODEL_NAME (hooked_span st sp0) = new_span_meta st !! MODEL_NAME) as Hmn.
  { unfold get_tag. rewrite Hmeta; [done|]. by apply not_scope_key. }
  assert (get_tag MODEL_PROVIDER (hooked_span st sp0) = new_span_meta st !! MODEL_PROVIDER)
    as Hmp.
  { unfold get_tag. rewrite Hmeta; [done|]. by apply not_scope_key. }
  set (sp1 := hooked_span st sp0) in *. clearbody sp1. clear Hmeta.
  set (base := tracer_activate_new st) in *. clearbody base.
  rewrite bind_run, Htrace.
  rewrite bind_run, update_span_with_span.
  destruct model_name as [mn|], model_provider as [mp|];
    rewrite bind_run, ?update_span_with_span, ?mret_run;
    rewrite bind_run, ?update_span_with_span, ?mret_run;
    rewrite bind_run, get_state_with_span;
    rewrite bind_run, get_span_with_span;
    (destruct session_id as [sid|];
       [|match goal with |- context [_get_session_id ?s ?p] =>
           destruct (_get_session_id s p) as [sid|] end]);
    rewrite bind_run, ?update_span_with_span, ?mret_run;
    rewrite bind_run, get_state_with_span;
    rewrite bind_run, get_span_with_span;
    rewrite bind_run, update_span_with_span;
    rewrite bind_run, get_state_with_span;
    rewrite bind_run, get_span_with_span;
    rewrite bind_run;
    match goal with |- context [match get_tag PROPAGATED_PARENT_ID_KEY ?p with _ => _ end] =>
      destruct (get_tag PROPAGATED_PARENT_ID_KEY p) end;
    rewrite ?update_span_with_span, ?mret_run;
    eexists _, _; (split; [reflexivity|]);
    repeat first [ rewrite get_tag_set_tag_str_eq
                 | rewrite get_tag_set_tag_str_ne by done ];
    done.
Qed.

Lemma lookup_with_span ref sp evs st : spans (with_span ref sp evs st) !! ref = Some sp.
Proof. simpl. apply lookup_insert_eq. Qed.

(** C7: for every kind, [_start_span] returns the new span, behaves
    with no name exactly as with the kind given as name, and leaves in the
    store a span that has the kind tag and the name the tracer's start hook
    left on it, which is the name passed in (by default the kind) when no
    annotation scope is applied.  A model name that is not supplied is not
    written: the tag is what the tracer delivered; likewise the provider. *)
Theorem start_span_sets_kind_and_no_model_tags st operation_kind nm session_id
    model_name model_provider ml_app :
  result (_start_span operation_kind nm session_id model_name model_provider ml_app) st
  = Done (next_span_id st)
  /\ _start_span operation_kind None session_id model_name model_provider ml_app st
     = _start_span operation_kind (Some operation_kind) session_id model_name
         model_provider ml_app st
  /\ exists sp,
       spans (exec (_start_span operation_kind nm session_id model_name
                      model_provider ml_app) st) !! next_span_id st = Some sp
       /\ get_tag SPAN_KIND sp = Some (Plain operation_kind)
       /\ (hook_registered st = false \/ _annotations st = [] ->
           name sp = default operation_kind nm)
       /\ (model_name = None -> get_tag MODEL_NAME sp = new_span_meta st !! MODEL_NAME)
       /\ (model_provider = None ->
           get_tag MODEL_PROVIDER sp = new_span_meta st !! MODEL_PROVIDER).
Proof.
  destruct (_start_span_run st operation_kind nm session_id model_name
              model_provider ml_app) as (sp & evs & Hrun & Hkind & Hname & Hmn & Hmp).
  unfold result, exec. rewrite Hrun. cbn [fst snd].
  split; [done|]. split; [done|].
  exists sp. split; [apply lookup_with_span|]. split; [done|]. split; [|split].
  - intros Hno. rewrite Hname. by rewrite hooked_span_no_scope.
  - by intros ->.
  - by intros ->.
Qed.

Lemma warn_if_disabled_run st :
  warn_if_disabled st
  = (Done tt, if enabled st then st
              else add_event (Log WARNING SPAN_START_WHILE_DISABLED_WARNING) st).
Proof. unfold warn_if_disabled. rewrite bind_run. cbn [get_state]. by destruct (enabled st). Qed.

(** C9: [llm] and [embedding] call [_start_span] with "custom" in place
    of a model name or a model provider that was not given, so the span they
    leave in the store always has both tags, next to its kind. *)
Theorem llm_and_embedding_default_model_to_custom st model_name nm model_provider
    session_id ml_app :
  (llm model_name nm model_provider session_id ml_app
   = (warn_if_disabled ;;
      _start_span "llm" nm session_id (Some (default "custom" model_name))
        (Some (default "custom" model_provider)) ml_app)
   /\ exists sp,
        spans (exec (llm model_name nm model_provider session_id ml_app) st)
          !! next_span_id st = Some sp
        /\ get_tag SPAN_KIND sp = Some (Plain "llm")
        /\ get_tag MODEL_NAME sp = Some (Plain (default "custom" model_name))
        /\ get_tag MODEL_PROVIDER sp = Some (Plain (default "custom" model_provider)))
  /\ (embedding model_name nm model_provider session_id ml_app
      = (warn_if_disabled ;;
         _start_span "embedding" nm session_id (Some (default "custom" model_name))
           (Some (default "custom" model_provider)) ml_app)
      /\ exists sp,
           spans (exec (embedding model_name nm model_provider session_id ml_app) st)
             !! next_span_id st = Some sp
           /\ get_tag SPAN_KIND sp = Some (Plain "embedding")
           /\ get_tag MODEL_NAME sp = Some (Plain (default "custom" model_name))
           /\ get_tag MODEL_PROVIDER sp = Some (Plain (default "custom" model_provider))).
Proof.
  split.
  - split; [by destruct model_name, model_provider|].
    unfold exec, llm. rewrite bind_run, warn_if_disabled_run.
    set (st1 := if enabled st then st else _).
    assert (next_span_id st1 = next_span_id st) as <- by (unfold st1; by destruct (enabled st)).
    destruct (_start_span_run st1 "llm" nm session_id
                (Some (match model_name with None => "custom" | Some m => m end))
                (Some (match model_provider with None => "custom" | Some m => m end))
                ml_app) as (sp & evs & Hrun & Hkind & _ & Hmn & Hmp).
    rewrite Hrun. exists sp. split; [apply lookup_with_span|].
    by destruct model_name, model_provider.
  - split; [by destruct model_name, model_provider|].
    unfold exec, embedding. rewrite bind_run, warn_if_disabled_run.
    set (st1 := if enabled st then st else _).
    assert (next_span_id st1 = next_span_id st) as <- by (unfold st1; by destruct (enabled st)).
    destruct (_start_span_run st1 "embedding" nm session_id
                (Some (match model_name with None => "custom" | Some m => m end))
                (Some (match model_provider with None => "custom" | Some m => m end))
                ml_app) as (sp & evs & Hrun & Hkind & _ & Hmn & Hmp).
    rewrite Hrun. exists sp. split; [apply lookup_with_span|].
    by destruct model_name, model_provider.
Qed.

End SpanProperties.

(** * The model at work *)

Section Examples.

#[local] Existing Instance sample_imports.

(** C1, as the spec orders the checks: with a span reference that has no
    ids and a negative timestamp, the first check to fail in the spec's order
    is the one on the span reference, yet the call is not aborted by it: the
    warning it logs is the one about the timestamp. *)
Lemma spec_order_is_not_the_order_of_the_code :
  first_failure spec_order sample_state args_without_ids = Some ChkSpanRef
  /\ last (events (exec (submit args_without_ids) sample_state))
     = Some (Log WARNING MSG_EVAL_TIMESTAMP)
  /\ ~ aborted_by sample_state args_without_ids ChkSpanRef.
Proof.
  split; [reflexivity|]. split; [reflexivity|].
  intros (_ & _ & msg & Hin & Hlast).
  vm_compute in Hlast. injection Hlast as <-.
  vm_compute in Hin. destruct Hin as [Hin|[Hin|[]]]; discriminate Hin.
Qed.

Lemma submit_evaluation_first_failure_aborts_witness :
  metric_type_typed args_without_ids = true
  /\ first_failure code_order sample_state args_without_ids = Some ChkTimestamp
  /\ aborted_by sample_state args_without_ids ChkTimestamp.
Proof.
  split; [reflexivity|]. split; [reflexivity|].
  apply (submit_evaluation_first_failure_aborts sample_state args_without_ids
           ChkTimestamp); reflexivity.
Defined.

Lemma numerical_is_stored_as_score_witness :
  lower "NumeriCal" = "numerical"
  /\ exists em,
       eval_queue (exec (submit (with_metric_type (PStr "NumeriCal") sample_args))
                     sample_state)
       = eval_queue sample_state ++ [PDict em]
       /\ dict_lookup "metric_type" em = Some (PStr "score")
       /\ dict_lookup "score_value" em = Some (arg_value sample_args).
Proof.
  split; [reflexivity|].
  apply (numerical_is_stored_as_score sample_state sample_args "NumeriCal");
    reflexivity.
Defined.

Lemma zero_timestamp_is_replaced_by_now_witness :
  exists em,
    eval_queue (exec (submit (with_timestamp_ms (PInt 0) sample_args)) sample_state)
    = eval_queue sample_state ++ [PDict em]
    /\ dict_lookup "timestamp_ms" em = Some (PInt (clock_ms sample_state)).
Proof.
  apply (zero_timestamp_is_replaced_by_now sample_state sample_args). reflexivity.
Defined.

Lemma annotate_finished_span_is_noop_witness :
  exists msg,
    annotate None PNone (PDict [("template", PStr "t")]) (PStr "hi") (PStr "hello")
      (PDict [("k", PStr "v")]) (PDict [("tokens", PInt 3)])
      (PDict [("a", PInt 1)]) (Some "renamed") (state_with_span finished_llm_span)
    = (Done tt, add_event (Log WARNING msg) (state_with_span finished_llm_span))
    /\ (is_llm_span finished_llm_span = true -> msg = MSG_FINISHED)
    /\ spans (exec (annotate None PNone (PDict [("template", PStr "t")]) (PStr "hi")
                      (PStr "hello") (PDict [("k", PStr "v")])
                      (PDict [("tokens", PInt 3)]) (PDict [("a", PInt 1)])
                      (Some "renamed")) (state_with_span finished_llm_span)) !! 1
       = Some finished_llm_span.
Proof.
  apply (annotate_finished_span_is_noop (state_with_span finished_llm_span) None 1
           finished_llm_span); reflexivity.
Defined.

(** The example of the spec: {a:1}, then {a:2, b:3}, on a new span. *)
Lemma tag_merge_is_right_biased_witness :
  stored_tags
    (exec (_tag_span_tags 1 (PDict [("a", PInt 2); ("b", PInt 3)]))
       (exec (_tag_span_tags 1 (PDict [("a", PInt 1)])) (state_with_span open_llm_span)))
    1
  = Some [("a", PInt 2); ("b", PInt 3)].
Proof.
  apply (tag_merge_is_right_biased
           (exec (_tag_span_tags 1 (PDict [("a", PInt 1)])) (state_with_span open_llm_span))
           1 (set_tag_str TAGS (safe_json (PDict [("a", PInt 1)])) open_llm_span)
           [("a", PInt 1)] [("a", PInt 2); ("b", PInt 3)]).
  - vm_compute. reflexivity.
  - vm_compute. reflexivity.
  - discriminate.
  - compute_done.
Defined.

Lemma start_hook_applies_matching_scopes_witness :
  result (_do_annotations 1) (state_with_span open_llm_span) = Done tt
  /\ stored_tags (exec (_do_annotations 1) (state_with_span open_llm_span)) 1
     = Some [("a", PInt 2); ("c", PInt 5); ("b", PInt 3)]
  /\ forall k,
       dict_lookup k (dict_update [("a", PInt 1); ("c", PInt 5)]
                        [("a", PInt 2); ("b", PInt 3)])
       = match dict_lookup k [("a", PInt 2); ("b", PInt 3)] with
         | Some v => Some v
         | None => dict_lookup k [("a", PInt 1); ("c", PInt 5)]
         end.
Proof.
  refine (proj2 (proj2 (start_hook_applies_matching_scopes
                          (state_with_span open_llm_span) 1 open_llm_span _))
            _ _ _ scoped_context (BInt 11) 11 12 first_scope second_scope
            [("a", PInt 1); ("c", PInt 5)] [("a", PInt 2); ("b", PInt 3)]
            _ _ _ _ _ _ _ _);
    try reflexivity; try discriminate.
  compute_done.
Defined.

(** C6, as the spec states it: the carrier has both physical ids and no
    logical-parent key, yet nothing is activated, because the service is not
    enabled. *)
Lemma activation_needs_an_enabled_service :
  ctx_trace_id (HTTPPropagator_extract headers_without_parent_tag) <> None
  /\ ctx_span_id (HTTPPropagator_extract headers_without_parent_tag) <> None
  /\ ctx_meta (HTTPPropagator_extract headers_without_parent_tag)
       !! PROPAGATED_PARENT_ID_KEY = None
  /\ current_trace_context
       (exec (activate_distributed_headers headers_without_parent_tag) disabled_state)
     = None
  /\ events (exec (activate_distributed_headers headers_without_parent_tag) disabled_state)
     = [Log WARNING MSG_ACTIVATE_DISABLED].
Proof. vm_compute. repeat split; discriminate. Qed.

Lemma activate_distributed_headers_spec_witness :
  activate_distributed_headers headers_without_parent_tag sample_state
  = (Done tt,
     exec (activate (HTTPPropagator_extract headers_without_parent_tag))
       (add_event (Log WARNING MSG_ACTIVATE_PARENT) sample_state))
  /\ current_trace_context
       (exec (activate_distributed_headers headers_without_parent_tag) sample_state)
     = Some (HTTPPropagator_extract headers_without_parent_tag).
Proof.
  refine (proj1 (proj2 (proj2 (activate_distributed_headers_spec sample_state
                                 headers_without_parent_tag))) _ _ _ _).
  - reflexivity.
  - vm_compute. discriminate.
  - vm_compute. discriminate.
  - vm_compute. reflexivity.
Defined.

Lemma start_span_sets_kind_and_no_model_tags_witness :
  exists sp,
    spans (exec (_start_span "tool" None None None None None) sample_state)
      !! next_span_id sample_state = Some sp
    /\ get_tag SPAN_KIND sp = Some (Plain "tool")
    /\ name sp = "tool"
    /\ get_tag MODEL_NAME sp = None
    /\ get_tag MODEL_PROVIDER sp = None.
Proof.
  destruct (proj2 (proj2 (start_span_sets_kind_and_no_model_tags sample_state "tool"
                            None None None None None)))
    as (sp & Hsp & Hkind & Hname & Hmn & Hmp).
  exists sp. split; [exact Hsp|]. split; [exact Hkind|].
  split; [exact (Hname (or_intror eq_refl))|].
  split; [exact (Hmn eq_refl)|exact (Hmp eq_refl)].
Defined.

Lemma close_scope_removes_one_entry_witness :
  _annotations (exec (deregister_annotation 11) (state_with_span open_llm_span))
  = [(12, BInt 11, second_scope)].
Proof.
  refine (proj2 (proj2 (close_scope_removes_one_entry
                          (state_with_span open_llm_span) 11)) _).
  compute_done.
Defined.

Lemma llm_and_embedding_default_model_to_custom_witness :
  exists sp,
    spans (exec (embedding None None None None None) disabled_state)
      !! next_span_id disabled_state = Some sp
    /\ get_tag SPAN_KIND sp = Some (Plain "embedding")
    /\ get_tag MODEL_NAME sp = Some (Plain "custom")
    /\ get_tag MODEL_PROVIDER sp = Some (Plain "custom").
Proof.
  apply (llm_and_embedding_default_model_to_custom disabled_state None None None
           None None).
Defined.

(** Two overlapping scopes, opened with no trace active, then one LLM span:
    both scopes are registered under the ambient id of the first, and the new
    span has the tags of both, the second scope winning on the key they
    share. *)
Example overlapping_scopes_end_to_end :
  stored_tags
    (exec (register_annotation 11 (kw_tags first_scope) PNone None ;;
           register_annotation 12 (kw_tags second_scope) PNone None ;;
           llm None None None None None) sample_state)
    (next_span_id sample_state)
  = Some [("a", PInt 2); ("c", PInt 5); ("b", PInt 3)].
Proof. vm_compute. reflexivity. Qed.

End Examples.

(** * Further properties of the service *)

Section MoreProperties.

Context `{Imports}.

Ltac run_submit :=
  unfold submit, submit_evaluation, py_lower, enqueue, log_warning, log_debug,
    modify, get_state, raise, when;
  unfold mbind, M_bind, mret, M_ret.

(** ** Evaluation submission: what a call may do to the state *)

Lemma set_eval_queue_same st st' :
  eval_queue st' = eval_queue st ->
  set_eval_queue (eval_queue st ++ []) st' = st'.
Proof. intros <-. destruct st'. unfold set_eval_queue. simpl. by rewrite app_nil_r. Qed.

Lemma numerical_notice_add_events a st :
  exists evs, numerical_notice a st = add_events evs st
    /\ forallb is_warning evs = true.
Proof.
  unfold numerical_notice. destruct (arg_metric_type a); try by exists [].
  destruct (String.eqb _ _); [|by exists []].
  by exists [Log WARNING MSG_EVAL_NUMERICAL].
Qed.

Lemma tags_loop_warnings items acc :
  exists acc' evs,
    forallb is_warning evs = true
    /\ forall st, tags_loop items acc st = (Done acc', add_events evs st).
Proof.
  revert acc. induction items as [|[k v] items IH]; intros acc; simpl.
  - by exists acc, [].
  - destruct (ensure_text v) as [v'|], (ensure_text (PStr k)) as [k'|].
    1: apply IH.
    all: destruct (IH acc) as (acc' & evs & Hw & Hl);
      exists acc', (Log WARNING MSG_EVAL_TAG_PARSE :: evs); (split; [done|]);
      intros st; run_submit; by rewrite Hl.
Qed.

Lemma enqueue_evaluation_metric_effect
    span_id trace_id label metric_type value tags ml_app timestamp_ms metadata :
  exists em evs,
    forallb is_warning evs = true
    /\ forall st,
      enqueue_evaluation_metric span_id trace_id label metric_type value tags
        ml_app timestamp_ms metadata st
      = (Done tt, set_eval_queue (eval_queue st ++ [PDict em]) (add_events evs st)).
Proof.
  unfold enqueue_evaluation_metric.
  set (tags0 := [("ddtrace.version", PStr ddtrace_version); ("ml_app", ml_app)]).
  assert (exists tags' evs, forallb is_warning evs = true /\ forall st,
    (if truthy tags then tags_loop (dict_items tags) tags0 else mret tags0) st
    = (Done tags', add_events evs st)) as (tags' & evs & Hw & Htags).
  { destruct (truthy tags); [apply tags_loop_warnings|]. by exists tags0, []. }
  destruct (truthy metadata) eqn:Hmd; [destruct (isinstance_dict metadata) eqn:Hd|].
  - destruct metadata as [| | | | | |d| |]; try done.
    eexists _, evs. split; [done|].
    intros st. run_submit. unfold mbind, M_bind. rewrite Htags. simpl.
    by rewrite eval_queue_add_events.
  - eexists _, (evs ++ [Log WARNING MSG_EVAL_METADATA]). split.
    { rewrite forallb_app, Hw. done. }
    intros st. run_submit. unfold mbind, M_bind. rewrite Htags. simpl.
    rewrite eval_queue_add_events, add_events_app. done.
  - eexists _, evs. split; [done|].
    intros st. run_submit. unfold mbind, M_bind. rewrite Htags. simpl.
    by rewrite eval_queue_add_events.
Qed.

(** X1: whatever its arguments, a call of [submit_evaluation] changes
    nothing in the state but the log and the queue: it logs warnings only and
    enqueues at most one record.  It raises only for a metric kind that is
    not text, and then has changed nothing; a call that returns without a
    record has logged at least one warning. *)
Theorem submit_evaluation_effect st a :
  exists evs q,
    exec (submit a) st = set_eval_queue (eval_queue st ++ q) (add_events evs st)
    /\ forallb is_warning evs = true
    /\ (q = [] \/ exists em, q = [PDict em])
    /\ (forall e, result (submit a) st = Raised e ->
        e = AttributeError /\ evs = [] /\ q = [] /\ metric_type_typed a = false)
    /\ (result (submit a) st = Done tt -> q = [] -> evs <> []).
Proof.
  unfold exec, result.
  assert (forall ws (b : bool), ws <> [] -> forallb is_warning ws = true ->
    exists evs q,
      (Done tt, add_events ws st).2
      = set_eval_queue (eval_queue st ++ q) (add_events evs st)
      /\ forallb is_warning evs = true
      /\ (q = [] \/ exists em, q = [PDict em])
      /\ (forall e, (@Done unit tt, add_events ws st).1 = Raised e ->
          e = AttributeError /\ evs = [] /\ q = [] /\ b = false)
      /\ ((@Done unit tt, add_events ws st).1 = Done tt -> q = [] -> evs <> []))
    as Hreject.
  { intros ws b Hne Hw. exists ws, []. cbn [fst snd].
    split; [by rewrite set_eval_queue_same by apply eval_queue_add_events|].
    split; [done|]. split; [by left|]. split; [by intros e [=]|done]. }
  destruct (first_failure early_checks st a) as [c|] eqn:Hearly.
  { destruct (submit_early st a c Hearly) as (msg & _ & ->).
    by apply (Hreject [Log WARNING msg]). }
  apply early_checks_pass in Hearly as (Hp & Hi & Hl).
  destruct (metric_type_typed a) eqn:Hty.
  2:{ rewrite (submit_metric_type_raises st a Hty Hp Hi Hl).
      exists [], []. cbn [fst snd].
      split; [by rewrite set_eval_queue_same|].
      split; [done|]. split; [by left|]. split; [|done].
      by intros e' [= <-]. }
  destruct (check_passes st a ChkMetricKind) eqn:Hk.
  2:{ rewrite (submit_bad_metric_type st a Hty Hp Hi Hl Hk).
      by apply (Hreject [Log WARNING MSG_EVAL_METRIC_TYPE]). }
  simpl in Hk. apply bool_decide_eq_true in Hk as [k Hk].
  rewrite (submit_checked st a k Hp Hi Hl Hk).
  destruct (numerical_notice_add_events a st) as (nevs & -> & Hnw).
  assert (forall msg,
            add_event (Log WARNING msg) (add_events nevs st)
            = add_events (nevs ++ [Log WARNING msg]) st) as Hadd.
  { intros msg. by rewrite add_events_app. }
  assert (forall msg, nevs ++ [Log WARNING msg] <> []) as Hne
    by (intros msg; by destruct nevs).
  assert (forall msg, forallb is_warning (nevs ++ [Log WARNING msg]) = true) as Hws
    by (intros msg; by rewrite forallb_app, Hnw).
  destruct (String.eqb k "categorical" && negb (isinstance_str (arg_value a)));
    [rewrite Hadd; by apply Hreject|].
  destruct (String.eqb k "score" && negb (isinstance_int_float (arg_value a)));
    [rewrite Hadd; by apply Hreject|].
  destruct (negb (is_none (arg_tags a)) && negb (isinstance_dict (arg_tags a)));
    [rewrite Hadd; by apply Hreject|].
  match goal with
  | |- context [enqueue_evaluation_metric ?i ?t ?l ?kk ?v ?tg ?m ?ts ?md _] =>
      destruct (enqueue_evaluation_metric_effect i t l kk v tg m ts md)
        as (em & evs & Hw & Hrun)
  end.
  rewrite Hrun. exists (nevs ++ evs), [PDict em]. cbn [fst snd].
  split; [by rewrite eval_queue_add_events, add_events_app|].
  split; [by rewrite forallb_app, Hnw, Hw|].
  split; [right; by eexists|]. split; [by intros e' [=]|done].
Qed.

(** ** Evaluation submission: the record of an accepted call *)

Lemma length_text_tags (items : list (string * pyval)) :
  (List.length (omap text_tag items) <= List.length items)%nat.
Proof.
  induction items as [|kv items IH]; [done|].
  change (omap text_tag (kv :: items))
    with (match text_tag kv with
          | Some y => y :: omap text_tag items
          | None => omap text_tag items
          end).
  destruct (text_tag kv); simpl in *; lia.
Qed.

Lemma tags_loop_merge items acc :
  exists evs,
    forallb is_warning evs = true
    /\ List.length evs = (List.length items - List.length (omap text_tag items))%nat
    /\ forall st,
      tags_loop items acc st
      = (Done (dict_update acc (omap text_tag items)), add_events evs st).
Proof.
  revert acc. induction items as [|[k v] items IH]; intros acc.
  - by exists [].
  - cbn [tags_loop].
    change (omap text_tag ((k, v) :: items))
      with (match text_tag (k, v) with
            | Some y => y :: omap text_tag items
            | None => omap text_tag items
            end).
    pose proof (length_text_tags items) as Hle.
    remember (text_tag (k, v)) as tt eqn:Htt.
    unfold text_tag in Htt. cbn [fst snd] in Htt.
    destruct (ensure_text v) as [v'|], (ensure_text (PStr k)) as [k'|]; subst tt.
    1:{ destruct (IH (dict_set k' (PStr v') acc)) as (evs & Hw & Hlen & Hrun).
        exists evs. split; [done|]. split; [simpl; lia|]. exact Hrun. }
    all: destruct (IH acc) as (evs & Hw & Hlen & Hrun);
      exists (Log WARNING MSG_EVAL_TAG_PARSE :: evs); (split; [done|]);
      (split; [simpl; lia|]);
      intros st; run_submit; by rewrite Hrun.
Qed.

Lemma enqueue_evaluation_metric_record
    span_id trace_id label (metric_type : string) value tags ml_app timestamp_ms metadata :
  metric_type = "score" \/ metric_type = "categorical" ->
  exists em evs,
    forallb is_warning evs = true
    /\ record_has em span_id trace_id metric_type value ml_app timestamp_ms
    /\ dict_lookup "label" em = Some (PStr (str_ label))
    /\ dict_lookup "tags" em
       = Some (PList (map format_tag (merged_evaluation_tags ml_app tags)))
    /\ dict_lookup "metadata" em = metadata_entry metadata
    /\ forall st,
      enqueue_evaluation_metric span_id trace_id label metric_type value tags
        ml_app timestamp_ms metadata st
      = (Done tt, set_eval_queue (eval_queue st ++ [PDict em]) (add_events evs st)).
Proof.
  intros Hmt. unfold enqueue_evaluation_metric.
  fold (default_evaluation_tags ml_app).
  assert (exists evs, forallb is_warning evs = true /\ forall st,
    (if truthy tags then tags_loop (dict_items tags) (default_evaluation_tags ml_app)
     else mret (default_evaluation_tags ml_app)) st
    = (Done (merged_evaluation_tags ml_app tags), add_events evs st))
    as (evs & Hw & Htags).
  { unfold merged_evaluation_tags. destruct (truthy tags); [|by exists []].
    destruct (tags_loop_merge (dict_items tags) (default_evaluation_tags ml_app))
      as (evs & Hw & _ & Hrun). by exists evs. }
  set (em := [("span_id", span_id); ("trace_id", trace_id);
              ("label", PStr (str_ label)); ("metric_type", PStr (lower metric_type));
              ("timestamp_ms", timestamp_ms); (metric_type +:+ "_value", value);
              ("ml_app", ml_app);
              ("tags", PList (map format_tag (merged_evaluation_tags ml_app tags)))]).
  assert (record_has em span_id trace_id metric_type value ml_app timestamp_ms
          /\ dict_lookup "label" em = Some (PStr (str_ label))
          /\ dict_lookup "tags" em
             = Some (PList (map format_tag (merged_evaluation_tags ml_app tags)))
          /\ dict_lookup "metadata" em = None) as (Hem & Hlabel & Htg & Hnomd).
  { unfold record_has, em. destruct Hmt as [-> | ->]; by repeat split. }
  unfold metadata_entry.
  destruct (truthy metadata) eqn:Hmd; [destruct (isinstance_dict metadata) eqn:Hd|];
    cbn [andb].
  - destruct metadata as [| | | | | |d| |]; try done.
    exists (dict_set "metadata" (PDict d) em), evs. split; [done|].
    split.
    { destruct Hem as (? & ? & ? & ? & ? & ?).
      destruct Hmt as [-> | ->]; unfold record_has;
        rewrite !dict_lookup_set_ne by done; by repeat split. }
    rewrite !dict_lookup_set_ne by done. rewrite dict_lookup_set_eq.
    do 3 (split; [done|]).
    intros st. run_submit. unfold mbind, M_bind. rewrite Htags. simpl.
    by rewrite eval_queue_add_events.
  - exists em, (evs ++ [Log WARNING MSG_EVAL_METADATA]).
    split; [by rewrite forallb_app, Hw|]. do 4 (split; [done|]).
    intros st. run_submit. unfold mbind, M_bind. rewrite Htags. simpl.
    rewrite eval_queue_add_events, add_events_app. done.
  - exists em, evs. do 5 (split; [done|]).
    intros st. run_submit. unfold mbind, M_bind. rewrite Htags. simpl.
    by rewrite eval_queue_add_events.
Qed.

(** X2: a call that passes the nine checks, with tags that are absent
    or a dict, returns and enqueues exactly one record, whatever the tags and
    the metadata hold.  The record has the ids of the span reference, the
    label as text, the application given (else the configured one), the
    timestamp given (else the clock), the kind with the value under
    "<kind>_value", the default tags updated with the caller's tags that are
    text, and the metadata when it is a non-empty dict. *)
Theorem accepted_evaluation_record st a :
  valid st a = true ->
  result (submit a) st = Done tt
  /\ exists k em,
       resolved_kind a = Some k
       /\ eval_queue (exec (submit a) st) = eval_queue st ++ [PDict em]
       /\ dict_lookup "span_id" em = Some (py_get (arg_span_context a) "span_id")
       /\ dict_lookup "trace_id" em = Some (py_get (arg_span_context a) "trace_id")
       /\ dict_lookup "label" em = Some (PStr (str_ (arg_label a)))
       /\ dict_lookup "metric_type" em = Some (PStr k)
       /\ dict_lookup (k +:+ "_value") em = Some (arg_value a)
       /\ dict_lookup "timestamp_ms" em = Some (resolved_timestamp st a)
       /\ dict_lookup "ml_app" em = Some (resolved_ml_app st a)
       /\ dict_lookup "tags" em
          = Some (PList (map format_tag
                           (merged_evaluation_tags (resolved_ml_app st a) (arg_tags a))))
       /\ dict_lookup "metadata" em = metadata_entry (arg_metadata a).
Proof.
  unfold valid. intros [Hall Htags]%andb_prop.
  assert (first_failure code_order st a = None) as Hff.
  { unfold first_failure. destruct (List.find _ _) as [c|] eqn:Hf; [|done].
    apply List.find_some in Hf as [Hin Hc].
    rewrite forallb_forall in Hall. rewrite (Hall c Hin) in Hc. done. }
  rewrite first_failure_code_order in Hff.
  destruct (first_failure early_checks st a) eqn:Hearly; [done|].
  apply early_checks_pass in Hearly as (Hp & Hi & Hl).
  unfold first_failure in Hff. cbn [List.find] in Hff.
  destruct (check_passes st a ChkMetricKind) eqn:Hk; [|done].
  destruct (check_passes st a ChkValue) eqn:Hv; [|done].
  simpl in Hk. apply bool_decide_eq_true in Hk as [k Hk].
  destruct (resolved_kind_cases a k Hk) as (s & _ & _ & _ & _ & Hsc).
  destruct (enqueue_evaluation_metric_record (py_get (arg_span_context a) "span_id")
    (py_get (arg_span_context a) "trace_id") (arg_label a) k (arg_value a)
    (arg_tags a) (resolved_ml_app st a) (resolved_timestamp st a)
    (arg_metadata a) Hsc) as (em & evs & _ & Hem & Hlabel & Htg & Hmd & Hrun).
  assert (submit a st
          = (Done tt, set_eval_queue (eval_queue st ++ [PDict em])
                        (add_events evs (numerical_notice a st)))) as Hsub.
  { rewrite (submit_checked st a k Hp Hi Hl Hk), Hrun, eval_queue_numerical_notice.
    simpl in Hv. rewrite Hk in Hv.
    replace (negb (is_none (arg_tags a)) && negb (isinstance_dict (arg_tags a)))
      with false by (by destruct (is_none (arg_tags a)), (isinstance_dict (arg_tags a))).
    destruct Hsc as [-> | ->]; simpl in Hv |- *; by rewrite Hv. }
  unfold result, exec. rewrite Hsub. split; [done|].
  destruct Hem as (H1 & H2 & H3 & H4 & H5 & H6).
  exists k, em. split; [done|]. split; [done|].
  replace (lower k) with k in H3 by (by destruct Hsc as [-> | ->]).
  repeat split; done.
Qed.

(** X3: tags that are given but are not a dict reject the whole call,
    an empty list or an empty string as much as any other value: with the
    nine checks passed, the call returns, enqueues nothing and its last log
    entry is the warning about tags. *)
Theorem tags_of_wrong_shape_reject_the_record st a :
  forallb (check_passes st a) code_order = true ->
  is_none (arg_tags a) = false ->
  isinstance_dict (arg_tags a) = false ->
  result (submit a) st = Done tt
  /\ eval_queue (exec (submit a) st) = eval_queue st
  /\ last (events (exec (submit a) st)) = Some (Log WARNING MSG_EVAL_TAGS).
Proof.
  intros Hall Hn Hd.
  assert (first_failure code_order st a = None) as Hff.
  { unfold first_failure. destruct (List.find _ _) as [c|] eqn:Hf; [|done].
    apply List.find_some in Hf as [Hin Hc].
    rewrite forallb_forall in Hall. rewrite (Hall c Hin) in Hc. done. }
  rewrite first_failure_code_order in Hff.
  destruct (first_failure early_checks st a) eqn:Hearly; [done|].
  apply early_checks_pass in Hearly as (Hp & Hi & Hl).
  unfold first_failure in Hff. cbn [List.find] in Hff.
  destruct (check_passes st a ChkMetricKind) eqn:Hk; [|done].
  destruct (check_passes st a ChkValue) eqn:Hv; [|done].
  simpl in Hk. apply bool_decide_eq_true in Hk as [k Hk].
  destruct (resolved_kind_cases a k Hk) as (s & _ & _ & _ & _ & Hsc).
  unfold result, exec. rewrite (submit_checked st a k Hp Hi Hl Hk).
  simpl in Hv. rewrite Hk in Hv. rewrite Hn, Hd.
  destruct Hsc as [-> | ->]; simpl in Hv |- *; rewrite Hv; simpl;
    (split; [done|]); (split; [apply eval_queue_numerical_notice|apply last_snoc]).
Qed.

Lemma dict_lookup_text_tags k items :
  (forall s, ensure_text (PStr s) = Some s) ->
  NoDup items.*1 ->
  dict_lookup k (omap text_tag items)
  = match dict_lookup k items with
    | Some v => match ensure_text v with Some t => Some (PStr t) | None => None end
    | None => None
    end.
Proof.
  intros Hid. induction items as [|[k' v] items IH]; intros Hnd; [done|].
  simpl in Hnd. apply NoDup_cons in Hnd as [Hk' Hnd].
  change (omap text_tag ((k', v) :: items))
    with (match text_tag (k', v) with
          | Some y => y :: omap text_tag items
          | None => omap text_tag items
          end).
  unfold text_tag at 1. cbn [fst snd dict_lookup]. rewrite Hid.
  destruct (String.eqb k k') eqn:E.
  - apply String.eqb_eq in E as ->.
    destruct (ensure_text v) as [t|]; [by cbn [dict_lookup]; rewrite String.eqb_refl|].
    rewrite IH by done. by apply dict_lookup_None in Hk' as ->.
  - destruct (ensure_text v) as [t|]; [cbn [dict_lookup]; rewrite E|]; by apply IH.
Qed.

Lemma NoDup_text_tags items :
  (forall s, ensure_text (PStr s) = Some s) ->
  NoDup items.*1 -> NoDup (omap text_tag items).*1.
Proof.
  intros Hid. induction items as [|[k v] items IH]; intros Hnd; [constructor|].
  simpl in Hnd. apply NoDup_cons in Hnd as [Hk Hnd].
  change (omap text_tag ((k, v) :: items))
    with (match text_tag (k, v) with
          | Some y => y :: omap text_tag items
          | None => omap text_tag items
          end).
  unfold text_tag at 1. cbn [fst snd]. rewrite Hid.
  destruct (ensure_text v) as [t|]; [|by apply IH].
  simpl. apply NoDup_cons. split; [|by apply IH].
  apply dict_lookup_None. rewrite dict_lookup_text_tags by done.
  by apply dict_lookup_None in Hk as ->.
Qed.

Lemma tags_loop_dropped items acc st :
  (forall s, ensure_text (PStr s) = Some s) ->
  exists evaluation_tags,
    tags_loop items acc st
    = (Done evaluation_tags,
       add_events (map (fun _ => Log WARNING MSG_EVAL_TAG_PARSE) (dropped_tags items)) st).
Proof.
  intros Hid. revert acc st. induction items as [|[k v] items IH]; intros acc st.
  - by exists acc.
  - cbn [tags_loop]. unfold dropped_tags. cbn [List.filter fst snd]. rewrite Hid.
    destruct (ensure_text v) as [v'|].
    + apply IH.
    + rewrite bind_run. cbn [log_warning modify map add_events fold_left].
      apply IH.
Qed.

(** X4: the loop over the caller's tags of [submit_evaluation] always
    runs to its end and touches only the log.  When [ensure_text] returns
    text as it is, a key of the caller whose value is text has that text in
    the result, and every other key keeps the default: a caller's tag takes
    the place of a default tag of the same key, and a tag whose value is not
    text is dropped alone.  What the loop logs is one warning for each tag
    it drops, the same warning each time, and nothing else: no tag is
    dropped without a warning and no warning comes without a drop. *)
Theorem caller_tags_override_defaults items ml_app st :
  (forall s, ensure_text (PStr s) = Some s) ->
  NoDup items.*1 ->
  exists evaluation_tags evs,
    tags_loop items (default_evaluation_tags ml_app) st
    = (Done evaluation_tags, add_events evs st)
    /\ forallb is_warning evs = true
    /\ evs = map (fun _ => Log WARNING MSG_EVAL_TAG_PARSE) (dropped_tags items)
    /\ forall k,
         dict_lookup k evaluation_tags
         = match dict_lookup k items with
           | Some v =>
               match ensure_text v with
               | Some t => Some (PStr t)
               | None => dict_lookup k (default_evaluation_tags ml_app)
               end
           | None => dict_lookup k (default_evaluation_tags ml_app)
           end.
Proof.
  intros Hid Hnd.
  destruct (tags_loop_merge items (default_evaluation_tags ml_app))
    as (evs & Hw & _ & Hrun).
  destruct (tags_loop_dropped items (default_evaluation_tags ml_app) st Hid)
    as (tags' & Hdrop).
  rewrite Hrun in Hdrop. injection Hdrop as _ Hevs.
  eexists _, _. split; [apply Hrun|].
  assert (evs = map (fun _ => Log WARNING MSG_EVAL_TAG_PARSE) (dropped_tags items))
    as Hexact.
  { apply (f_equal events) in Hevs. rewrite !events_add_events in Hevs.
    by apply app_inv_head in Hevs. }
  split; [done|]. split; [exact Hexact|].
  intros k. rewrite dict_update_right_biased by (by apply NoDup_text_tags).
  rewrite dict_lookup_text_tags by done.
  destruct (dict_lookup k items) as [v|]; [|done]. by destruct (ensure_text v).
Qed.

(** ** annotate on an open span *)

Lemma span_frame_refl keys sp : span_frame keys sp sp.
Proof. by repeat split. Qed.

Lemma span_frame_trans keys sp1 sp2 sp3 :
  span_frame keys sp1 sp2 -> span_frame keys sp2 sp3 -> span_frame keys sp1 sp3.
Proof.
  intros (? & ? & ? & ? & ? & ? & ? & Hm1) (? & ? & ? & ? & ? & ? & ? & Hm2).
  repeat split; try congruence. intros k Hk. by rewrite Hm2, Hm1.
Qed.

Lemma span_frame_mono keys keys' sp sp' :
  keys ⊆ keys' -> span_frame keys sp sp' -> span_frame keys' sp sp'.
Proof.
  intros Hsub (? & ? & ? & ? & ? & ? & ? & Hm). repeat split; try done.
  intros k Hk. apply Hm. intros Hin. by apply Hk, Hsub.
Qed.

Lemma span_frame_set_tag_str keys k v sp :
  k ∈ keys -> span_frame keys sp (set_tag_str k v sp).
Proof.
  intros Hk. repeat split. intros k' Hk'. simpl. apply lookup_insert_ne.
  by intros ->.
Qed.

Lemma writes_only_mret ref keys : writes_only ref keys (mret tt).
Proof.
  intros sp evs st. exists sp, []. rewrite app_nil_r.
  split; [done|apply span_frame_refl].
Qed.

Lemma writes_only_bind ref keys (m1 m2 : M unit) :
  writes_only ref keys m1 -> writes_only ref keys m2 ->
  writes_only ref keys (m1 ;; m2).
Proof.
  intros H1 H2 sp evs st.
  destruct (H1 sp evs st) as (sp1 & evs1 & Hrun1 & Hf1).
  destruct (H2 sp1 (evs ++ evs1) st) as (sp2 & evs2 & Hrun2 & Hf2).
  exists sp2, (evs1 ++ evs2). rewrite bind_run, Hrun1, Hrun2, app_assoc.
  split; [done|]. by eapply span_frame_trans.
Qed.

Lemma writes_only_when ref keys (b : bool) m :
  writes_only ref keys m -> writes_only ref keys (when b m).
Proof. intros Hm. destruct b; [done|apply writes_only_mret]. Qed.

Lemma writes_only_mono ref keys keys' m :
  keys ⊆ keys' -> writes_only ref keys m -> writes_only ref keys' m.
Proof.
  intros Hsub Hm sp evs st. destruct (Hm sp evs st) as (sp' & evs' & Hrun & Hf).
  exists sp', evs'. split; [done|]. by eapply span_frame_mono.
Qed.

Lemma writes_only_log_warning ref keys msg : writes_only ref keys (log_warning msg).
Proof.
  intros sp evs st. exists sp, [Log WARNING msg].
  rewrite log_warning_with_span. split; [done|apply span_frame_refl].
Qed.

Lemma writes_only_log_debug ref keys msg : writes_only ref keys (log_debug msg).
Proof.
  intros sp evs st. exists sp, [Log DEBUG msg].
  rewrite log_debug_with_span. split; [done|apply span_frame_refl].
Qed.

Lemma writes_only_set_tag ref keys k v :
  k ∈ keys -> writes_only ref keys (update_span ref (set_tag_str k v)).
Proof.
  intros Hk sp evs st. exists (set_tag_str k v sp), [].
  rewrite update_span_with_span, app_nil_r.
  split; [done|by apply span_frame_set_tag_str].
Qed.

(** Reading the span does not change it. *)
Lemma writes_only_get_span ref keys (k : Span -> M unit) :
  (forall sp, writes_only ref keys (k sp)) ->
  writes_only ref keys (get_span ref ≫= k).
Proof.
  intros Hk sp evs st. rewrite bind_run, get_span_with_span. apply Hk.
Qed.

Lemma writes_only_get_state ref keys (k : LLMObsState -> M unit) :
  (forall s, writes_only ref keys (k s)) ->
  writes_only ref keys (get_state ≫= k).
Proof. intros Hk sp evs st. rewrite bind_run. cbn [get_state]. apply Hk. Qed.

Create HintDb writes.

#[local] Hint Resolve writes_only_mret writes_only_log_warning
  writes_only_log_debug writes_only_when writes_only_bind : writes.

Lemma writes_only__tag_prompt ref prompt :
  writes_only ref [INPUT_PROMPT] (_tag_prompt ref prompt).
Proof.
  unfold _tag_prompt. destruct (validate_prompt prompt); auto with writes.
  apply writes_only_set_tag. set_solver.
Qed.

Lemma writes_only__tag_params ref params :
  writes_only ref [INPUT_PARAMETERS] (_tag_params ref params).
Proof.
  unfold _tag_params. destruct (negb (isinstance_dict params)); auto with writes.
  apply writes_only_set_tag. set_solver.
Qed.

Lemma writes_only__tag_metadata ref metadata :
  writes_only ref [METADATA] (_tag_metadata ref metadata).
Proof.
  unfold _tag_metadata. destruct (negb (truthy metadata)); auto with writes.
  destruct (negb (isinstance_dict metadata)); auto with writes.
  apply writes_only_set_tag. set_solver.
Qed.

Lemma writes_only__tag_metrics ref metrics :
  writes_only ref [METRICS] (_tag_metrics ref metrics).
Proof.
  unfold _tag_metrics. destruct (negb (truthy metrics)); auto with writes.
  destruct (negb (isinstance_dict metrics)); auto with writes.
  apply writes_only_set_tag. set_solver.
Qed.

Lemma writes_only__tag_span_tags ref tags :
  writes_only ref [TAGS] (_tag_span_tags ref tags).
Proof.
  unfold _tag_span_tags. destruct (negb (truthy tags)); auto with writes.
  destruct tags; auto with writes.
  apply writes_only_get_span. intros sp.
  destruct (merged_tags _ _); auto with writes.
  apply writes_only_set_tag. set_solver.
Qed.

Lemma writes_only__tag_llm_io ref input_messages output_messages :
  writes_only ref [INPUT_MESSAGES; OUTPUT_MESSAGES]
    (_tag_llm_io ref input_messages output_messages).
Proof.
  unfold _tag_llm_io. apply writes_only_bind.
  - apply writes_only_when. destruct (as_messages input_messages); auto with writes.
    apply writes_only_when, writes_only_set_tag. set_solver.
  - destruct (is_none output_messages); auto with writes.
    destruct (as_messages output_messages); auto with writes.
    destruct (negb (nonempty _)); auto with writes.
    apply writes_only_set_tag. set_solver.
Qed.

Lemma writes_only__tag_embedding_io ref input_documents output_text :
  writes_only ref [INPUT_DOCUMENTS; OUTPUT_VALUE]
    (_tag_embedding_io ref input_documents output_text).
Proof.
  unfold _tag_embedding_io. apply writes_only_bind.
  - apply writes_only_when. destruct (as_documents input_documents); auto with writes.
    apply writes_only_when, writes_only_set_tag. set_solver.
  - destruct (is_none output_text); auto with writes.
    apply writes_only_set_tag. set_solver.
Qed.

Lemma writes_only__tag_retrieval_io ref input_text output_documents :
  writes_only ref [INPUT_VALUE; OUTPUT_DOCUMENTS]
    (_tag_retrieval_io ref input_text output_documents).
Proof.
  unfold _tag_retrieval_io. apply writes_only_bind.
  - apply writes_only_when, writes_only_set_tag. set_solver.
  - destruct (is_none output_documents); auto with writes.
    destruct (as_documents output_documents); auto with writes.
    destruct (negb (nonempty _)); auto with writes.
    apply writes_only_set_tag. set_solver.
Qed.

Lemma writes_only__tag_text_io ref input_value output_value :
  writes_only ref [INPUT_VALUE; OUTPUT_VALUE]
    (_tag_text_io ref input_value output_value).
Proof.
  unfold _tag_text_io. apply writes_only_bind;
    apply writes_only_when, writes_only_set_tag; set_solver.
Qed.

Lemma writes_only_then ref keys (m : M unit) (k : M unit) sp evs st :
  writes_only ref keys m ->
  exists sp' evs',
    (m ;; k) (with_span ref sp evs st) = k (with_span ref sp' (evs ++ evs') st)
    /\ span_frame keys sp sp'.
Proof.
  intros Hm. destruct (Hm sp evs st) as (sp' & evs' & Hrun & Hf).
  exists sp', evs'. by rewrite bind_run, Hrun.
Qed.

Lemma SPAN_KIND_not_annotation_key span_kind : SPAN_KIND ∉ annotation_keys span_kind.
Proof.
  unfold annotation_keys, io_keys. intros Hin.
  destruct (negb _); [|destruct (kind_is span_kind "llm");
    [|destruct (kind_is span_kind "embedding");
      [|destruct (kind_is span_kind "retrieval")]]];
    cbn [app] in Hin;
    repeat (apply elem_of_cons in Hin as [Hin|Hin]; [discriminate Hin|]);
    by apply elem_of_nil in Hin.
Qed.

Lemma writes_only_io ref span_kind input_data output_data :
  from_option text_truthy false span_kind = true ->
  writes_only ref (io_keys span_kind)
    (if kind_is span_kind "llm" then _tag_llm_io ref input_data output_data
     else if kind_is span_kind "embedding" then
       _tag_embedding_io ref input_data output_data
     else if kind_is span_kind "retrieval" then
       _tag_retrieval_io ref input_data output_data
     else _tag_text_io ref input_data output_data).
Proof.
  intros Hk. unfold io_keys. rewrite Hk. cbn [negb].
  destruct (kind_is span_kind "llm"); [apply writes_only__tag_llm_io|].
  destruct (kind_is span_kind "embedding"); [apply writes_only__tag_embedding_io|].
  destruct (kind_is span_kind "retrieval"); [apply writes_only__tag_retrieval_io|].
  apply writes_only__tag_text_io.
Qed.

Ltac in_keys :=
  repeat first [ apply list_elem_of_here | apply list_elem_of_further ].

(** [keys ⊆ annotation_keys kind] for keys among the first five. *)
Ltac sub_keys :=
  unfold annotation_keys; intros ? Hx; apply elem_of_app; left;
  repeat (apply elem_of_cons in Hx as [->|Hx]; [in_keys|]);
  by apply elem_of_nil in Hx.

Lemma annotate_open_with_span st span ref sp evs0
    parameters prompt input_data output_data metadata metrics tags _name :
  annotated_span st span = Some ref ->
  is_llm_span sp = true ->
  finished sp = false ->
  exists sp' evs,
    annotate span parameters prompt input_data output_data metadata metrics
      tags _name (with_span ref sp evs0 st)
    = (Done tt, with_span ref sp' (evs0 ++ evs) st)
    /\ span_frame (annotation_keys (get_tag SPAN_KIND sp))
         (match _name with Some n => set_name n sp | None => sp end) sp'.
Proof.
  intros Href Hllm Hfin.
  set (K := annotation_keys (get_tag SPAN_KIND sp)).
  unfold annotate. rewrite bind_run. cbn [get_state].
  change (annotated_span (with_span ref sp evs0 st) span) with (annotated_span st span).
  rewrite Href.
  rewrite bind_run, get_span_with_span, Hllm, Hfin. cbn [negb].
  (* metadata, metrics, tags *)
  edestruct (writes_only_then ref K (when (negb (is_none metadata))
                                       (_tag_metadata ref metadata)))
    as (sp1 & evs1 & -> & Hf1).
  { apply writes_only_when. eapply writes_only_mono; [|apply writes_only__tag_metadata].
    unfold K. sub_keys. }
  edestruct (writes_only_then ref K (when (negb (is_none metrics))
                                       (_tag_metrics ref metrics)))
    as (sp2 & evs2 & -> & Hf2).
  { apply writes_only_when. eapply writes_only_mono; [|apply writes_only__tag_metrics].
    unfold K. sub_keys. }
  edestruct (writes_only_then ref K (when (negb (is_none tags))
                                       (_tag_span_tags ref tags)))
    as (sp3 & evs3 & -> & Hf3).
  { apply writes_only_when. eapply writes_only_mono; [|apply writes_only__tag_span_tags].
    unfold K. sub_keys. }
  pose proof (span_frame_trans _ _ _ _ (span_frame_trans _ _ _ _ Hf1 Hf2) Hf3) as Hf.
  clear Hf1 Hf2 Hf3.
  rewrite bind_run, get_span_with_span.
  assert (get_tag SPAN_KIND sp3 = get_tag SPAN_KIND sp) as Hkind.
  { destruct Hf as (_ & _ & _ & _ & _ & _ & _ & Hm). apply Hm.
    apply SPAN_KIND_not_annotation_key. }
  rewrite Hkind.
  (* parameters *)
  edestruct (writes_only_then ref K
               (when (negb (is_none parameters))
                  (log_warning MSG_PARAMETERS_DEPRECATED ;; _tag_params ref parameters)))
    as (sp4 & evs4 & -> & Hf4).
  { apply writes_only_when, writes_only_bind; [apply writes_only_log_warning|].
    eapply writes_only_mono; [|apply writes_only__tag_params].
    unfold K. sub_keys. }
  pose proof (span_frame_trans _ _ _ _ Hf Hf4) as Hf'. clear Hf Hf4.
  (* the name *)
  set (sp5 := match _name with Some n => set_name n sp4 | None => sp4 end).
  assert (forall (k : M unit) evs',
    (match _name with Some n => update_span ref (set_name n) | None => mret tt end ;; k)
      (with_span ref sp4 evs' st)
    = k (with_span ref sp5 evs' st)) as Hname.
  { intros k evs'. rewrite bind_run. unfold sp5. destruct _name; [|done].
    by rewrite update_span_with_span. }
  rewrite Hname. clear Hname.
  assert (span_frame K (match _name with Some n => set_name n sp | None => sp end) sp5)
    as Hf5.
  { unfold sp5. destruct Hf' as (E1 & E2 & E3 & E4 & E5 & E6 & E7 & Em).
    destruct _name; by repeat split. }
  clear Hf'.
  (* prompt *)
  edestruct (writes_only_then ref K (when (negb (is_none prompt))
                                       (_tag_prompt ref prompt)))
    as (sp6 & evs6 & -> & Hf6).
  { apply writes_only_when. eapply writes_only_mono; [|apply writes_only__tag_prompt].
    unfold K. sub_keys. }
  (* input and output *)
  assert (writes_only ref K
    (if negb (from_option text_truthy false (get_tag SPAN_KIND sp))
     then log_debug MSG_NO_KIND
     else when (negb (is_none input_data) || negb (is_none output_data))
            (if kind_is (get_tag SPAN_KIND sp) "llm" then
               _tag_llm_io ref input_data output_data
             else if kind_is (get_tag SPAN_KIND sp) "embedding" then
               _tag_embedding_io ref input_data output_data
             else if kind_is (get_tag SPAN_KIND sp) "retrieval" then
               _tag_retrieval_io ref input_data output_data
             else _tag_text_io ref input_data output_data))) as Hio.
  { destruct (from_option text_truthy false (get_tag SPAN_KIND sp)) eqn:Hk;
      cbn [negb]; [|apply writes_only_log_debug].
    apply writes_only_when. eapply writes_only_mono; [|by apply writes_only_io].
    unfold K, annotation_keys. intros x Hx. apply elem_of_app. by right. }
  destruct (Hio sp6 (((((evs0 ++ evs1) ++ evs2) ++ evs3) ++ evs4) ++ evs6) st)
    as (sp7 & evs7 & Hrun & Hf7).
  rewrite Hrun. exists sp7, (evs1 ++ evs2 ++ evs3 ++ evs4 ++ evs6 ++ evs7).
  split; [by rewrite !app_assoc|].
  eapply span_frame_trans; [exact Hf5|]. by eapply span_frame_trans.
Qed.

(** X5: on a span of type LLM that is not finished, [annotate] always
    returns; in the state it changes only the log and that one span, and on
    the span only its name (when a name is given) and the tags it is meant
    to write: metadata, metrics, tags, parameters, prompt, and the input and
    output keys of the span's own kind, messages for llm, documents and value
    for embedding, value and documents for retrieval, values otherwise, and
    none when the span has no kind.  Ids, parent, resource, type, finished
    flag and every other tag, the kind tag among them, are left as they
    were. *)
Theorem annotate_writes_only_its_keys st span ref sp
    parameters prompt input_data output_data metadata metrics tags _name :
  annotated_span st span = Some ref ->
  spans st !! ref = Some sp ->
  is_llm_span sp = true ->
  finished sp = false ->
  exists sp' evs,
    annotate span parameters prompt input_data output_data metadata metrics
      tags _name st
    = (Done tt, with_span ref sp' evs st)
    /\ span_id sp' = span_id sp
    /\ trace_id sp' = trace_id sp
    /\ _parent sp' = _parent sp
    /\ resource sp' = resource sp
    /\ span_type sp' = span_type sp
    /\ finished sp' = finished sp
    /\ name sp' = default (name sp) _name
    /\ get_tag SPAN_KIND sp' = get_tag SPAN_KIND sp
    /\ forall k, k ∉ annotation_keys (get_tag SPAN_KIND sp) ->
         get_tag k sp' = get_tag k sp.
Proof.
  intros Href Hsp Hllm Hfin.
  destruct (annotate_open_with_span st span ref sp [] parameters prompt input_data
              output_data metadata metrics tags _name Href Hllm Hfin)
    as (sp' & evs & Hrun & Hf).
  rewrite (with_span_id ref sp st Hsp) in Hrun.
  exists sp', evs. split; [exact Hrun|].
  destruct Hf as (E1 & E2 & E3 & E4 & E5 & E6 & E7 & Em).
  assert (forall k, _meta (match _name with Some n => set_name n sp | None => sp end) !! k
                    = _meta sp !! k) as Hm by (intros k; by destruct _name).
  repeat split.
  - rewrite E1. by destruct _name.
  - rewrite E2. by destruct _name.
  - rewrite E3. by destruct _name.
  - rewrite E5. by destruct _name.
  - rewrite E6. by destruct _name.
  - rewrite E7. by destruct _name.
  - rewrite E4. by destruct _name.
  - unfold get_tag. rewrite Em by apply SPAN_KIND_not_annotation_key. apply Hm.
  - intros k Hk. unfold get_tag. rewrite Em by done. apply Hm.
Qed.

(** ** Metadata and metrics: overwritten, never merged *)

Lemma update_span_twice ref f g st :
  (forall sp, f (g sp) = f sp) ->
  exec (update_span ref f) (exec (update_span ref g) st) = exec (update_span ref f) st.
Proof.
  intros Hfg. unfold exec, update_span, modify, set_spans. simpl. f_equal.
  rewrite alter_alter_eq. apply alter_ext. intros sp _. apply Hfg.
Qed.

Lemma set_tag_str_twice k v w sp :
  set_tag_str k v (set_tag_str k w sp) = set_tag_str k v sp.
Proof. unfold set_tag_str. simpl. by rewrite insert_insert_eq. Qed.

Lemma lookup_update_span ref f sp st :
  spans st !! ref = Some sp ->
  spans (exec (update_span ref f) st) !! ref = Some (f sp).
Proof.
  intros Hsp. unfold exec, update_span, modify, set_spans. cbn [snd spans].
  apply lookup_alter_Some. left. split; [done|]. by exists sp.
Qed.

(** X6: metadata is written wholesale.  Tagging a span with a non-empty
    dict writes that dict, serialised, under the metadata key of the span and
    touches nothing else on it, and the call returns.  Tagging it with a
    non-empty dict after any other non-empty dict leaves the state exactly as
    tagging it with the second dict alone: the span holds the second dict and
    nothing of the first; tagging it with an empty dict changes nothing at
    all, so it does not clear what was there; and a value that is not a dict
    only logs a warning.  The same holds for metrics, under the metrics
    key. *)
Theorem metadata_and_metrics_overwrite st ref d1 d2 v :
  d1 <> [] -> d2 <> [] ->
  (forall sp, spans st !! ref = Some sp ->
     result (_tag_metadata ref (PDict d2)) st = Done tt
     /\ result (_tag_metrics ref (PDict d2)) st = Done tt
     /\ spans (exec (_tag_metadata ref (PDict d2)) st) !! ref
        = Some (set_tag_str METADATA (safe_json (PDict d2)) sp)
     /\ spans (exec (_tag_metrics ref (PDict d2)) st) !! ref
        = Some (set_tag_str METRICS (safe_json (PDict d2)) sp)
     /\ spans (exec (_tag_metadata ref (PDict d1) ;; _tag_metadata ref (PDict d2)) st)
          !! ref
        = Some (set_tag_str METADATA (safe_json (PDict d2)) sp)
     /\ spans (exec (_tag_metrics ref (PDict d1) ;; _tag_metrics ref (PDict d2)) st)
          !! ref
        = Some (set_tag_str METRICS (safe_json (PDict d2)) sp)
     /\ get_tag METADATA (set_tag_str METADATA (safe_json (PDict d2)) sp)
        = Some (safe_json (PDict d2))
     /\ get_tag METRICS (set_tag_str METRICS (safe_json (PDict d2)) sp)
        = Some (safe_json (PDict d2)))
  /\ exec (_tag_metadata ref (PDict d1) ;; _tag_metadata ref (PDict d2)) st
     = exec (_tag_metadata ref (PDict d2)) st
  /\ exec (_tag_metrics ref (PDict d1) ;; _tag_metrics ref (PDict d2)) st
     = exec (_tag_metrics ref (PDict d2)) st
  /\ _tag_metadata ref (PDict []) st = (Done tt, st)
  /\ _tag_metrics ref (PDict []) st = (Done tt, st)
  /\ (truthy v = true -> isinstance_dict v = false ->
      spans (exec (_tag_metadata ref v) st) = spans st
      /\ spans (exec (_tag_metrics ref v) st) = spans st
      /\ events (exec (_tag_metadata ref v) st)
         = events st
           ++ [Log WARNING "metadata must be a dictionary of string key-value pairs."]
      /\ events (exec (_tag_metrics ref v) st)
         = events st
           ++ [Log WARNING
                 "metrics must be a dictionary of string key - numeric value pairs."]).
Proof.
  intros Hd1 Hd2.
  assert (truthy (PDict d1) = true /\ truthy (PDict d2) = true) as [T1 T2]
    by (by destruct d1, d2).
  assert (exec (_tag_metadata ref (PDict d1) ;; _tag_metadata ref (PDict d2)) st
          = exec (_tag_metadata ref (PDict d2)) st
          /\ exec (_tag_metrics ref (PDict d1) ;; _tag_metrics ref (PDict d2)) st
             = exec (_tag_metrics ref (PDict d2)) st) as [Hmd Hmt];
    [split|split; [|split; [exact Hmd|split; [exact Hmt|split; [done|split; [done|]]]]]].
  4:{ intros Htr Hnd. unfold exec, _tag_metadata, _tag_metrics. by rewrite Htr, Hnd. }
  3:{ intros sp Hsp. rewrite Hmd, Hmt.
      assert (_tag_metadata ref (PDict d2)
              = update_span ref (set_tag_str METADATA (safe_json (PDict d2)))) as ->
        by (unfold _tag_metadata; by rewrite T2).
      assert (_tag_metrics ref (PDict d2)
              = update_span ref (set_tag_str METRICS (safe_json (PDict d2)))) as ->
        by (unfold _tag_metrics; by rewrite T2).
      rewrite !(lookup_update_span ref _ sp st Hsp), !get_tag_set_tag_str_eq.
      by repeat split. }
  - unfold exec at 1. rewrite bind_run.
    unfold _tag_metadata at 1 2. rewrite T1, T2. cbn [negb isinstance_dict].
    cbn [update_span modify fst snd].
    pose proof (update_span_twice ref (set_tag_str METADATA (safe_json (PDict d2)))
                  (set_tag_str METADATA (safe_json (PDict d1))) st
                  (fun sp => set_tag_str_twice _ _ _ sp)) as Htw.
    unfold exec, _tag_metadata. rewrite T2. exact Htw.
  - unfold exec at 1. rewrite bind_run.
    unfold _tag_metrics at 1 2. rewrite T1, T2. cbn [negb isinstance_dict].
    cbn [update_span modify fst snd].
    pose proof (update_span_twice ref (set_tag_str METRICS (safe_json (PDict d2)))
                  (set_tag_str METRICS (safe_json (PDict d1))) st
                  (fun sp => set_tag_str_twice _ _ _ sp)) as Htw.
    unfold exec, _tag_metrics. rewrite T2. exact Htw.
Qed.

(** ** Input and output data *)

Lemma put_tag_same key sp : put_tag key (get_tag key sp) sp = sp.
Proof.
  unfold put_tag, get_tag. destruct (_meta sp !! key) eqn:E; [|done].
  destruct sp. unfold set_tag_str. simpl in *. by rewrite insert_id.
Qed.

Lemma get_tag_put_tag_eq key value sp :
  (value = None -> get_tag key sp = None) ->
  get_tag key (put_tag key value sp) = value.
Proof.
  intros Hnone. unfold put_tag. destruct value; [apply get_tag_set_tag_str_eq|].
  by apply Hnone.
Qed.

Lemma get_tag_put_tag_ne key key' value sp :
  key' <> key -> get_tag key (put_tag key' value sp) = get_tag key sp.
Proof.
  intros Hne. unfold put_tag. destruct value; [by apply get_tag_set_tag_str_ne|done].
Qed.

Lemma messages_after_None cur v : messages_after cur v = None -> cur = None.
Proof.
  unfold messages_after. destruct (is_none v); [done|].
  by destruct (as_messages v) as [[|m ms]|].
Qed.

Lemma documents_after_None cur v : documents_after cur v = None -> cur = None.
Proof.
  unfold documents_after. destruct (is_none v); [done|].
  by destruct (as_documents v) as [[|m ms]|].
Qed.

Lemma value_after_None cur v : value_after cur v = None -> cur = None.
Proof. unfold value_after. by destruct (is_none v). Qed.

(** One direction of a tagger that parses messages or documents. *)
Lemma parsed_step_with_span ref key (parse : pyval -> option (list pyval)) msg v
    (k : M unit) sp evs st :
  exists evs',
    (when (negb (is_none v))
       (match parse v with
        | Some l => when (nonempty l)
                      (update_span ref (set_tag_str key (safe_json (PList l))))
        | None => log_warning msg
        end) ;; k) (with_span ref sp evs st)
    = k (with_span ref
           (put_tag key
              (if is_none v then get_tag key sp
               else match parse v with
                    | Some (m :: ms) => Some (Json (PList (m :: ms)))
                    | _ => get_tag key sp
                    end) sp) (evs ++ evs') st).
Proof.
  rewrite bind_run. destruct (is_none v); cbn [negb when].
  - exists []. by rewrite put_tag_same, app_nil_r.
  - destruct (parse v) as [[|m ms]|]; cbn [nonempty when].
    + exists []. by rewrite put_tag_same, app_nil_r.
    + exists []. by rewrite update_span_with_span, app_nil_r.
    + exists [Log WARNING msg]. by rewrite log_warning_with_span, put_tag_same.
Qed.

Lemma parsed_last_with_span ref key (parse : pyval -> option (list pyval)) msg v
    sp evs st :
  exists evs',
    (if is_none v then mret tt
     else match parse v with
          | Some l =>
              if negb (nonempty l) then mret tt
              else update_span ref (set_tag_str key (safe_json (PList l)))
          | None => log_warning msg
          end) (with_span ref sp evs st)
    = (Done tt,
       with_span ref
         (put_tag key
            (if is_none v then get_tag key sp
             else match parse v with
                  | Some (m :: ms) => Some (Json (PList (m :: ms)))
                  | _ => get_tag key sp
                  end) sp) (evs ++ evs') st).
Proof.
  destruct (is_none v).
  - exists []. by rewrite put_tag_same, app_nil_r.
  - destruct (parse v) as [[|m ms]|]; cbn [nonempty negb].
    + exists []. by rewrite put_tag_same, app_nil_r.
    + exists []. by rewrite update_span_with_span, app_nil_r.
    + exists [Log WARNING msg]. by rewrite log_warning_with_span, put_tag_same.
Qed.

Lemma value_step_with_span ref key v (k : M unit) sp evs st :
  (when (negb (is_none v)) (update_span ref (set_tag_str key (safe_json v))) ;; k)
    (with_span ref sp evs st)
  = k (with_span ref (put_tag key (value_after (get_tag key sp) v) sp) evs st).
Proof.
  rewrite bind_run. unfold value_after. destruct (is_none v); cbn [negb when].
  - by rewrite put_tag_same.
  - by rewrite update_span_with_span.
Qed.

Lemma value_last_with_span ref key v sp evs st :
  (if is_none v then mret tt
   else update_span ref (set_tag_str key (safe_json v))) (with_span ref sp evs st)
  = (Done tt,
     with_span ref (put_tag key (value_after (get_tag key sp) v) sp) evs st).
Proof.
  unfold value_after. destruct (is_none v).
  - by rewrite put_tag_same.
  - by rewrite update_span_with_span.
Qed.

Lemma _tag_llm_io_with_span ref i o sp evs st :
  exists evs',
    _tag_llm_io ref i o (with_span ref sp evs st)
    = (Done tt,
       with_span ref
         (put_tag OUTPUT_MESSAGES (messages_after (get_tag OUTPUT_MESSAGES sp) o)
            (put_tag INPUT_MESSAGES (messages_after (get_tag INPUT_MESSAGES sp) i) sp))
         (evs ++ evs') st).
Proof.
  unfold _tag_llm_io.
  edestruct (parsed_step_with_span ref INPUT_MESSAGES as_messages) as (evs1 & ->).
  edestruct (parsed_last_with_span ref OUTPUT_MESSAGES as_messages) as (evs2 & ->).
  exists (evs1 ++ evs2). rewrite app_assoc. unfold messages_after.
  by rewrite get_tag_put_tag_ne.
Qed.

Lemma _tag_embedding_io_with_span ref i o sp evs st :
  exists evs',
    _tag_embedding_io ref i o (with_span ref sp evs st)
    = (Done tt,
       with_span ref
         (put_tag OUTPUT_VALUE (value_after (get_tag OUTPUT_VALUE sp) o)
            (put_tag INPUT_DOCUMENTS (documents_after (get_tag INPUT_DOCUMENTS sp) i) sp))
         (evs ++ evs') st).
Proof.
  unfold _tag_embedding_io.
  edestruct (parsed_step_with_span ref INPUT_DOCUMENTS as_documents) as (evs1 & ->).
  rewrite value_last_with_span. exists evs1. unfold documents_after.
  by rewrite get_tag_put_tag_ne.
Qed.

Lemma _tag_retrieval_io_with_span ref i o sp evs st :
  exists evs',
    _tag_retrieval_io ref i o (with_span ref sp evs st)
    = (Done tt,
       with_span ref
         (put_tag OUTPUT_DOCUMENTS (documents_after (get_tag OUTPUT_DOCUMENTS sp) o)
            (put_tag INPUT_VALUE (value_after (get_tag INPUT_VALUE sp) i) sp))
         (evs ++ evs') st).
Proof.
  unfold _tag_retrieval_io. rewrite value_step_with_span.
  edestruct (parsed_last_with_span ref OUTPUT_DOCUMENTS as_documents) as (evs2 & ->).
  exists evs2. unfold documents_after. by rewrite get_tag_put_tag_ne.
Qed.

Lemma _tag_text_io_with_span ref i o sp evs st :
  _tag_text_io ref i o (with_span ref sp evs st)
  = (Done tt,
     with_span ref
       (put_tag OUTPUT_VALUE (value_after (get_tag OUTPUT_VALUE sp) o)
          (put_tag INPUT_VALUE (value_after (get_tag INPUT_VALUE sp) i) sp))
       evs st).
Proof.
  unfold _tag_text_io. rewrite value_step_with_span.
  unfold when. replace (negb (is_none o)) with (if is_none o then false else true)
    by (by destruct (is_none o)).
  pose proof (value_last_with_span ref OUTPUT_VALUE o
                (put_tag INPUT_VALUE (value_after (get_tag INPUT_VALUE sp) i) sp) evs st)
    as Hlast.
  rewrite get_tag_put_tag_ne in Hlast by done. rewrite <- Hlast.
  by destruct (is_none o).
Qed.

Lemma annotate_open_split st span ref sp evs0
    parameters prompt input_data output_data metadata metrics tags _name :
  annotated_span st span = Some ref ->
  is_llm_span sp = true ->
  finished sp = false ->
  exists sp' evs,
    annotate span parameters prompt input_data output_data metadata metrics
      tags _name (with_span ref sp evs0 st)
    = annotate_io ref (get_tag SPAN_KIND sp) input_data output_data
        (with_span ref sp' (evs0 ++ evs) st)
    /\ span_frame [METADATA; METRICS; TAGS; INPUT_PARAMETERS; INPUT_PROMPT]
         (match _name with Some n => set_name n sp | None => sp end) sp'.
Proof.
  intros Href Hllm Hfin.
  set (K := [METADATA; METRICS; TAGS; INPUT_PARAMETERS; INPUT_PROMPT]).
  unfold annotate. rewrite bind_run. cbn [get_state].
  change (annotated_span (with_span ref sp evs0 st) span) with (annotated_span st span).
  rewrite Href.
  rewrite bind_run, get_span_with_span, Hllm, Hfin. cbn [negb].
  edestruct (writes_only_then ref K (when (negb (is_none metadata))
                                       (_tag_metadata ref metadata)))
    as (sp1 & evs1 & -> & Hf1).
  { apply writes_only_when. eapply writes_only_mono; [|apply writes_only__tag_metadata].
    unfold K. intros ? Hx. apply list_elem_of_singleton in Hx as ->. in_keys. }
  edestruct (writes_only_then ref K (when (negb (is_none metrics))
                                       (_tag_metrics ref metrics)))
    as (sp2 & evs2 & -> & Hf2).
  { apply writes_only_when. eapply writes_only_mono; [|apply writes_only__tag_metrics].
    unfold K. intros ? Hx. apply list_elem_of_singleton in Hx as ->. in_keys. }
  edestruct (writes_only_then ref K (when (negb (is_none tags))
                                       (_tag_span_tags ref tags)))
    as (sp3 & evs3 & -> & Hf3).
  { apply writes_only_when. eapply writes_only_mono; [|apply writes_only__tag_span_tags].
    unfold K. intros ? Hx. apply list_elem_of_singleton in Hx as ->. in_keys. }
  pose proof (span_frame_trans _ _ _ _ (span_frame_trans _ _ _ _ Hf1 Hf2) Hf3) as Hf.
  clear Hf1 Hf2 Hf3.
  rewrite bind_run, get_span_with_span.
  assert (get_tag SPAN_KIND sp3 = get_tag SPAN_KIND sp) as Hkind.
  { destruct Hf as (_ & _ & _ & _ & _ & _ & _ & Hm). apply Hm.
    unfold K. intros Hin.
    repeat (apply elem_of_cons in Hin as [Hin|Hin]; [discriminate Hin|]).
    by apply elem_of_nil in Hin. }
  rewrite Hkind.
  edestruct (writes_only_then ref K
               (when (negb (is_none parameters))
                  (log_warning MSG_PARAMETERS_DEPRECATED ;; _tag_params ref parameters)))
    as (sp4 & evs4 & -> & Hf4).
  { apply writes_only_when, writes_only_bind; [apply writes_only_log_warning|].
    eapply writes_only_mono; [|apply writes_only__tag_params].
    unfold K. intros ? Hx. apply list_elem_of_singleton in Hx as ->. in_keys. }
  pose proof (span_frame_trans _ _ _ _ Hf Hf4) as Hf'. clear Hf Hf4.
  set (sp5 := match _name with Some n => set_name n sp4 | None => sp4 end).
  assert (forall (k : M unit) evs',
    (match _name with Some n => update_span ref (set_name n) | None => mret tt end ;; k)
      (with_span ref sp4 evs' st)
    = k (with_span ref sp5 evs' st)) as Hname.
  { intros k evs'. rewrite bind_run. unfold sp5. destruct _name; [|done].
    by rewrite update_span_with_span. }
  rewrite Hname. clear Hname.
  assert (span_frame K (match _name with Some n => set_name n sp | None => sp end) sp5)
    as Hf5.
  { unfold sp5. destruct Hf' as (E1 & E2 & E3 & E4 & E5 & E6 & E7 & Em).
    destruct _name; by repeat split. }
  clear Hf'.
  edestruct (writes_only_then ref K (when (negb (is_none prompt))
                                       (_tag_prompt ref prompt)))
    as (sp6 & evs6 & -> & Hf6).
  { apply writes_only_when. eapply writes_only_mono; [|apply writes_only__tag_prompt].
    unfold K. intros ? Hx. apply list_elem_of_singleton in Hx as ->. in_keys. }
  exists sp6, (evs1 ++ evs2 ++ evs3 ++ evs4 ++ evs6).
  split; [by rewrite !app_assoc|].
  by eapply span_frame_trans.
Qed.

Lemma kind_is_truthy span_kind k :
  k <> "" -> kind_is span_kind k = true ->
  from_option text_truthy false span_kind = true.
Proof.
  intros Hk. destruct span_kind as [[s|v]|]; cbn; try done.
  intros ->%String.eqb_eq. by destruct k.
Qed.

(** X7: what [annotate] does with input and output data on an open span of
    type LLM, by the kind tag of the span.  For kind llm both are normalised
    to messages; for embedding the input to documents, the output is stored
    as a value; for retrieval the input is stored as a value, the output
    normalised to documents; for any other kind both are stored as values.
    A value that is [None] leaves its tag as it was, and so does a value that
    does not normalise or normalises to an empty list; the two directions do
    not affect each other, and nothing else [annotate] is given changes
    them. *)
Theorem annotate_input_and_output st span ref sp
    parameters prompt input_data output_data metadata metrics tags _name :
  annotated_span st span = Some ref ->
  spans st !! ref = Some sp ->
  is_llm_span sp = true ->
  finished sp = false ->
  exists sp' evs,
    annotate span parameters prompt input_data output_data metadata metrics
      tags _name st
    = (Done tt, with_span ref sp' evs st)
    /\ (kind_is (get_tag SPAN_KIND sp) "llm" = true ->
        get_tag INPUT_MESSAGES sp'
        = messages_after (get_tag INPUT_MESSAGES sp) input_data
        /\ get_tag OUTPUT_MESSAGES sp'
           = messages_after (get_tag OUTPUT_MESSAGES sp) output_data)
    /\ (kind_is (get_tag SPAN_KIND sp) "embedding" = true ->
        get_tag INPUT_DOCUMENTS sp'
        = documents_after (get_tag INPUT_DOCUMENTS sp) input_data
        /\ get_tag OUTPUT_VALUE sp'
           = value_after (get_tag OUTPUT_VALUE sp) output_data)
    /\ (kind_is (get_tag SPAN_KIND sp) "retrieval" = true ->
        get_tag INPUT_VALUE sp'
        = value_after (get_tag INPUT_VALUE sp) input_data
        /\ get_tag OUTPUT_DOCUMENTS sp'
           = documents_after (get_tag OUTPUT_DOCUMENTS sp) output_data)
    /\ (from_option text_truthy false (get_tag SPAN_KIND sp) = true ->
        kind_is (get_tag SPAN_KIND sp) "llm" = false ->
        kind_is (get_tag SPAN_KIND sp) "embedding" = false ->
        kind_is (get_tag SPAN_KIND sp) "retrieval" = false ->
        get_tag INPUT_VALUE sp'
        = value_after (get_tag INPUT_VALUE sp) input_data
        /\ get_tag OUTPUT_VALUE sp'
           = value_after (get_tag OUTPUT_VALUE sp) output_data).
Proof.
  intros Href Hsp Hllm Hfin.
  destruct (annotate_open_split st span ref sp [] parameters prompt input_data
              output_data metadata metrics tags _name Href Hllm Hfin)
    as (sp6 & evs6 & Hrun & Hf).
  rewrite (with_span_id ref sp st Hsp) in Hrun. rewrite Hrun. clear Hrun.
  assert (forall k, k ∉ [METADATA; METRICS; TAGS; INPUT_PARAMETERS; INPUT_PROMPT] ->
                    get_tag k sp6 = get_tag k sp) as Hm.
  { intros k Hk. destruct Hf as (_ & _ & _ & _ & _ & _ & _ & Em).
    unfold get_tag. rewrite Em by done. by destruct _name. }
  assert (forall k, k ∈ [INPUT_MESSAGES; OUTPUT_MESSAGES; INPUT_DOCUMENTS;
                         OUTPUT_DOCUMENTS; INPUT_VALUE; OUTPUT_VALUE] ->
                    get_tag k sp6 = get_tag k sp) as Hio.
  { intros k Hk. apply Hm. intros Hin.
    repeat (apply elem_of_cons in Hk as [->|Hk];
            [repeat (apply elem_of_cons in Hin as [Hin|Hin]; [discriminate Hin|]);
             by apply elem_of_nil in Hin|]).
    by apply elem_of_nil in Hk. }
  clear Hm Hf.
  assert (get_tag INPUT_MESSAGES sp6 = get_tag INPUT_MESSAGES sp) as Him
    by (apply Hio; in_keys).
  assert (get_tag OUTPUT_MESSAGES sp6 = get_tag OUTPUT_MESSAGES sp) as Hom
    by (apply Hio; in_keys).
  assert (get_tag INPUT_DOCUMENTS sp6 = get_tag INPUT_DOCUMENTS sp) as Hid
    by (apply Hio; in_keys).
  assert (get_tag OUTPUT_DOCUMENTS sp6 = get_tag OUTPUT_DOCUMENTS sp) as Hod
    by (apply Hio; in_keys).
  assert (get_tag INPUT_VALUE sp6 = get_tag INPUT_VALUE sp) as Hiv
    by (apply Hio; in_keys).
  assert (get_tag OUTPUT_VALUE sp6 = get_tag OUTPUT_VALUE sp) as Hov
    by (apply Hio; in_keys).
  clear Hio. unfold annotate_io.
  destruct (from_option text_truthy false (get_tag SPAN_KIND sp)) eqn:Hk; cbn [negb].
  2:{ exists sp6, ([] ++ evs6 ++ [Log DEBUG MSG_NO_KIND]).
      rewrite log_debug_with_span, <- app_assoc.
      split; [done|].
      split; [intros Hc; apply kind_is_truthy in Hc; [congruence|done]|].
      split; [intros Hc; apply kind_is_truthy in Hc; [congruence|done]|].
      split; [intros Hc; apply kind_is_truthy in Hc; [congruence|done]|].
      done. }
  destruct (negb (is_none input_data) || negb (is_none output_data)) eqn:Hany; cbn [when].
  2:{ apply orb_false_iff in Hany as [Hi%negb_false_iff Ho%negb_false_iff].
      exists sp6, ([] ++ evs6). split; [done|].
      unfold messages_after, documents_after, value_after. rewrite Hi, Ho.
      by repeat split. }
  destruct (kind_is (get_tag SPAN_KIND sp) "llm") eqn:K1.
  { destruct (_tag_llm_io_with_span ref input_data output_data sp6 ([] ++ evs6) st)
      as (evs' & ->).
    eexists _, _. split; [reflexivity|].
    assert (kind_is (get_tag SPAN_KIND sp) "embedding" = false) as K2.
    { destruct (get_tag SPAN_KIND sp) as [[s|v]|]; try done.
      cbn in K1 |- *. by apply String.eqb_eq in K1 as ->. }
    assert (kind_is (get_tag SPAN_KIND sp) "retrieval" = false) as K3.
    { destruct (get_tag SPAN_KIND sp) as [[s|v]|]; try done.
      cbn in K1 |- *. by apply String.eqb_eq in K1 as ->. }
    rewrite K2, K3.
    split; [intros _; split|by repeat (split; [done|])].
    - rewrite get_tag_put_tag_ne by done.
      rewrite get_tag_put_tag_eq by apply messages_after_None. by rewrite Him.
    - rewrite get_tag_put_tag_eq.
      + by rewrite Hom.
      + rewrite get_tag_put_tag_ne by done. apply messages_after_None. }
  destruct (kind_is (get_tag SPAN_KIND sp) "embedding") eqn:K2.
  { destruct (_tag_embedding_io_with_span ref input_data output_data sp6 ([] ++ evs6) st)
      as (evs' & ->).
    eexists _, _. split; [reflexivity|].
    assert (kind_is (get_tag SPAN_KIND sp) "retrieval" = false) as K3.
    { destruct (get_tag SPAN_KIND sp) as [[s|v]|]; try done.
      cbn in K2 |- *. by apply String.eqb_eq in K2 as ->. }
    rewrite K3.
    split; [done|]. split; [intros _; split|by repeat (split; [done|])].
    - rewrite get_tag_put_tag_ne by done.
      rewrite get_tag_put_tag_eq by apply documents_after_None. by rewrite Hid.
    - rewrite get_tag_put_tag_eq.
      + by rewrite Hov.
      + rewrite get_tag_put_tag_ne by done. apply value_after_None. }
  destruct (kind_is (get_tag SPAN_KIND sp) "retrieval") eqn:K3.
  { destruct (_tag_retrieval_io_with_span ref input_data output_data sp6 ([] ++ evs6) st)
      as (evs' & ->).
    eexists _, _. split; [reflexivity|].
    split; [done|]. split; [done|]. split; [intros _; split|done].
    - rewrite get_tag_put_tag_ne by done.
      rewrite get_tag_put_tag_eq by apply value_after_None. by rewrite Hiv.
    - rewrite get_tag_put_tag_eq.
      + by rewrite Hod.
      + rewrite get_tag_put_tag_ne by done. apply documents_after_None. }
  rewrite _tag_text_io_with_span.
  eexists _, _. split; [reflexivity|].
  split; [done|]. split; [done|]. split; [done|]. intros _ _ _ _. split.
  - rewrite get_tag_put_tag_ne by done.
    rewrite get_tag_put_tag_eq by apply value_after_None. by rewrite Hiv.
  - rewrite get_tag_put_tag_eq.
    + by rewrite Hov.
    + rewrite get_tag_put_tag_ne by done. apply value_after_None.
Qed.

(** ** Opening and closing annotation scopes *)

Lemma register_annotation_run st annotation_id tags prompt nm :
  let st' := exec (register_annotation annotation_id tags prompt nm) st in
  let ctx_id :=
    if baggage_truthy (ambient_id st) then default (BInt annotation_id) (ambient_id st)
    else BInt annotation_id in
  result (register_annotation annotation_id tags prompt nm) st = Done tt
  /\ _annotations st' = _annotations st ++ [(annotation_id, ctx_id, mkKwargs tags prompt nm)]
  /\ ambient_id st' = Some ctx_id
  /\ spans st' = spans st
  /\ hook_registered st' = hook_registered st
  /\ next_span_id st' = next_span_id st.
Proof.
  unfold exec, result, register_annotation, with_lock, get_annotations_context_id,
    ambient_id.
  rewrite !bind_run. cbn [get_state current_trace_context add_event].
  unfold activate, modify, mbind, M_bind, mret, M_ret.
  destruct (current_trace_context st) as [ctx|] eqn:Hctx.
  - destruct (ctx_baggage ctx !! ANNOTATIONS_CONTEXT_ID) as [item|] eqn:Hitem.
    + destruct (baggage_truthy (Some item)) eqn:Htruthy.
      * cbn. by rewrite Hctx, Hitem.
      * cbn. by rewrite lookup_insert_eq.
    + cbn. by rewrite lookup_insert_eq.
  - cbn. by rewrite lookup_insert_eq.
Qed.

(** X8: opening a scope never fails and writes the registry under the
    lock: its one write, the append, stands between the taking and the
    release of the lock.  It appends one entry, after the entries already
    there; the context id of the entry is the ambient id the active trace context carries
    afterwards, so a span started next in that context matches the entry.
    That id is the ambient id already on the context when there is one that
    is truthy, and then the context is left alone; otherwise it is the
    annotation id of the scope, stored on the active context, or on a new
    context when none was active.  Spans, queue and the enabled flag are
    untouched. *)
Theorem register_annotation_effect st annotation_id tags prompt nm :
  let st' := exec (register_annotation annotation_id tags prompt nm) st in
  let ctx_id :=
    if baggage_truthy (ambient_id st) then default (BInt annotation_id) (ambient_id st)
    else BInt annotation_id in
  result (register_annotation annotation_id tags prompt nm) st = Done tt
  /\ _annotations st' = _annotations st ++ [(annotation_id, ctx_id, mkKwargs tags prompt nm)]
  /\ ambient_id st' = Some ctx_id
  /\ (if baggage_truthy (ambient_id st)
      then current_trace_context st' = current_trace_context st
      else current_trace_context st'
           = Some (set_baggage_item ANNOTATIONS_CONTEXT_ID (BInt annotation_id)
                     (default (mkContext None None ∅ ∅) (current_trace_context st))))
  /\ events st' = events st ++ [LockAcquire; RegistryAppend annotation_id; LockRelease]
  /\ spans st' = spans st
  /\ eval_queue st' = eval_queue st
  /\ enabled st' = enabled st
  /\ hook_registered st' = hook_registered st
  /\ next_span_id st' = next_span_id st.
Proof.
  unfold exec, result, register_annotation, with_lock, get_annotations_context_id,
    ambient_id.
  rewrite !bind_run. cbn [get_state current_trace_context add_event].
  unfold activate, modify, mbind, M_bind, mret, M_ret.
  destruct (current_trace_context st) as [ctx|] eqn:Hctx.
  - destruct (ctx_baggage ctx !! ANNOTATIONS_CONTEXT_ID) as [item|] eqn:Hitem.
    + destruct (baggage_truthy (Some item)) eqn:Htruthy.
      * cbn. rewrite Hctx, Hitem, <- !app_assoc. done.
      * cbn. rewrite lookup_insert_eq, <- !app_assoc. done.
    + cbn. rewrite lookup_insert_eq, <- !app_assoc. done.
  - cbn. rewrite lookup_insert_eq, <- !app_assoc. done.
Qed.

Lemma find_annotation_fresh annotation_id (l : list annotation_entry) cid kw :
  Forall (fun x => entry_id x <> annotation_id) l ->
  exists i,
    find_annotation annotation_id (l ++ [(annotation_id, cid, kw)]) = Some i
    /\ delete i (l ++ [(annotation_id, cid, kw)]) = l.
Proof.
  induction l as [|[[key c] k] l IH]; intros Hl.
  - exists 0%nat. simpl. by rewrite bool_decide_eq_true_2.
  - apply Forall_cons in Hl as [Hx Hl]. destruct (IH Hl) as (i & Hfind & Hdel).
    exists (S i). simpl. unfold entry_id in Hx. simpl in Hx.
    rewrite bool_decide_eq_false_2 by done. rewrite Hfind. simpl.
    split; [done|]. by rewrite Hdel.
Qed.

Lemma deregister_annotation_run st annotation_id i :
  find_annotation annotation_id (_annotations st) = Some i ->
  deregister_annotation annotation_id st
  = (Done tt,
     add_event LockRelease
       (add_event (RegistryPop i)
          (set_annotations (delete i (_annotations st)) (add_event LockAcquire st)))).
Proof.
  intros Hfind. unfold deregister_annotation, with_lock.
  rewrite bind_run. cbn [get_state _annotations add_event]. by rewrite Hfind.
Qed.

(** X9: a scope that is opened and then closed, its annotation id not yet in
    the registry, leaves the registry as it found it, and both steps return.
    The trace context is not rolled back: closing never touches it, so the
    ambient id the opening left on it stays.  A scope opened afterwards in
    that context therefore gets the id of the closed scope as its context id
    when that id is not zero. *)
Theorem scope_round_trip st annotation_id tags prompt nm :
  Forall (fun x => entry_id x <> annotation_id) (_annotations st) ->
  let opened := exec (register_annotation annotation_id tags prompt nm) st in
  let closed := exec (deregister_annotation annotation_id) opened in
  result (register_annotation annotation_id tags prompt nm ;;
          deregister_annotation annotation_id) st = Done tt
  /\ exec (register_annotation annotation_id tags prompt nm ;;
           deregister_annotation annotation_id) st = closed
  /\ _annotations closed = _annotations st
  /\ spans closed = spans st
  /\ current_trace_context closed = current_trace_context opened
  /\ ambient_id closed = ambient_id opened
  /\ (baggage_truthy (ambient_id st) = false -> annotation_id <> 0 ->
      forall annotation_id' tags' prompt' nm',
        _annotations
          (exec (register_annotation annotation_id' tags' prompt' nm') closed)
        = _annotations st
          ++ [(annotation_id', BInt annotation_id, mkKwargs tags' prompt' nm')]).
Proof.
  intros Hfresh opened closed.
  pose proof (register_annotation_run st annotation_id tags prompt nm)
    as (Hres & Hreg & Hamb & Hspans & _).
  fold opened in Hreg, Hamb, Hspans.
  destruct (find_annotation_fresh annotation_id (_annotations st)
              (if baggage_truthy (ambient_id st)
               then default (BInt annotation_id) (ambient_id st)
               else BInt annotation_id)
              (mkKwargs tags prompt nm) Hfresh) as (i & Hfind & Hdel).
  rewrite <- Hreg in Hfind, Hdel.
  pose proof (deregister_annotation_run opened annotation_id i Hfind) as Hrun.
  assert (closed
          = add_event LockRelease
              (add_event (RegistryPop i)
                 (set_annotations (delete i (_annotations opened))
                    (add_event LockAcquire opened)))) as Hclosed.
  { unfold closed, exec. by rewrite Hrun. }
  assert (_annotations closed = _annotations st) as Hback.
  { rewrite Hclosed. cbn. exact Hdel. }
  assert (ambient_id closed = ambient_id opened) as Hsame.
  { rewrite Hclosed. done. }
  split; [|split; [|split; [|split; [|split; [|split]]]]].
  - unfold result. rewrite bind_run.
    unfold result in Hres.
    destruct (register_annotation annotation_id tags prompt nm st) as [r s] eqn:Hr.
    simpl in Hres. subst r. unfold opened, exec in Hrun. rewrite Hr in Hrun.
    simpl in Hrun. by rewrite Hrun.
  - unfold exec at 1. rewrite bind_run. unfold result in Hres.
    unfold closed, opened, exec.
    destruct (register_annotation annotation_id tags prompt nm st) as [r s] eqn:Hr.
    simpl in Hres. by subst r.
  - exact Hback.
  - rewrite Hclosed. cbn. exact Hspans.
  - rewrite Hclosed. done.
  - exact Hsame.
  - intros Hfalsy Hnz annotation_id' tags' prompt' nm'.
    pose proof (register_annotation_run closed annotation_id' tags' prompt' nm')
      as (_ & Hreg' & _).
    rewrite Hreg', Hback. do 2 f_equal.
    rewrite Hsame, Hamb, Hfalsy. cbn.
    destruct (annotation_id =? 0) eqn:Hz; [|done].
    by apply Z.eqb_eq in Hz.
Qed.

(** ** Span creation *)

Lemma span_frame_put_tag keys k v sp :
  k ∈ keys -> span_frame keys sp (put_tag k v sp).
Proof.
  intros Hk. unfold put_tag. destruct v; [by apply span_frame_set_tag_str|].
  apply span_frame_refl.
Qed.

Lemma opt_tag_step {B} ref key (o : option string) (k : M B) sp evs st :
  (match o with
   | Some m => update_span ref (set_tag_str key (Plain m))
   | None => mret tt
   end ;; k) (with_span ref sp evs st)
  = k (with_span ref (put_tag key (Plain <$> o) sp) evs st).
Proof.
  rewrite bind_run. destruct o; cbn [fmap option_fmap option_map put_tag];
    by rewrite ?update_span_with_span, ?mret_run.
Qed.

Lemma get_tag_hooked_span st sp k :
  k <> TAGS -> k <> INPUT_PROMPT -> get_tag k (hooked_span st sp) = get_tag k sp.
Proof.
  intros H1 H2.
  pose proof (hooked_span_same_outside st sp) as (_ & _ & _ & _ & _ & _ & Hmeta).
  unfold get_tag. apply Hmeta. by apply not_scope_key.
Qed.

(** The span [_start_span] leaves in the store, against the span the tracer
    handed out. *)
Lemma _start_span_tags st operation_kind nm session_id model_name model_provider ml_app :
  exists sp evs,
    _start_span operation_kind nm session_id model_name model_provider ml_app st
    = (Done (next_span_id st),
       with_span (next_span_id st) sp evs (tracer_activate_new st))
    /\ span_frame start_keys
         (hooked_span st
            (tracer_new_span st (default operation_kind nm) operation_kind
               (Some SpanTypes_LLM))) sp
    /\ get_tag SPAN_KIND sp = Some (Plain operation_kind)
    /\ get_tag MODEL_NAME sp
       = match model_name with
         | Some m => Some (Plain m)
         | None => new_span_meta st !! MODEL_NAME
         end
    /\ get_tag MODEL_PROVIDER sp
       = match model_provider with
         | Some m => Some (Plain m)
         | None => new_span_meta st !! MODEL_PROVIDER
         end
    /\ (forall s, session_id = Some s -> get_tag SESSION_ID sp = Some (Plain s))
    /\ (exists a, get_tag ML_APP sp = Some (Plain a)
                  /\ (forall x, ml_app = Some x -> a = x)
                  /\ (ml_app = None ->
                      exists st1 sp1,
                        spans st1 !! next_span_id st = Some sp1
                        /\ config st1 = config st
                        /\ a = _get_ml_app st1 sp1))
    /\ (new_span_meta st !! PROPAGATED_PARENT_ID_KEY = None ->
        (exists st1 sp1,
           spans st1 !! next_span_id st = Some sp1
           /\ config st1 = config st
           /\ get_tag PARENT_ID_KEY sp
              = Some (Plain (match _get_llmobs_parent_id st1 sp1 with
                             | Some p => if String.eqb p "" then "undefined" else p
                             | None => "undefined"
                             end)))
        /\ exists p, get_tag PARENT_ID_KEY sp = Some (Plain p) /\ p <> "")
    /\ (new_span_meta st !! PROPAGATED_PARENT_ID_KEY <> None ->
        get_tag PARENT_ID_KEY sp = new_span_meta st !! PARENT_ID_KEY).
Proof.
  unfold _start_span.
  destruct (tracer_trace_llm_run st (default operation_kind nm) operation_kind)
    as (evs & Htrace).
  set (sp0 := tracer_new_span st (default operation_kind nm) operation_kind
                (Some SpanTypes_LLM)) in *.
  assert (forall k, k <> TAGS -> k <> INPUT_PROMPT ->
                    get_tag k (hooked_span st sp0) = new_span_meta st !! k) as Hnew.
  { intros k H1 H2. by rewrite get_tag_hooked_span. }
  set (sp1 := hooked_span st sp0) in *. clearbody sp1. clear sp0.
  set (base := tracer_activate_new st) in *.
  assert (forall ref sp' evs', config (with_span ref sp' evs' base) = config st)
    as Hcfg by done.
  clearbody base.
  rewrite bind_run, Htrace.
  rewrite bind_run, update_span_with_span.
  rewrite !opt_tag_step.
  rewrite bind_run, get_state_with_span.
  rewrite bind_run, get_span_with_span.
  rewrite opt_tag_step.
  rewrite bind_run, get_state_with_span.
  rewrite bind_run, get_span_with_span.
  rewrite bind_run, update_span_with_span.
  rewrite bind_run, get_state_with_span.
  rewrite bind_run, get_span_with_span.
  rewrite bind_run.
  set (sp2 := set_tag_str SPAN_KIND (Plain operation_kind) sp1).
  set (sp3 := put_tag MODEL_NAME (Plain <$> model_name) sp2).
  set (sp4 := put_tag MODEL_PROVIDER (Plain <$> model_provider) sp3).
  match goal with |- context [put_tag SESSION_ID ?v sp4] =>
    set (sid := v); set (sp5 := put_tag SESSION_ID sid sp4) end.
  match goal with |- context [set_tag_str ML_APP ?v sp5] =>
    set (app := v); set (sp6 := set_tag_str ML_APP app sp5) end.
  assert (get_tag PROPAGATED_PARENT_ID_KEY sp6
          = new_span_meta st !! PROPAGATED_PARENT_ID_KEY) as Hprop.
  { unfold sp6, sp5, sp4, sp3, sp2.
    rewrite get_tag_set_tag_str_ne by done.
    rewrite !get_tag_put_tag_ne by done.
    rewrite get_tag_set_tag_str_ne by done. by apply Hnew. }
  assert (span_frame start_keys sp1 sp6) as Hframe.
  { unfold sp6, sp5, sp4, sp3, sp2, start_keys.
    eapply span_frame_trans; [|apply span_frame_set_tag_str; in_keys].
    eapply span_frame_trans; [|apply span_frame_put_tag; in_keys].
    eapply span_frame_trans; [|apply span_frame_put_tag; in_keys].
    eapply span_frame_trans; [|apply span_frame_put_tag; in_keys].
    apply span_frame_set_tag_str; in_keys. }
  assert (get_tag SPAN_KIND sp6 = Some (Plain operation_kind)) as Hkind.
  { unfold sp6, sp5, sp4, sp3, sp2.
    rewrite get_tag_set_tag_str_ne by done.
    rewrite !get_tag_put_tag_ne by done.
    apply get_tag_set_tag_str_eq. }
  assert (get_tag MODEL_NAME sp6
          = match model_name with
            | Some m => Some (Plain m)
            | None => new_span_meta st !! MODEL_NAME
            end) as Hmn.
  { unfold sp6, sp5, sp4.
    rewrite get_tag_set_tag_str_ne by done.
    rewrite !get_tag_put_tag_ne by done.
    unfold sp3, sp2. destruct model_name; cbn [fmap option_fmap option_map put_tag].
    - apply get_tag_set_tag_str_eq.
    - rewrite get_tag_set_tag_str_ne by done. by apply Hnew. }
  assert (get_tag MODEL_PROVIDER sp6
          = match model_provider with
            | Some m => Some (Plain m)
            | None => new_span_meta st !! MODEL_PROVIDER
            end) as Hmp.
  { unfold sp6, sp5.
    rewrite get_tag_set_tag_str_ne by done.
    rewrite get_tag_put_tag_ne by done.
    unfold sp4, sp3, sp2.
    destruct model_provider; cbn [fmap option_fmap option_map put_tag].
    - apply get_tag_set_tag_str_eq.
    - rewrite get_tag_put_tag_ne by done.
      rewrite get_tag_set_tag_str_ne by done. by apply Hnew. }
  assert (forall s, session_id = Some s -> get_tag SESSION_ID sp6 = Some (Plain s))
    as Hsid.
  { intros s ->. unfold sp6, sp5, sid.
    rewrite get_tag_set_tag_str_ne by done. apply get_tag_set_tag_str_eq. }
  assert (exists a, get_tag ML_APP sp6 = Some (Plain a)
                    /\ (forall x, ml_app = Some x -> a = x)
                    /\ (ml_app = None ->
                        exists st1 sp1,
                          spans st1 !! next_span_id st = Some sp1
                          /\ config st1 = config st
                          /\ a = _get_ml_app st1 sp1)) as Happ.
  { unfold sp6, app. eexists. split; [apply get_tag_set_tag_str_eq|].
    split; [by intros x ->|]. intros ->. eexists _, _.
    split; [apply lookup_with_span|]. split; [apply Hcfg|reflexivity]. }
  assert (get_tag PARENT_ID_KEY sp6 = new_span_meta st !! PARENT_ID_KEY) as Hpid.
  { unfold sp6, sp5, sp4, sp3, sp2.
    rewrite get_tag_set_tag_str_ne by done.
    rewrite !get_tag_put_tag_ne by done.
    rewrite get_tag_set_tag_str_ne by done. by apply Hnew. }
  clearbody sp6.
  destruct (get_tag PROPAGATED_PARENT_ID_KEY sp6) as [t|] eqn:Hp.
  - rewrite mret_run. exists sp6, evs. split; [done|].
    repeat (split; [done|]). split; [intros Hnone; congruence|done].
  - rewrite update_span_with_span. eexists _, _. split; [reflexivity|].
    split; [eapply span_frame_trans; [exact Hframe|];
            apply span_frame_set_tag_str; unfold start_keys; in_keys|].
    rewrite !get_tag_set_tag_str_ne by done.
    repeat (split; [done|]). split; [|intros Hsome; congruence].
    intros _. rewrite get_tag_set_tag_str_eq. split.
    { eexists _, _. split; [apply lookup_with_span|].
      split; [apply Hcfg|reflexivity]. }
    eexists. split; [reflexivity|].
    destruct (_get_llmobs_parent_id _ _) as [p|]; [|done].
    destruct (String.eqb p "") eqn:Hempty; [done|].
    by apply String.eqb_neq in Hempty.
Qed.

Lemma hooked_span_frame st sp :
  span_type (hooked_span st sp) = span_type sp
  /\ resource (hooked_span st sp) = resource sp
  /\ finished (hooked_span st sp) = finished sp
  /\ span_id (hooked_span st sp) = span_id sp.
Proof.
  pose proof (hooked_span_same_outside st sp) as (E1 & _ & _ & E4 & E5 & E6 & _).
  done.
Qed.

(** X10: [_start_span] always returns the new span, of type LLM, not
    finished, with the kind as resource.  An explicit session id is tagged on
    it.  The application tag is always written: the application given when
    there is one, else what the walk up the ancestors finds for the new span.
    The parent id tag is written only when the span carries no propagated
    parent id; it is then the parent id the walk finds for the new span, and
    the text "undefined" when the walk finds none or finds the empty text,
    so it is never empty: where the walk never finds a non-empty id the tag
    reads "undefined", and where it always finds the same non-empty id the tag
    is that id.  When the span carries a propagated parent id the
    tag is left as the tracer delivered it.  Every other tag, but for what
    open annotation scopes put on the span, is as the tracer delivered
    it. *)
Theorem start_span_session_app_and_parent st operation_kind nm session_id
    model_name model_provider ml_app :
  exists sp,
    result (_start_span operation_kind nm session_id model_name model_provider ml_app) st
    = Done (next_span_id st)
    /\ spans (exec (_start_span operation_kind nm session_id model_name
                      model_provider ml_app) st) !! next_span_id st = Some sp
    /\ is_llm_span sp = true
    /\ finished sp = false
    /\ resource sp = operation_kind
    /\ (forall s, session_id = Some s -> get_tag SESSION_ID sp = Some (Plain s))
    /\ (exists a, get_tag ML_APP sp = Some (Plain a)
                  /\ (forall x, ml_app = Some x -> a = x)
                  /\ (ml_app = None ->
                      exists st1 sp1,
                        spans st1 !! next_span_id st = Some sp1
                        /\ config st1 = config st
                        /\ a = _get_ml_app st1 sp1))
    /\ (new_span_meta st !! PROPAGATED_PARENT_ID_KEY = None ->
        (exists st1 sp1,
           spans st1 !! next_span_id st = Some sp1
           /\ config st1 = config st
           /\ get_tag PARENT_ID_KEY sp
              = Some (Plain (match _get_llmobs_parent_id st1 sp1 with
                             | Some p => if String.eqb p "" then "undefined" else p
                             | None => "undefined"
                             end)))
        /\ exists p, get_tag PARENT_ID_KEY sp = Some (Plain p) /\ p <> "")
    /\ (new_span_meta st !! PROPAGATED_PARENT_ID_KEY = None ->
        (forall st1 sp1, _get_llmobs_parent_id st1 sp1 = None
                         \/ _get_llmobs_parent_id st1 sp1 = Some "") ->
        get_tag PARENT_ID_KEY sp = Some (Plain "undefined"))
    /\ (new_span_meta st !! PROPAGATED_PARENT_ID_KEY = None ->
        forall p, p <> "" ->
        (forall st1 sp1, _get_llmobs_parent_id st1 sp1 = Some p) ->
        get_tag PARENT_ID_KEY sp = Some (Plain p))
    /\ (new_span_meta st !! PROPAGATED_PARENT_ID_KEY <> None ->
        get_tag PARENT_ID_KEY sp = new_span_meta st !! PARENT_ID_KEY)
    /\ (forall k, k ∉ start_keys -> k <> TAGS -> k <> INPUT_PROMPT ->
        get_tag k sp = new_span_meta st !! k).
Proof.
  destruct (_start_span_tags st operation_kind nm session_id model_name
              model_provider ml_app)
    as (sp & evs & Hrun & Hframe & _ & _ & _ & Hsid & Happ & Hp1 & Hp2).
  assert (new_span_meta st !! PROPAGATED_PARENT_ID_KEY = None ->
          (forall st1 sp1, _get_llmobs_parent_id st1 sp1 = None
                           \/ _get_llmobs_parent_id st1 sp1 = Some "") ->
          get_tag PARENT_ID_KEY sp = Some (Plain "undefined")) as Hundef.
  { intros Hnone Hwalk. destruct (Hp1 Hnone) as ((st1 & sp1 & _ & _ & ->) & _).
    by destruct (Hwalk st1 sp1) as [-> | ->]. }
  assert (new_span_meta st !! PROPAGATED_PARENT_ID_KEY = None ->
          forall p, p <> "" ->
          (forall st1 sp1, _get_llmobs_parent_id st1 sp1 = Some p) ->
          get_tag PARENT_ID_KEY sp = Some (Plain p)) as Hfound.
  { intros Hnone p Hp Hwalk. destruct (Hp1 Hnone) as ((st1 & sp1 & _ & _ & ->) & _).
    rewrite Hwalk. apply String.eqb_neq in Hp. by rewrite Hp. }
  exists sp. unfold result, exec. rewrite Hrun. cbn [fst snd].
  destruct Hframe as (_ & _ & _ & _ & Eres & Etype & Efin & Emeta).
  destruct (hooked_span_frame st
              (tracer_new_span st (default operation_kind nm) operation_kind
                 (Some SpanTypes_LLM))) as (Ht & Hr & Hf & _).
  split; [done|]. split; [apply lookup_with_span|].
  split; [unfold is_llm_span; by rewrite Etype, Ht|].
  split; [by rewrite Efin, Hf|].
  split; [by rewrite Eres, Hr|].
  repeat (split; [done|]).
  intros k Hk H1 H2. unfold get_tag. rewrite Emeta by done.
  by apply get_tag_hooked_span.
Qed.

(** X11: [tool], [task], [agent], [workflow] and [retrieval] each start a
    span of their own kind, whether the service is enabled or not: the call
    returns the new span, which carries the kind as kind tag and as resource
    and is of type LLM; its model tags are not written (they are what the tracer delivered),
    and its name is the
    name given, by default the kind, when no annotation scope is applied.
    When the service is not enabled the call first logs one warning, and
    still creates the span. *)
Theorem plain_constructors_start_their_kind st kind constructor nm session_id ml_app :
  (kind, constructor) ∈ plain_constructors ->
  result (constructor nm session_id ml_app) st = Done (next_span_id st)
  /\ (exists sp,
        spans (exec (constructor nm session_id ml_app) st) !! next_span_id st = Some sp
        /\ get_tag SPAN_KIND sp = Some (Plain kind)
        /\ resource sp = kind
        /\ is_llm_span sp = true
        /\ get_tag MODEL_NAME sp
           = new_span_meta (exec warn_if_disabled st) !! MODEL_NAME
        /\ get_tag MODEL_PROVIDER sp
           = new_span_meta (exec warn_if_disabled st) !! MODEL_PROVIDER
        /\ (hook_registered st = false \/ _annotations st = [] ->
            name sp = default kind nm))
  /\ (enabled st = false ->
      exists evs,
        events (exec (constructor nm session_id ml_app) st)
        = events st ++ Log WARNING SPAN_START_WHILE_DISABLED_WARNING :: evs).
Proof.
  intros Hin.
  assert (constructor nm session_id ml_app
          = (warn_if_disabled ;; _start_span kind nm session_id None None ml_app))
    as ->.
  { unfold plain_constructors in Hin.
    repeat (apply elem_of_cons in Hin as [[= -> ->]|Hin]; [done|]).
    by apply elem_of_nil in Hin. }
  unfold result, exec. rewrite bind_run, warn_if_disabled_run. cbn [snd].
  set (st1 := if enabled st then st else _).
  assert (next_span_id st1 = next_span_id st) as Hid
    by (unfold st1; by destruct (enabled st)).
  destruct (_start_span_tags st1 kind nm session_id None None ml_app)
    as (sp & evs & Hrun & Hframe & Hkind & Hmn & Hmp & _).
  rewrite Hrun, Hid. cbn [fst snd]. split; [done|]. split.
  - exists sp. split; [rewrite <- Hid; apply lookup_with_span|].
    destruct Hframe as (_ & _ & _ & Ename & Eres & Etype & _).
    destruct (hooked_span_frame st1
                (tracer_new_span st1 (default kind nm) kind (Some SpanTypes_LLM)))
      as (Ht & Hr & _).
    split; [done|]. split; [by rewrite Eres, Hr|].
    split; [unfold is_llm_span; by rewrite Etype, Ht|].
    split; [done|]. split; [done|].
    intros Hno. rewrite Ename. rewrite hooked_span_no_scope; [done|].
    unfold st1. by destruct (enabled st).
  - intros Hoff. exists evs. unfold st1. rewrite Hoff. cbn. by rewrite <- app_assoc.
Qed.

Lemma name_apply_scope kw sp :
  name (apply_scope kw sp) = default (name sp) (kw_name kw).
Proof.
  unfold apply_scope.
  assert (forall v s, name (put_tag TAGS v s) = name s) as Hput
    by (intros [v|] s; done).
  destruct (is_none (kw_prompt kw)); [|destruct (validate_prompt (kw_prompt kw))];
    destruct (kw_name kw); cbn; by rewrite ?Hput.
Qed.

(** X12: an annotation scope from its opening to its closing, on a service
    whose start hook is registered and whose registry is empty.  A span
    started while the scope is open has the name of the scope, whatever name
    was asked for, and the tags of the scope merged into its tag blob.  Once
    the scope is closed the registry is empty again, and the next span
    started has the name asked for, by default the kind, and the tag blob the
    tracer delivered. *)
Theorem scope_applies_between_enter_and_exit st annotation_id tags prompt n
    operation_kind nm session_id model_name model_provider ml_app :
  hook_registered st = true ->
  _annotations st = [] ->
  let opened := exec (register_annotation annotation_id tags prompt (Some n)) st in
  let inside :=
    exec (_start_span operation_kind nm session_id model_name model_provider ml_app)
      opened in
  let closed := exec (deregister_annotation annotation_id) inside in
  let outside :=
    exec (_start_span operation_kind nm session_id model_name model_provider ml_app)
      closed in
  (exists sp,
     spans inside !! next_span_id st = Some sp
     /\ name sp = n
     /\ get_tag TAGS sp = tags_after (new_span_meta opened !! TAGS) tags)
  /\ _annotations closed = []
  /\ (exists sp,
        spans outside !! (next_span_id st + 1) = Some sp
        /\ name sp = default operation_kind nm
        /\ get_tag TAGS sp = new_span_meta closed !! TAGS).
Proof.
  intros Hhook Hempty opened inside closed outside.
  pose proof (register_annotation_run st annotation_id tags prompt (Some n))
    as (_ & Hreg & Hamb & _ & Hh1 & Hid1).
  fold opened in Hreg, Hamb, Hh1, Hid1. rewrite Hempty in Hreg. cbn [app] in Hreg.
  set (cid := if baggage_truthy (ambient_id st)
              then default (BInt annotation_id) (ambient_id st)
              else BInt annotation_id) in *.
  (* the span started inside the scope *)
  destruct (_start_span_tags opened operation_kind nm session_id model_name
              model_provider ml_app)
    as (sp & evs & Hrun & Hframe & _).
  set (sp0 := tracer_new_span opened (default operation_kind nm) operation_kind
                (Some SpanTypes_LLM)) in *.
  assert (hooked_span opened sp0
          = apply_scope (mkKwargs tags prompt (Some n)) sp0) as Hhooked.
  { unfold hooked_span. rewrite Hh1, Hhook, Hreg.
    unfold ambient_id in Hamb.
    destruct (current_trace_context opened) as [ctx|]; [|done].
    cbn [from_option id]. rewrite Hamb. unfold entry_matches.
    cbn [List.filter fst snd]. rewrite bool_decide_eq_true_2 by done. done. }
  assert (inside
          = with_span (next_span_id opened) sp evs (tracer_activate_new opened))
    as Hinside by (unfold inside, exec; by rewrite Hrun).
  destruct Hframe as (_ & _ & _ & Ename & _ & _ & _ & Emeta).
  split; [|split].
  - exists sp. rewrite Hinside, <- Hid1. split; [apply lookup_with_span|]. split.
    + rewrite Ename, Hhooked, name_apply_scope. done.
    + unfold get_tag. rewrite Emeta.
      2:{ unfold start_keys. intros Hin.
          repeat (apply elem_of_cons in Hin as [Hin|Hin]; [discriminate Hin|]).
          by apply elem_of_nil in Hin. }
      rewrite Hhooked. fold (get_tag TAGS (apply_scope (mkKwargs tags prompt (Some n)) sp0)).
      by rewrite apply_scope_TAGS.
  - assert (find_annotation annotation_id (_annotations inside) = Some 0%nat) as Hfind.
    { rewrite Hinside. cbn [_annotations with_span tracer_activate_new].
      rewrite Hreg. cbn. by rewrite bool_decide_eq_true_2. }
    unfold closed, exec. rewrite (deregister_annotation_run _ _ _ Hfind).
    cbn [snd _annotations add_event set_annotations].
    rewrite Hinside. cbn [_annotations with_span tracer_activate_new].
    by rewrite Hreg.
  - assert (find_annotation annotation_id (_annotations inside) = Some 0%nat) as Hfind.
    { rewrite Hinside. cbn [_annotations with_span tracer_activate_new].
      rewrite Hreg. cbn. by rewrite bool_decide_eq_true_2. }
    assert (_annotations closed = []) as Hnone.
    { unfold closed, exec. rewrite (deregister_annotation_run _ _ _ Hfind).
      cbn [snd _annotations add_event set_annotations].
      rewrite Hinside. cbn [_annotations with_span tracer_activate_new].
      by rewrite Hreg. }
    assert (next_span_id closed = next_span_id st + 1) as Hid3.
    { unfold closed, exec. rewrite (deregister_annotation_run _ _ _ Hfind).
      cbn [snd next_span_id add_event set_annotations].
      rewrite Hinside. cbn [next_span_id with_span tracer_activate_new].
      by rewrite Hid1. }
    destruct (_start_span_tags closed operation_kind nm session_id model_name
                model_provider ml_app)
      as (sp' & evs' & Hrun' & Hframe' & _).
    rewrite hooked_span_no_scope in Hframe' by (by right).
    destruct Hframe' as (_ & _ & _ & Ename' & _ & _ & _ & Emeta').
    exists sp'. unfold outside, exec. rewrite Hrun', <- Hid3. cbn [snd].
    split; [apply lookup_with_span|]. split; [by rewrite Ename'|].
    unfold get_tag. rewrite Emeta'; [done|].
    unfold start_keys. intros Hin.
    repeat (apply elem_of_cons in Hin as [Hin|Hin]; [discriminate Hin|]).
    by apply elem_of_nil in Hin.
Qed.

Lemma filter_no_match cid (l : list annotation_entry) :
  Forall (fun e => cid <> Some e.1.2) l -> List.filter (entry_matches cid) l = [].
Proof.
  induction l as [|e l IH]; [done|]. intros [He Hl]%Forall_cons. simpl.
  unfold entry_matches at 1. rewrite bool_decide_eq_false_2 by done. by apply IH.
Qed.

(** X13: the start hook at its edges, on a span of type LLM.  With no
    active trace context the hook fails with an attribute error before it
    takes the lock, and the state is untouched.  With an active context and
    no registered entry of its ambient id (in particular when the context
    carries no ambient id at all) the hook takes and releases the lock and
    does nothing else: the span is not touched and [annotate] is not
    called, whether the span is finished or not. *)
Theorem start_hook_without_context_or_match st ref sp :
  spans st !! ref = Some sp ->
  is_llm_span sp = true ->
  (current_trace_context st = None ->
   _do_annotations ref st = (Raised AttributeError, st))
  /\ (forall ctx,
        current_trace_context st = Some ctx ->
        Forall (fun e => ctx_baggage ctx !! ANNOTATIONS_CONTEXT_ID <> Some e.1.2)
          (_annotations st) ->
        _do_annotations ref st = (Done tt, add_events [LockAcquire; LockRelease] st))
  /\ (forall ctx,
        current_trace_context st = Some ctx ->
        ctx_baggage ctx !! ANNOTATIONS_CONTEXT_ID = None ->
        _do_annotations ref st = (Done tt, add_events [LockAcquire; LockRelease] st)).
Proof.
  intros Hsp Hllm.
  assert (forall ctx,
            current_trace_context st = Some ctx ->
            Forall (fun e => ctx_baggage ctx !! ANNOTATIONS_CONTEXT_ID <> Some e.1.2)
              (_annotations st) ->
            _do_annotations ref st
            = (Done tt, add_events [LockAcquire; LockRelease] st)) as Hnone.
  { intros ctx Hctx Hno. unfold _do_annotations.
    rewrite bind_run, (get_span_run ref sp st Hsp), Hllm. cbn [negb].
    rewrite bind_run. cbn [get_state]. rewrite Hctx.
    apply with_lock_run. rewrite bind_run. cbn [get_state].
    change (_annotations (add_event LockAcquire st)) with (_annotations st).
    rewrite annotations_loop_filter, filter_no_match by done. done. }
  split; [|split].
  - intros Hctx. unfold _do_annotations.
    rewrite bind_run, (get_span_run ref sp st Hsp), Hllm. cbn [negb].
    rewrite bind_run. cbn [get_state]. by rewrite Hctx.
  - exact Hnone.
  - intros ctx Hctx Hamb. apply (Hnone ctx Hctx). rewrite Hamb.
    apply Forall_forall. by intros e _.
Qed.

(** ** annotate as a whole *)

(** X14: [annotate] never raises, whatever it is given, when the span it
    works on (the one passed, else the current one) is in the store or there
    is none.  It only ever adds to the log and changes that one span: every
    other span, the registry of scopes, the evaluation queue, the trace
    context and the current span are as before.  With no span passed and no
    current span it logs one warning and changes nothing; on a span that is
    not of type LLM it logs one warning and changes nothing, whether the span
    is finished or not. *)
Theorem annotate_never_raises st span
    parameters prompt input_data output_data metadata metrics tags _name :
  (forall ref, annotated_span st span = Some ref -> is_Some (spans st !! ref)) ->
  let st' := exec (annotate span parameters prompt input_data output_data metadata
                     metrics tags _name) st in
  result (annotate span parameters prompt input_data output_data metadata
            metrics tags _name) st = Done tt
  /\ (exists evs, events st' = events st ++ evs)
  /\ (forall ref, annotated_span st span <> Some ref -> spans st' !! ref = spans st !! ref)
  /\ _annotations st' = _annotations st
  /\ eval_queue st' = eval_queue st
  /\ current_trace_context st' = current_trace_context st
  /\ current_span st' = current_span st
  /\ (annotated_span st span = None ->
      st' = add_event (Log WARNING MSG_NO_SPAN) st)
  /\ (forall ref sp,
        annotated_span st span = Some ref -> spans st !! ref = Some sp ->
        is_llm_span sp = false ->
        st' = add_event (Log WARNING MSG_NOT_LLMOBS_SPAN) st).
Proof.
  intros Hstore st'. unfold st', result, exec. clear st'.
  destruct (annotated_span st span) as [ref|] eqn:Href.
  - destruct (Hstore ref eq_refl) as [sp Hsp].
    destruct (is_llm_span sp) eqn:Hllm; [destruct (finished sp) eqn:Hfin|].
    + rewrite (annotate_refused st span ref sp _ _ _ _ _ _ _ _ Href Hsp)
        by (by right).
      rewrite Hllm. cbn [fst snd].
      split; [done|]. split; [by eexists|]. split; [done|].
      do 4 (split; [done|]). split; [done|].
      intros ref' sp' [= <-] Hsp'. congruence.
    + destruct (annotate_open_with_span st span ref sp [] parameters prompt
                  input_data output_data metadata metrics tags _name Href Hllm Hfin)
        as (sp' & evs & Hrun & _).
      rewrite (with_span_id ref sp st Hsp) in Hrun. rewrite Hrun. cbn [fst snd].
      split; [done|]. split; [by eexists|].
      split; [intros r Hr; apply lookup_insert_ne; congruence|].
      do 4 (split; [done|]). split; [done|].
      intros ref' sp'' [= <-] Hsp'. congruence.
    + rewrite (annotate_refused st span ref sp _ _ _ _ _ _ _ _ Href Hsp)
        by (by left).
      rewrite Hllm. cbn [fst snd].
      split; [done|]. split; [by eexists|]. split; [done|].
      do 4 (split; [done|]). split; done.
  - unfold annotate. rewrite bind_run. cbn [get_state]. rewrite Href.
    change (log_warning MSG_NO_SPAN st)
      with (Done tt, add_event (Log WARNING MSG_NO_SPAN) st).
    cbn [fst snd].
    split; [done|]. split; [by eexists|]. split; [done|].
    do 4 (split; [done|]). split; done.
Qed.

(** ** Exporting a span *)

Lemma str_int_nonempty n : str_int n <> "".
Proof.
  unfold str_int. destruct n as [|p|p]; simpl; [done| |done].
  pose proof (DecimalPos.Unsigned.to_uint_nonnil p) as Hnil.
  by destruct (Pos.to_uint p).
Qed.

Lemma format_x_nonempty n : format_x n <> "".
Proof.
  unfold format_x. destruct n as [|p|p]; simpl; [done| |done].
  pose proof (HexadecimalPos.Unsigned.to_uint_nonnil p) as Hnil.
  by destruct (Pos.to_hex_uint p).
Qed.

Lemma int_of_str_str_int n : int_of_str (str_int n) = Some n.
Proof.
  unfold int_of_str, str_int. rewrite DecimalString.NilZero.isi.
  - simpl. by rewrite DecimalZ.of_to.
  - destruct n as [|p|p]; simpl; [done| |done].
    intros [= Hp]. by apply (DecimalPos.Unsigned.to_uint_nonnil p).
  - destruct n as [|p|p]; simpl; [done|done|].
    intros [= Hp]. by apply (DecimalPos.Unsigned.to_uint_nonnil p).
Qed.

Lemma int_of_hex_format_x n : int_of_hex (format_x n) = Some n.
Proof.
  unfold int_of_hex, format_x. rewrite HexadecimalString.NilZero.isi.
  - simpl. by rewrite HexadecimalZ.of_to.
  - destruct n as [|p|p]; simpl; [done| |done].
    intros [= Hp]. by apply (HexadecimalPos.Unsigned.to_uint_nonnil p).
  - destruct n as [|p|p]; simpl; [done|done|].
    intros [= Hp]. by apply (HexadecimalPos.Unsigned.to_uint_nonnil p).
Qed.

Lemma export_span_run st span :
  (forall ref, exported_span st span = Some ref -> is_Some (spans st !! ref)) ->
  export_span span st
  = match exported_span st span with
    | Some ref =>
        match spans st !! ref with
        | Some sp =>
            if is_llm_span sp then (Done (exported sp), st)
            else (Done PNone, add_event (Log WARNING MSG_NOT_LLMOBS_SPAN) st)
        | None => (Raised InvalidReference, st)
        end
    | None =>
        (Done PNone,
         add_event (Log WARNING (match span with
                                 | AOther v => if truthy v then MSG_EXPORT_FAILED
                                               else MSG_NO_SPAN
                                 | ASpan _ => MSG_NO_SPAN
                                 end)) st)
    end.
Proof.
  intros Hstore. unfold export_span, exported_span in *.
  destruct span as [ref|v].
  - destruct (Hstore ref eq_refl) as [sp Hsp].
    rewrite bind_run, (get_span_run ref sp st Hsp), Hsp.
    by destruct (is_llm_span sp).
  - destruct (truthy v); [done|].
    rewrite bind_run. cbn [get_state].
    destruct (current_span st) as [ref|]; [|done].
    destruct (Hstore ref eq_refl) as [sp Hsp].
    rewrite bind_run, (get_span_run ref sp st Hsp), Hsp.
    by destruct (is_llm_span sp).
Qed.

(** X15: [export_span] never raises, and changes nothing but the log.  It
    looks at the span passed, or at the current span when it is passed
    [None] or any other falsy value.  It returns the two ids of that span,
    the span id in decimal and the trace id in hexadecimal, exactly when that
    span exists and is of type LLM, finished or not, and then logs nothing;
    in every other case it returns [None] and logs exactly one warning.  A
    truthy value that is not a span is refused without a look at the current
    span. *)
Theorem export_span_result st span :
  (forall ref, exported_span st span = Some ref -> is_Some (spans st !! ref)) ->
  exists r evs,
    export_span span st = (Done r, add_events evs st)
    /\ (r <> PNone ->
        evs = []
        /\ exists ref sp,
             exported_span st span = Some ref
             /\ spans st !! ref = Some sp
             /\ is_llm_span sp = true
             /\ r = exported sp)
    /\ (r = PNone -> exists msg, evs = [Log WARNING msg])
    /\ (forall ref sp,
          exported_span st span = Some ref -> spans st !! ref = Some sp ->
          is_llm_span sp = true -> r = exported sp)
    /\ (forall v, span = AOther v -> truthy v = true ->
        r = PNone /\ evs = [Log WARNING MSG_EXPORT_FAILED]).
Proof.
  intros Hstore. rewrite (export_span_run st span Hstore).
  destruct (exported_span st span) as [ref|] eqn:Href.
  - destruct (Hstore ref eq_refl) as [sp Hsp]. rewrite Hsp.
    destruct (is_llm_span sp) eqn:Hllm.
    + exists (exported sp), []. split; [done|]. split; [|split; [done|split]].
      * intros _. split; [done|]. by exists ref, sp.
      * intros ref' sp' [= <-] Hsp'. congruence.
      * intros v -> Hv. simpl in Href. by rewrite Hv in Href.
    + exists PNone, [Log WARNING MSG_NOT_LLMOBS_SPAN].
      split; [done|]. split; [done|]. split; [by eexists|]. split.
      * intros ref' sp' [= <-] Hsp'. congruence.
      * intros v -> Hv. simpl in Href. by rewrite Hv in Href.
  - eexists PNone, [_]. split; [reflexivity|]. split; [done|].
    split; [by eexists|]. split; [done|].
    intros v -> Hv. by rewrite Hv.
Qed.

(** X16: the exported ids can be read back: the text under "span_id",
    read as a decimal number, is the span id, and the text under "trace_id",
    read as a hexadecimal number, is the trace id.  So two spans are exported
    to the same dictionary only when they have the same ids. *)
Theorem exported_ids_read_back sp :
  (exists s t,
     exported sp = PDict [("span_id", PStr s); ("trace_id", PStr t)]
     /\ int_of_str s = Some (span_id sp)
     /\ int_of_hex t = Some (trace_id sp))
  /\ forall sp', exported sp = exported sp' ->
       span_id sp = span_id sp' /\ trace_id sp = trace_id sp'.
Proof.
  split.
  - exists (str_int (span_id sp)), (format_x (trace_id sp)).
    split; [done|]. split; [apply int_of_str_str_int|apply int_of_hex_format_x].
  - intros sp' [= Hs Ht]. split.
    + apply (f_equal int_of_str) in Hs. rewrite !int_of_str_str_int in Hs. congruence.
    + apply (f_equal int_of_hex) in Ht. rewrite !int_of_hex_format_x in Ht. congruence.
Qed.

(** X17: what [export_span] returns is accepted by [submit_evaluation]
    as span context.  When [export_span] returns a value other than [None],
    that value passes the two checks on the span context, mapping and ids
    present, in any state; and an evaluation submitted with it that passes
    the other checks is enqueued with the exported ids. *)
Theorem exported_span_is_a_span_context st span r a st' :
  (forall ref, exported_span st span = Some ref -> is_Some (spans st !! ref)) ->
  result (export_span span) st = Done r ->
  r <> PNone ->
  arg_span_context a = r ->
  check_passes st' a ChkSpanRefMapping = true
  /\ check_passes st' a ChkSpanRefIds = true
  /\ (valid st' a = true ->
      exists em,
        eval_queue (exec (submit a) st') = eval_queue st' ++ [PDict em]
        /\ dict_lookup "span_id" em = Some (py_get r "span_id")
        /\ dict_lookup "trace_id" em = Some (py_get r "trace_id")).
Proof.
  intros Hstore Hres Hr Ha.
  assert (exists sp, r = exported sp) as [sp ->].
  { unfold result in Hres. rewrite (export_span_run st span Hstore) in Hres.
    destruct (exported_span st span) as [ref|]; [|by injection Hres as <-].
    destruct (spans st !! ref) as [sp|]; [|done].
    destruct (is_llm_span sp); injection Hres as <-; [by exists sp|done]. }
  assert (check_passes st' a ChkSpanRefMapping = true) as Hmap
    by (simpl; by rewrite Ha).
  assert (check_passes st' a ChkSpanRefIds = true) as Hids.
  { simpl. unfold ids_present. rewrite Ha. cbn.
    pose proof (str_int_nonempty (span_id sp)) as H1.
    pose proof (format_x_nonempty (trace_id sp)) as H2.
    destruct (str_int (span_id sp)); [done|].
    destruct (format_x (trace_id sp)); done. }
  split; [done|]. split; [done|].
  intros Hvalid.
  destruct (submit_valid st' a Hvalid) as (k & em & evs & _ & Hrec & Hrun).
  exists em. unfold exec. rewrite Hrun. cbn [snd eval_queue set_eval_queue].
  destruct Hrec as (H1 & H2 & _). rewrite <- Ha. done.
Qed.

(** ** flush and disable *)









(** ** enable *)

Lemma calls_of_emit e rt :
  calls_of (rt_trace (emit e rt))
  = calls_of (rt_trace rt) ++ match e with Called c => [c] | Logged _ _ => [] end.
Proof.
  unfold calls_of, emit. cbn [rt_trace]. rewrite omap_app. by destruct e.
Qed.

Lemma resolve_settings_fields a rt :
  let rt' := resolve_settings a rt in
  rt_enabled rt' = rt_enabled rt
  /\ rt_environ rt' = rt_environ rt
  /\ calls_of (rt_trace rt') = calls_of (rt_trace rt)
  /\ _dd_site (rt_config rt') = or_str (enable_site a) (_dd_site (rt_config rt))
  /\ _dd_api_key (base (rt_config rt'))
     = or_str (enable_api_key a) (_dd_api_key (base (rt_config rt)))
  /\ env (rt_config rt') = or_str (enable_env a) (env (rt_config rt))
  /\ service (rt_config rt') = or_str (enable_service a) (service (rt_config rt))
  /\ _llmobs_ml_app (base (rt_config rt')) = resolved_app a rt
  /\ _llmobs_agentless_enabled (rt_config rt') = _llmobs_agentless_enabled (rt_config rt)
  /\ _remote_config_enabled (rt_config rt') = _remote_config_enabled (rt_config rt).
Proof.
  unfold resolve_settings, resolved_app, getenv. cbn.
  destruct (truthy (config_value (rt_environ rt !! "DD_LLMOBS_APP_NAME"))); cbn.
  - split; [done|]. split; [done|]. split.
    { unfold calls_of. rewrite omap_app. cbn. by rewrite app_nil_r. }
    do 4 (split; [done|]). split; [|done].
    unfold or_str. by destruct (truthy (config_value (enable_ml_app a))).
  - repeat split; done.
Qed.

Lemma start_instance_fields a rt :
  rt_enabled (start_instance a rt) = true
  /\ rt_config (start_instance a rt) = rt_config rt
  /\ rt_environ (start_instance a rt) = rt_environ rt
  /\ calls_of (rt_trace (start_instance a rt))
     = calls_of (rt_trace rt)
       ++ (if integrations_enabled a then
             [patch_integrations
                ["anthropic"; "botocore"; "openai"; "langchain"; "google_generativeai"]]
           else [])
       ++ [new_instance; instance_start; atexit_register_disable;
           telemetry_writer_product_activated].
Proof.
  unfold start_instance, _patch_integrations.
  destruct (integrations_enabled a); cbn; repeat split;
    unfold calls_of; rewrite !omap_app; cbn; by rewrite <- ?app_assoc, ?app_nil_r.
Qed.

Lemma enable_guarded asbool a rt :
  proceeds asbool rt = false ->
  exists msg, enable asbool a rt = (Returned, emit (Logged DEBUG msg) rt).
Proof.
  unfold proceeds, enable. destruct (rt_enabled rt); cbn [negb andb].
  - intros _. by eexists.
  - intros ->%negb_false_iff. by eexists.
Qed.

Ltac rt_simpl :=
  cbn [rt_trace rt_config rt_environ rt_enabled set_config emit _dd_site base env
       service _llmobs_agentless_enabled _remote_config_enabled
       with_agentless_enabled with_remote_config_enabled _dd_api_key
       _llmobs_ml_app negb andb orb].

(** What [enable] does once it is past the two guards. *)
Lemma enable_proceeds asbool a rt :
  proceeds asbool rt = true ->
  exists rt',
    enable asbool a rt
    = (if acceptable a rt then Returned else ValueError (expected_error a rt), rt')
    /\ rt_enabled rt' = acceptable a rt
    /\ rt_environ rt' = rt_environ rt
    /\ calls_of (rt_trace rt')
       = calls_of (rt_trace rt) ++ (if acceptable a rt then expected_calls a rt else [])
    /\ _dd_site (rt_config rt') = or_str (enable_site a) (_dd_site (rt_config rt))
    /\ _dd_api_key (base (rt_config rt'))
       = or_str (enable_api_key a) (_dd_api_key (base (rt_config rt)))
    /\ env (rt_config rt') = or_str (enable_env a) (env (rt_config rt))
    /\ service (rt_config rt') = or_str (enable_service a) (service (rt_config rt))
    /\ _llmobs_ml_app (base (rt_config rt')) = resolved_app a rt
    /\ _llmobs_agentless_enabled (rt_config rt')
       = (if truthy (config_value (resolved_app a rt)) then resolved_agentless a rt
          else _llmobs_agentless_enabled (rt_config rt))
    /\ _remote_config_enabled (rt_config rt')
       = (if acceptable a rt && resolved_agentless a rt
             && negb (truthy (config_value (getenv rt "DD_REMOTE_CONFIG_ENABLED")))
          then false else _remote_config_enabled (rt_config rt)).
Proof.
  unfold proceeds. intros [Hen Hsw]%andb_prop.
  apply negb_true_iff in Hen. apply negb_true_iff in Hsw.
  unfold enable. rewrite Hen, Hsw.
  destruct (resolve_settings_fields a rt)
    as (E1 & E2 & E3 & E4 & E5 & E6 & E7 & E8 & E9 & E10).
  set (rt1 := resolve_settings a rt) in *. clearbody rt1.
  unfold acceptable, expected_error, expected_calls, resolved_agentless.
  rewrite E8. rewrite <- E5, <- E4.
  destruct (truthy (config_value (resolved_app a rt))) eqn:Happ; rt_simpl.
  2:{ exists rt1. rewrite E1, Hen, E3, app_nil_r. repeat split; done. }
  rewrite E9.
  destruct (agentless_enabled a || _llmobs_agentless_enabled (rt_config rt)) eqn:Hag;
    rt_simpl.
  2:{ eexists. split; [reflexivity|].
      destruct (start_instance_fields a
                  (set_config (with_agentless_enabled false (rt_config rt1)) rt1))
        as (S1 & S2 & S3 & S4).
      rewrite S1, S2, S3, S4. rt_simpl. rewrite E3.
      repeat split; done. }
  rt_simpl.
  destruct (truthy (config_value (_dd_api_key (base (rt_config rt1))))) eqn:Hkey;
    rt_simpl.
  2:{ eexists. split; [reflexivity|]. rt_simpl. rewrite E1, Hen, E3, app_nil_r.
      repeat split; done. }
  destruct (truthy (config_value (_dd_site (rt_config rt1)))) eqn:Hsite;
    rt_simpl.
  2:{ eexists. split; [reflexivity|]. rt_simpl. rewrite E1, Hen, E3, app_nil_r.
      repeat split; done. }
  unfold getenv. rt_simpl. rewrite E2.
  destruct (truthy (config_value (rt_environ rt !! "DD_REMOTE_CONFIG_ENABLED")))
    eqn:Hrc; rt_simpl.
  - eexists. split; [reflexivity|].
    match goal with |- context [start_instance a ?r] =>
      destruct (start_instance_fields a r) as (S1 & S2 & S3 & S4) end.
    rewrite S1, S2, S3, S4. rewrite calls_of_emit. rt_simpl. rewrite E3.
    repeat split; try done. by rewrite <- !app_assoc.
  - eexists. split; [reflexivity|].
    match goal with |- context [start_instance a ?r] =>
      destruct (start_instance_fields a r) as (S1 & S2 & S3 & S4) end.
    rewrite S1, S2, S3, S4. rewrite !calls_of_emit. rt_simpl. rewrite E3.
    repeat split; try done. by rewrite <- !app_assoc.
Qed.

(** X20: [enable] starts the service exactly when it is past its two
    guards (the service is not enabled yet, and DD_LLMOBS_ENABLED is unset,
    empty or true) and the resolved settings are acceptable: an application
    name, and in agentless mode an API key and a site.  When a guard stops
    it, it returns after one debug line and nothing else.  Past the guards
    with acceptable settings it returns with the service enabled, having made
    its calls in a fixed order: in agentless mode the remote configuration
    poller is disabled (unless DD_REMOTE_CONFIG_ENABLED is set) and telemetry
    switched to agentless, then the integrations are patched if asked, then
    the instance is created and started, the exit hook registered and the
    product reported.  With settings that are not acceptable it raises a
    value error, for the application name first, then the API key, then the
    site; the service is not enabled and no call was made.  Once the service
    is enabled another [enable] only logs a debug line. *)
Theorem enable_starts_on_acceptable_settings asbool a rt :
  (proceeds asbool rt = false ->
   exists msg, enable asbool a rt = (Returned, emit (Logged DEBUG msg) rt))
  /\ (proceeds asbool rt = true ->
      (enable asbool a rt).1
      = (if acceptable a rt then Returned else ValueError (expected_error a rt))
      /\ rt_enabled (enable asbool a rt).2 = acceptable a rt
      /\ calls_of (rt_trace (enable asbool a rt).2)
         = calls_of (rt_trace rt)
           ++ (if acceptable a rt then expected_calls a rt else []))
  /\ (rt_enabled (enable asbool a rt).2 = true ->
      forall a', exists msg,
        enable asbool a' (enable asbool a rt).2
        = (Returned, emit (Logged DEBUG msg) (enable asbool a rt).2))
  /\ rt_environ (enable asbool a rt).2 = rt_environ rt.
Proof.
  split; [apply enable_guarded|]. split; [|split].
  - intros Hp. destruct (enable_proceeds asbool a rt Hp) as (rt' & -> & He & _ & Hc & _).
    done.
  - intros Hen a'. apply enable_guarded. unfold proceeds. by rewrite Hen.
  - destruct (proceeds asbool rt) eqn:Hp.
    + destruct (enable_proceeds asbool a rt Hp) as (rt' & -> & _ & Henv & _). done.
    + destruct (enable_guarded asbool a rt Hp) as (msg & ->). done.
Qed.

(** X21: the settings after an [enable] that is past its guards, whether
    it then starts the service or raises.  Site, API key, environment and
    service are the argument when it is a non-empty string, else what was
    configured.  The application name is the argument when it is a non-empty
    string; else the deprecated variable DD_LLMOBS_APP_NAME when it is set and
    not empty, which so takes precedence over what was configured; else what
    was configured.  Agentless mode, once the application name is there, is
    on when the argument or the configuration says so: the argument cannot
    turn it off. *)
Theorem enable_resolves_settings asbool a rt :
  proceeds asbool rt = true ->
  let c := rt_config rt in
  let c' := rt_config (enable asbool a rt).2 in
  _dd_site c' = or_str (enable_site a) (_dd_site c)
  /\ _dd_api_key (base c') = or_str (enable_api_key a) (_dd_api_key (base c))
  /\ env c' = or_str (enable_env a) (env c)
  /\ service c' = or_str (enable_service a) (service c)
  /\ (truthy (config_value (enable_ml_app a)) = true ->
      _llmobs_ml_app (base c') = enable_ml_app a)
  /\ (truthy (config_value (enable_ml_app a)) = false ->
      truthy (config_value (getenv rt "DD_LLMOBS_APP_NAME")) = true ->
      _llmobs_ml_app (base c') = getenv rt "DD_LLMOBS_APP_NAME")
  /\ (truthy (config_value (enable_ml_app a)) = false ->
      truthy (config_value (getenv rt "DD_LLMOBS_APP_NAME")) = false ->
      _llmobs_ml_app (base c') = _llmobs_ml_app (base c))
  /\ (truthy (config_value (_llmobs_ml_app (base c'))) = true ->
      _llmobs_agentless_enabled c'
      = agentless_enabled a || _llmobs_agentless_enabled c)
  /\ (truthy (config_value (_llmobs_ml_app (base c'))) = false ->
      (enable asbool a rt).1 = ValueError MSG_ML_APP_REQUIRED
      /\ _llmobs_agentless_enabled c' = _llmobs_agentless_enabled c).
Proof.
  intros Hp c c'. unfold c', c. clear c c'.
  destruct (enable_proceeds asbool a rt Hp)
    as (rt' & -> & _ & _ & _ & E4 & E5 & E6 & E7 & E8 & E9 & _).
  cbn [fst snd]. rewrite E4, E5, E6, E7, E8, E9.
  do 4 (split; [done|]).
  unfold resolved_app, or_str.
  split; [by intros ->|]. split; [by intros -> ->|]. split; [by intros -> ->|].
  fold (or_str (enable_ml_app a) (getenv rt "DD_LLMOBS_APP_NAME")).
  fold (or_str (enable_ml_app a)
          (if truthy (config_value (getenv rt "DD_LLMOBS_APP_NAME"))
           then or_str (enable_ml_app a) (getenv rt "DD_LLMOBS_APP_NAME")
           else _llmobs_ml_app (base (rt_config rt)))).
  fold (resolved_app a rt).
  split.
  - by intros ->.
  - intros Happ. rewrite Happ. split; [|done].
    unfold acceptable, expected_error. by rewrite Happ.
Qed.

End MoreProperties.

(** * Properties of the cookie check *)

Section CookieProperties.

(** ** Text *)

Lemma append_cons a x y : String a x +:+ y = String a (x +:+ y).
Proof. done. Qed.

Lemma append_nil_l y : "" +:+ y = y.
Proof. done. Qed.

Lemma prefix_nil s : String.prefix "" s = true.
Proof. by destruct s. Qed.

Lemma prefix_cons a p b s :
  String.prefix (String a p) (String b s)
  = if ascii_dec a b then String.prefix p s else false.
Proof. done. Qed.

Lemma prefix_of_nil p : String.prefix p "" = true -> p = "".
Proof. by destruct p. Qed.

Lemma prefix_refl_app p y : String.prefix p (p +:+ y) = true.
Proof.
  induction p as [|c p IH]; [apply prefix_nil|].
  rewrite append_cons, prefix_cons. destruct (ascii_dec c c); [exact IH|done].
Qed.

Lemma prefix_app_char p x c y :
  no_char c p -> String.prefix p (x +:+ String c y) = String.prefix p x.
Proof.
  revert x. induction p as [|d p IH]; intros x Hno.
  - by rewrite !prefix_nil.
  - destruct Hno as [Hd Hno]. destruct x as [|a x].
    + rewrite append_nil_l, prefix_cons. destruct (ascii_dec d c); done.
    + rewrite append_cons, !prefix_cons. destruct (ascii_dec d a); [by apply IH|done].
Qed.

Lemma prefix_short p x y :
  (String.length p <= String.length x)%nat ->
  String.prefix p (x +:+ y) = String.prefix p x.
Proof.
  revert x. induction p as [|d p IH]; intros x Hlen.
  - by rewrite !prefix_nil.
  - destruct x as [|a x]; cbn [String.length] in Hlen; [lia|].
    rewrite append_cons, !prefix_cons.
    destruct (ascii_dec d a); [apply IH; lia|done].
Qed.

Lemma prefix_true_app p x y : String.prefix p x = true -> String.prefix p (x +:+ y) = true.
Proof.
  revert x. induction p as [|d p IH]; intros x.
  - intros _. apply prefix_nil.
  - destruct x as [|a x]; [done|]. rewrite append_cons, !prefix_cons.
    destruct (ascii_dec d a); [apply IH|done].
Qed.

Lemma drop_chars_app p y : drop_chars (String.length p) (p +:+ y) = y.
Proof.
  induction p as [|c p IH]; [done|].
  rewrite append_cons. cbn [String.length drop_chars]. exact IH.
Qed.

Lemma prefix_drop p s :
  String.prefix p s = true -> s = p +:+ drop_chars (String.length p) s.
Proof.
  revert s. induction p as [|d p IH]; intros s; [done|].
  destruct s as [|a s]; [done|]. rewrite prefix_cons.
  destruct (ascii_dec d a) as [->|]; [|done]. intros Hp.
  rewrite append_cons. cbn [String.length drop_chars]. f_equal. by apply IH.
Qed.

Lemma append_assoc (a b c : string) : (a +:+ b) +:+ c = a +:+ (b +:+ c).
Proof. induction a as [|x a IH]; [done|]. rewrite !append_cons. by rewrite IH. Qed.

Lemma append_nil_r (a : string) : a +:+ "" = a.
Proof. induction a as [|x a IH]; [done|]. rewrite append_cons. by rewrite IH. Qed.

Lemma length_append (a b : string) :
  String.length (a +:+ b) = (String.length a + String.length b)%nat.
Proof.
  induction a as [|x a IH]; [done|].
  rewrite append_cons. cbn [String.length]. by rewrite IH.
Qed.

Lemma lower_append a b : lower (a +:+ b) = lower a +:+ lower b.
Proof.
  induction a as [|x a IH]; [done|].
  rewrite append_cons. cbn [lower]. by rewrite append_cons, IH.
Qed.

Lemma replace_spaces_append a b :
  replace_spaces (a +:+ b) = replace_spaces a +:+ replace_spaces b.
Proof.
  induction a as [|x a IH]; [done|].
  rewrite append_cons. cbn [replace_spaces].
  destruct (Ascii.eqb x " "); [done|]. by rewrite append_cons, IH.
Qed.

(** ** Searching and cutting *)

Lemma contains_cons p a s :
  contains p (String a s) = String.prefix p (String a s) || contains p s.
Proof. done. Qed.

Lemma contains_nil p : contains p "" = String.prefix p "".
Proof. cbn. by rewrite orb_false_r. Qed.

Lemma contains_app_r p x q : contains p q = true -> contains p (x +:+ q) = true.
Proof.
  intros Hq. induction x as [|a x IH]; [done|].
  rewrite append_cons, contains_cons, IH. apply orb_true_r.
Qed.

Lemma contains_app_l p x q : contains p x = true -> contains p (x +:+ q) = true.
Proof.
  induction x as [|a x IH].
  - rewrite contains_nil. intros ->%prefix_of_nil. destruct q; done.
  - rewrite contains_cons. intros [Hp|Hc]%orb_prop.
    + rewrite append_cons, contains_cons, <- append_cons.
      by rewrite (prefix_true_app _ _ _ Hp).
    + rewrite append_cons, contains_cons, (IH Hc). apply orb_true_r.
Qed.

(** A pattern that begins with the only semicolon it has can never straddle
    the seam in front of a semicolon. *)
Lemma contains_app_semicolon d p x c y :
  no_char c p ->
  contains (String d p) (x +:+ String c y)
  = contains (String d p) x || contains (String d p) (String c y).
Proof.
  intros Hno. induction x as [|a x IH].
  - rewrite append_nil_l. by rewrite contains_nil.
  - rewrite append_cons, !contains_cons, IH.
    replace (String.prefix (String d p) (String a (x +:+ String c y)))
      with (String.prefix (String d p) (String a x)).
    + by rewrite orb_assoc.
    + rewrite !prefix_cons. destruct (ascii_dec d a); [|done]. by rewrite prefix_app_char.
Qed.

Lemma cut_nil sep :
  cut sep "" = if String.prefix sep "" then Some ("", drop_chars (String.length sep) "")
               else None.
Proof. done. Qed.

Lemma cut_cons sep a s :
  cut sep (String a s)
  = if String.prefix sep (String a s)
    then Some ("", drop_chars (String.length sep) (String a s))
    else match cut sep s with
         | Some (before, after) => Some (String a before, after)
         | None => None
         end.
Proof. done. Qed.

Lemma cut_None sep s : cut sep s = None <-> contains sep s = false.
Proof.
  induction s as [|a s IH].
  - rewrite cut_nil, contains_nil. destruct (String.prefix sep ""); split; done.
  - rewrite cut_cons, contains_cons.
    destruct (String.prefix sep (String a s)); cbn [orb]; [split; done|].
    destruct (cut sep s) as [[b r]|].
    + split; [done|]. intros Hc. by apply IH in Hc.
    + split; [|done]. intros _. by apply IH.
Qed.

Lemma cut_Some sep s b r : cut sep s = Some (b, r) -> s = b +:+ sep +:+ r.
Proof.
  revert b. induction s as [|a s IH]; intros b.
  - rewrite cut_nil. destruct (String.prefix sep "") eqn:Hp; [|done].
    intros [= <- <-]. by apply prefix_drop.
  - rewrite cut_cons. destruct (String.prefix sep (String a s)) eqn:Hp.
    + intros [= <- <-]. by apply prefix_drop.
    + destruct (cut sep s) as [[b' r']|]; [|done].
      intros [= <- <-]. rewrite append_cons. f_equal. by apply IH.
Qed.

Lemma cut_prefix sep r :
  sep <> "" -> cut sep (sep +:+ r) = Some ("", r).
Proof.
  intros Hne. destruct sep as [|y sep]; [done|].
  rewrite append_cons, cut_cons, <- append_cons.
  by rewrite prefix_refl_app, drop_chars_app.
Qed.

(** The first occurrence: [sep] does not begin inside [b] followed by all of
    [sep] but its last character. *)
Lemma cut_first sep' c0 b r :
  contains (sep' +:+ String c0 "") (b +:+ sep') = false ->
  cut (sep' +:+ String c0 "") (b +:+ (sep' +:+ String c0 "") +:+ r) = Some (b, r).
Proof.
  set (sep := sep' +:+ String c0 "").
  assert (sep <> "") as Hne by (unfold sep; by destruct sep').
  induction b as [|a b IH]; intros Hfirst.
  - rewrite append_nil_l. by apply cut_prefix.
  - rewrite append_cons, contains_cons in Hfirst.
    apply orb_false_elim in Hfirst as [Hp Hc].
    rewrite append_cons, cut_cons.
    replace (String.prefix sep (String a (b +:+ sep +:+ r))) with false.
    + by rewrite (IH Hc).
    + symmetry. rewrite <- Hp. rewrite <- !append_cons.
      unfold sep at 2. rewrite (append_assoc sep'), <- (append_assoc (String a b)).
      apply prefix_short. unfold sep. rewrite !length_append. cbn. lia.
Qed.
(** ** The SameSite attribute *)

Lemma split_fuel_hd n sep a :
  exists t rest,
    split_fuel n sep a = t :: rest
    /\ (t = a \/ exists r2, a = t +:+ sep +:+ r2).
Proof.
  destruct n as [|n]; cbn [split_fuel]; [by exists a, []; split; [|left]|].
  destruct (cut sep a) as [[b2 r2]|] eqn:Hcut.
  - exists b2, (split_fuel n sep r2). split; [done|]. right. exists r2.
    by apply cut_Some.
  - exists a, []. split; [done|by left].
Qed.

Lemma split_two sep s b a :
  sep <> "" ->
  cut sep s = Some (b, a) ->
  exists t rest,
    split s sep = b :: t :: rest
    /\ (t = a \/ exists r2, a = t +:+ sep +:+ r2).
Proof.
  intros Hne Hcut. unfold split. destruct s as [|c s].
  - rewrite cut_nil in Hcut. destruct (String.prefix sep "") eqn:Hp; [|done].
    by apply prefix_of_nil in Hp.
  - cbn [String.length split_fuel]. rewrite Hcut.
    destruct (split_fuel_hd (String.length s) sep a) as (t & rest & -> & Ht).
    by exists t, rest.
Qed.

Lemma no_semicolon_in_strict : no_char ";" "strict".
Proof. cbn. repeat split; discriminate. Qed.

Lemma no_semicolon_in_lax : no_char ";" "lax".
Proof. cbn. repeat split; discriminate. Qed.

Lemma startswith_before_semicolon p t r :
  no_char ";" p ->
  startswith (lower (t +:+ ";samesite=" +:+ r)) p = startswith (lower t) p.
Proof.
  intros Hno. unfold startswith. rewrite !lower_append.
  change (lower ";samesite=") with (String ";"%char "samesite=").
  rewrite append_cons. by apply prefix_app_char.
Qed.

(** What [report_samesite] comes to: the text after the first attribute
    decides. *)
Lemma report_samesite_cut lvalue :
  report_samesite lvalue
  = match cut ";samesite=" lvalue with
    | Some (_, after) =>
        negb (startswith (lower after) "strict" || startswith (lower after) "lax")
    | None => true
    end.
Proof.
  unfold report_samesite.
  destruct (cut ";samesite=" lvalue) as [[b a]|] eqn:Hcut.
  - destruct (contains ";samesite=" lvalue) eqn:Hc.
    2:{ apply cut_None in Hc. congruence. }
    destruct (split_two ";samesite=" lvalue b a ltac:(done) Hcut)
      as (t & rest & -> & Ht).
    cbn [List.length Nat.leb nth].
    assert (forall p, no_char ";" p ->
                      startswith (lower t) p = startswith (lower a) p) as Hsame.
    { intros p Hp. destruct Ht as [->|[r2 ->]]; [done|].
      by rewrite startswith_before_semicolon. }
    rewrite (Hsame "strict" no_semicolon_in_strict), (Hsame "lax" no_semicolon_in_lax).
    by destruct (startswith (lower a) "strict" || startswith (lower a) "lax").
  - apply cut_None in Hcut. by rewrite Hcut.
Qed.
(** X22: the SameSite check reads the first attribute only.  When the
    value has no ";samesite=" the cookie is reported.  When it has one, the
    text that follows the first of them decides, whatever comes later: the
    cookie is not reported exactly when that text begins with "strict" or
    with "lax".  The list [split] returns then has at least two pieces, so
    the branch for a list of one piece is never taken. *)
Theorem samesite_reads_the_first_attribute lvalue :
  (contains ";samesite=" lvalue = false -> report_samesite lvalue = true)
  /\ (forall before after,
        lvalue = before +:+ ";samesite=" +:+ after ->
        contains ";samesite=" (before +:+ ";samesite") = false ->
        report_samesite lvalue
        = negb (startswith (lower after) "strict" || startswith (lower after) "lax"))
  /\ (contains ";samesite=" lvalue = true ->
      (2 <= List.length (split lvalue ";samesite="))%nat).
Proof.
  split; [|split].
  - intros Hc. rewrite report_samesite_cut. apply cut_None in Hc. by rewrite Hc.
  - intros b a -> Hfirst. rewrite report_samesite_cut.
    pose proof (cut_first ";samesite" "="%char b a Hfirst) as Hcut.
    change (";samesite" +:+ String "="%char "") with ";samesite=" in Hcut.
    by rewrite Hcut.
  - intros Hc. destruct (cut ";samesite=" lvalue) as [[b a]|] eqn:Hcut.
    + destruct (split_two ";samesite=" lvalue b a ltac:(done) Hcut)
        as (t & rest & -> & _).
      cbn [List.length]. lia.
    + apply cut_None in Hcut. congruence.
Qed.

(** ** Adding an attribute *)

Lemma prefix_length p s :
  String.prefix p s = true -> (String.length p <= String.length s)%nat.
Proof.
  revert s. induction p as [|d p IH]; intros s; [cbn; lia|].
  destruct s as [|a s]; [done|]. rewrite prefix_cons.
  destruct (ascii_dec d a); [|done]. intros Hp%IH. cbn [String.length]. lia.
Qed.

Lemma drop_chars_app_le n s t :
  (n <= String.length s)%nat -> drop_chars n (s +:+ t) = drop_chars n s +:+ t.
Proof.
  revert s. induction n as [|n IH]; intros s Hn; [done|].
  destruct s as [|a s]; cbn [String.length] in Hn; [lia|].
  rewrite append_cons. cbn [drop_chars]. apply IH. lia.
Qed.

Lemma prefix_cons_app_char d p a x c y :
  no_char c p ->
  String.prefix (String d p) (String a (x +:+ String c y))
  = String.prefix (String d p) (String a x).
Proof.
  intros Hno. rewrite !prefix_cons. destruct (ascii_dec d a); [|done].
  by apply prefix_app_char.
Qed.

(** Cutting a text that is followed by a semicolon and more. *)
Lemma cut_app_semicolon d p x c y :
  no_char c p ->
  cut (String d p) (x +:+ String c y)
  = match cut (String d p) x with
    | Some (b, a) => Some (b, a +:+ String c y)
    | None =>
        match cut (String d p) (String c y) with
        | Some (b, a) => Some (x +:+ b, a)
        | None => None
        end
    end.
Proof.
  intros Hno. induction x as [|a x IH].
  - rewrite append_nil_l, cut_nil. cbn [String.prefix].
    by destruct (cut (String d p) (String c y)) as [[b r]|].
  - rewrite append_cons, (cut_cons _ a (x +:+ String c y)), (cut_cons _ a x),
      prefix_cons_app_char by done.
    destruct (String.prefix (String d p) (String a x)) eqn:Hp.
    + rewrite <- append_cons. by rewrite drop_chars_app_le by (by apply prefix_length).
    + rewrite IH. destruct (cut (String d p) x) as [[b r]|]; [done|].
      by destruct (cut (String d p) (String c y)) as [[b r]|].
Qed.

Lemma skipped_app_semicolon l q :
  skipped l = false -> skipped (l +:+ String ";"%char q) = false.
Proof.
  unfold skipped, startswith. intros [[Hne Hs]%orb_false_elim Hq]%orb_false_elim.
  destruct l as [|a l]; [done|].
  rewrite (prefix_short ";" (String a l)) by (cbn; lia). rewrite Hs.
  rewrite prefix_app_char by (cbn; repeat split; discriminate). rewrite Hq.
  by rewrite append_cons.
Qed.

Lemma startswith_app_semicolon p t r :
  no_char ";" p ->
  startswith (lower (t +:+ String ";"%char r)) p = startswith (lower t) p.
Proof.
  intros Hno. unfold startswith. rewrite lower_append. cbn [lower].
  change (lower_ascii ";") with ";"%char. by apply prefix_app_char.
Qed.

(** The SameSite check on a value that is followed by a semicolon and
    more. *)
Lemma report_samesite_app l q :
  report_samesite (l +:+ String ";"%char q)
  = if contains ";samesite=" l then report_samesite l
    else report_samesite (String ";"%char q).
Proof.
  rewrite !report_samesite_cut.
  rewrite (cut_app_semicolon ";" "samesite=" l ";" q)
    by (cbn; repeat split; discriminate).
  destruct (cut ";samesite=" l) as [[b a]|] eqn:Hcut.
  - destruct (contains ";samesite=" l) eqn:Hc.
    2:{ apply cut_None in Hc. congruence. }
    by rewrite !startswith_app_semicolon
      by (first [apply no_semicolon_in_strict | apply no_semicolon_in_lax]).
  - apply cut_None in Hcut. rewrite Hcut.
    by destruct (cut ";samesite=" (String ";" q)) as [[b a]|].
Qed.

Lemma contains_app_attribute d p l q :
  no_char ";" p ->
  contains (String d p) (l +:+ String ";"%char q)
  = contains (String d p) l || contains (String d p) (String ";"%char q).
Proof. apply contains_app_semicolon. Qed.

(** The value of a cookie with an attribute added at its end. *)
Lemma lvalue_app v q :
  replace_spaces (lower (v +:+ q))
  = replace_spaces (lower v) +:+ replace_spaces (lower q).
Proof. by rewrite lower_append, replace_spaces_append. Qed.

Lemma without_app v (l1 l2 : list iast_call) :
  without v (l1 ++ l2) = without v l1 ++ without v l2.
Proof. unfold without. apply List.filter_app. Qed.
Lemma check_cookie_eq cookie_key cookie_value :
  check_cookie cookie_key cookie_value
  = let lvalue := replace_spaces (lower cookie_value) in
    if skipped lvalue then []
    else
      (if negb (contains ";secure" lvalue)
       then report_calls VULN_INSECURE_COOKIE cookie_key else [])
      ++ (if negb (contains ";httponly" lvalue)
          then report_calls VULN_NO_HTTPONLY_COOKIE cookie_key else [])
      ++ (if report_samesite lvalue
          then report_calls VULN_NO_SAMESITE_COOKIE cookie_key else []).
Proof. done. Qed.

Lemma report_samesite_without_attribute l :
  contains ";samesite=" l = false -> report_samesite l = true.
Proof. intros Hc. rewrite report_samesite_cut. apply cut_None in Hc. by rewrite Hc. Qed.

(** X23: an attribute added at the end of a cookie that is examined
    removes the report of that attribute and changes no other.  With
    "; Secure" added the calls are those for the cookie as it was, but for
    the calls about the insecure cookie; likewise "; HttpOnly".  With
    "; SameSite=Strict" added the calls about SameSite go only when the
    cookie had no SameSite attribute before; when it had one, the addition
    changes nothing, since the first attribute decides. *)
Theorem added_attribute_removes_its_report cookie_key cookie_value :
  skipped (replace_spaces (lower cookie_value)) = false ->
  check_cookie cookie_key (cookie_value +:+ "; Secure")
  = without VULN_INSECURE_COOKIE (check_cookie cookie_key cookie_value)
  /\ check_cookie cookie_key (cookie_value +:+ "; HttpOnly")
     = without VULN_NO_HTTPONLY_COOKIE (check_cookie cookie_key cookie_value)
  /\ (contains ";samesite=" (replace_spaces (lower cookie_value)) = false ->
      check_cookie cookie_key (cookie_value +:+ "; SameSite=Strict")
      = without VULN_NO_SAMESITE_COOKIE (check_cookie cookie_key cookie_value))
  /\ (contains ";samesite=" (replace_spaces (lower cookie_value)) = true ->
      check_cookie cookie_key (cookie_value +:+ "; SameSite=Strict")
      = check_cookie cookie_key cookie_value).
Proof.
  intros Hskip. rewrite !check_cookie_eq. cbn zeta. rewrite !lvalue_app.
  set (l := replace_spaces (lower cookie_value)) in *.
  change (replace_spaces (lower "; Secure")) with (String ";"%char "secure").
  change (replace_spaces (lower "; HttpOnly")) with (String ";"%char "httponly").
  change (replace_spaces (lower "; SameSite=Strict"))
    with (String ";"%char "samesite=strict").
  rewrite !skipped_app_semicolon, Hskip by done.
  rewrite !report_samesite_app.
  rewrite !(contains_app_attribute ";" "secure"),
    !(contains_app_attribute ";" "httponly") by (cbn; repeat split; discriminate).
  change (contains ";secure" ";secure") with true.
  change (contains ";secure" ";httponly") with false.
  change (contains ";secure" ";samesite=strict") with false.
  change (contains ";httponly" ";secure") with false.
  change (contains ";httponly" ";httponly") with true.
  change (contains ";httponly" ";samesite=strict") with false.
  change (report_samesite ";secure") with true.
  change (report_samesite ";httponly") with true.
  change (report_samesite ";samesite=strict") with false.
  rewrite !orb_true_r, !orb_false_r. cbn [negb].
  assert (contains ";samesite=" l = false -> report_samesite l = true) as Hnone
    by apply report_samesite_without_attribute.
  rewrite !without_app.
  split; [|split; [|split]].
  - destruct (contains ";samesite=" l) eqn:Hs; [|rewrite (Hnone eq_refl)];
      destruct (contains ";secure" l), (contains ";httponly" l);
      try destruct (report_samesite l); reflexivity.
  - destruct (contains ";samesite=" l) eqn:Hs; [|rewrite (Hnone eq_refl)];
      destruct (contains ";secure" l), (contains ";httponly" l);
      try destruct (report_samesite l); reflexivity.
  - intros Hs. rewrite Hs, (Hnone Hs).
    destruct (contains ";secure" l), (contains ";httponly" l); reflexivity.
  - intros Hs. rewrite Hs. reflexivity.
Qed.

(** ** The scan *)

Lemma check_items_text items :
  check_items (text_items items) = (calls_for items, false).
Proof.
  induction items as [|[k v] items IH]; [done|].
  cbn [text_items map check_items fst snd]. fold (text_items items). rewrite IH.
  done.
Qed.

Lemma check_items_abort items cookie_key v rest :
  isinstance_str v = false ->
  check_items (text_items items ++ (cookie_key, v) :: rest) = (calls_for items, true).
Proof.
  intros Hv. induction items as [|[k s] items IH].
  - cbn. destruct v; try done.
  - cbn [text_items map app check_items fst snd]. fold (text_items items).
    rewrite IH. cbn [calls_for flat_map fst snd]. done.
Qed.

(** X24: [asm_check_cookies] as a whole.  It makes no call at all when
    the cookies are [None] or empty, or when IAST is off for the process or
    for the request.  Otherwise it examines the cookies in the order of the
    dict, and never raises: when every value is text the calls are those of
    the cookies one after the other; a value that is not text ends the scan,
    the cookies before it are reported, those after it are not examined, and
    the error is logged once at the end. *)
Theorem asm_check_cookies_scan :
  (forall on_process on_request cookies,
     truthy cookies = false \/ on_process && on_request = false ->
     asm_check_cookies on_process on_request cookies = [])
  /\ (forall items,
        asm_check_cookies true true (PDict (text_items items)) = calls_for items)
  /\ (forall items cookie_key v rest,
        isinstance_str v = false ->
        asm_check_cookies true true (PDict (text_items items ++ (cookie_key, v) :: rest))
        = calls_for items ++ [iast_taint_log_error])
  /\ (forall cookies,
        truthy cookies = true -> isinstance_dict cookies = false ->
        asm_check_cookies true true cookies = [iast_taint_log_error]).
Proof.
  split; [|split; [|split]].
  - intros on_process on_request cookies [Hc|Hoff]; unfold asm_check_cookies.
    + by rewrite Hc.
    + rewrite Hoff. by destruct (negb (truthy cookies)).
  - intros items. unfold asm_check_cookies.
    destruct items as [|kv items]; [done|].
    cbn [truthy text_items map negb andb]. fold (text_items items).
    change ((kv.1, PStr kv.2) :: text_items items) with (text_items (kv :: items)).
    rewrite check_items_text. by rewrite app_nil_r.
  - intros items cookie_key v rest Hv. unfold asm_check_cookies.
    replace (truthy (PDict (text_items items ++ (cookie_key, v) :: rest))) with true
      by (by destruct items).
    cbn [negb andb]. by rewrite check_items_abort.
  - intros cookies Ht Hd. unfold asm_check_cookies. rewrite Ht. cbn [negb andb].
    by destruct cookies.
Qed.

End CookieProperties.

Section MoreExamples.

#[local] Existing Instance sample_imports.


Lemma accepted_evaluation_record_witness :
  result (submit sample_args) sample_state = Done tt
  /\ exists k em,
       resolved_kind sample_args = Some k
       /\ eval_queue (exec (submit sample_args) sample_state)
          = eval_queue sample_state ++ [PDict em]
       /\ dict_lookup "span_id" em = Some (PStr "123")
       /\ dict_lookup "trace_id" em = Some (PStr "456")
       /\ dict_lookup "metric_type" em = Some (PStr k)
       /\ dict_lookup (k +:+ "_value") em = Some (arg_value sample_args)
       /\ dict_lookup "timestamp_ms" em = Some (PInt (clock_ms sample_state))
       /\ dict_lookup "ml_app" em = Some (PStr "app")
       /\ dict_lookup "metadata" em = None.
Proof.
  destruct (accepted_evaluation_record sample_state sample_args)
    as (Hres & k & em & Hk & Hq & H1 & H2 & _ & H4 & H5 & H6 & H7 & _ & H9).
  - reflexivity.
  - split; [exact Hres|]. exists k, em. repeat split; assumption.
Defined.

Lemma tags_of_wrong_shape_reject_the_record_witness :
  result (submit args_with_list_tags) sample_state = Done tt
  /\ eval_queue (exec (submit args_with_list_tags) sample_state) = eval_queue sample_state
  /\ last (events (exec (submit args_with_list_tags) sample_state))
     = Some (Log WARNING MSG_EVAL_TAGS).
Proof.
  apply (tags_of_wrong_shape_reject_the_record sample_state args_with_list_tags);
    reflexivity.
Defined.

Lemma caller_tags_override_defaults_witness :
  exists evaluation_tags evs,
    tags_loop caller_tags (default_evaluation_tags (PStr "app")) sample_state
    = (Done evaluation_tags, add_events evs sample_state)
    /\ evs = [Log WARNING MSG_EVAL_TAG_PARSE]
    /\ dict_lookup "ml_app" evaluation_tags = Some (PStr "other")
    /\ dict_lookup "team" evaluation_tags = None
    /\ dict_lookup "ddtrace.version" evaluation_tags = Some (PStr ddtrace_version).
Proof.
  destruct (caller_tags_override_defaults caller_tags (PStr "app") sample_state)
    as (evaluation_tags & evs & Hrun & Hw & Hevs & Hk).
  - intros s. reflexivity.
  - compute_done.
  - exists evaluation_tags, evs. split; [exact Hrun|]. split; [exact Hevs|].
    split; [exact (Hk "ml_app")|]. split; [exact (Hk "team")|].
    exact (Hk "ddtrace.version").
Defined.

Lemma annotate_writes_only_its_keys_witness :
  exists sp' evs,
    annotate None PNone (PDict [("template", PStr "t")]) (PStr "hi") (PStr "hello")
      (PDict [("k", PStr "v")]) (PDict [("tokens", PInt 3)])
      (PDict [("a", PInt 1)]) (Some "renamed") (state_with_span open_span_of_kind_llm)
    = (Done tt, with_span 1 sp' evs (state_with_span open_span_of_kind_llm))
    /\ name sp' = "renamed"
    /\ get_tag SPAN_KIND sp' = Some (Plain "llm")
    /\ get_tag SESSION_ID sp' = None
    /\ get_tag INPUT_VALUE sp' = None.
Proof.
  destruct (annotate_writes_only_its_keys (state_with_span open_span_of_kind_llm)
              None 1 open_span_of_kind_llm PNone (PDict [("template", PStr "t")])
              (PStr "hi") (PStr "hello") (PDict [("k", PStr "v")])
              (PDict [("tokens", PInt 3)]) (PDict [("a", PInt 1)]) (Some "renamed"))
    as (sp' & evs & Hrun & _ & _ & _ & _ & _ & _ & Hname & Hkind & Hother);
    try reflexivity.
  exists sp', evs. split; [exact Hrun|]. split; [exact Hname|].
  split; [exact Hkind|]. split; apply Hother; compute_done.
Defined.

Lemma metadata_and_metrics_overwrite_witness :
  spans (exec (_tag_metadata 1 (PDict [("a", PInt 1)]) ;;
               _tag_metadata 1 (PDict [("b", PInt 2)]))
           (state_with_span open_llm_span)) !! 1
  = Some (set_tag_str METADATA (Json (PDict [("b", PInt 2)])) open_llm_span)
  /\ get_tag METADATA (set_tag_str METADATA (Json (PDict [("b", PInt 2)])) open_llm_span)
     = Some (Json (PDict [("b", PInt 2)]))
  /\ exec (_tag_metadata 1 (PDict [("a", PInt 1)]) ;;
           _tag_metadata 1 (PDict [("b", PInt 2)])) (state_with_span open_llm_span)
     = exec (_tag_metadata 1 (PDict [("b", PInt 2)])) (state_with_span open_llm_span).
Proof.
  destruct (metadata_and_metrics_overwrite (state_with_span open_llm_span) 1
              [("a", PInt 1)] [("b", PInt 2)] (PInt 3)) as (Hwrite & Hsame & _);
    [discriminate..|].
  destruct (Hwrite open_llm_span eq_refl) as (_ & _ & _ & _ & Hmd & _ & Hget & _).
  split; [exact Hmd|]. split; [exact Hget|exact Hsame].
Defined.

Lemma annotate_input_and_output_witness :
  exists sp' evs,
    annotate None PNone PNone (PStr "hi") (PStr "hello") PNone PNone PNone None
      (state_with_span open_span_of_kind_llm)
    = (Done tt, with_span 1 sp' evs (state_with_span open_span_of_kind_llm))
    /\ get_tag INPUT_MESSAGES sp'
       = Some (Json (PList [PDict [("content", PStr "hi")]]))
    /\ get_tag OUTPUT_MESSAGES sp'
       = Some (Json (PList [PDict [("content", PStr "hello")]])).
Proof.
  destruct (annotate_input_and_output (state_with_span open_span_of_kind_llm)
              None 1 open_span_of_kind_llm PNone PNone (PStr "hi") (PStr "hello")
              PNone PNone PNone None)
    as (sp' & evs & Hrun & Hllm & _); try reflexivity.
  exists sp', evs. split; [exact Hrun|]. exact (Hllm eq_refl).
Defined.

Lemma scope_round_trip_witness :
  _annotations
    (exec (deregister_annotation 11)
       (exec (register_annotation 11 (kw_tags first_scope) PNone None) sample_state))
  = _annotations sample_state
  /\ ambient_id
       (exec (deregister_annotation 11)
          (exec (register_annotation 11 (kw_tags first_scope) PNone None) sample_state))
     = ambient_id
         (exec (register_annotation 11 (kw_tags first_scope) PNone None) sample_state).
Proof.
  destruct (scope_round_trip sample_state 11 (kw_tags first_scope) PNone None)
    as (_ & _ & Hreg & _ & _ & Hamb & _).
  - apply Forall_nil_2.
  - split; [exact Hreg|exact Hamb].
Defined.

Lemma plain_constructors_start_their_kind_witness :
  result (tool None None None) disabled_state = Done (next_span_id disabled_state)
  /\ exists sp,
       spans (exec (tool None None None) disabled_state) !! next_span_id disabled_state
       = Some sp
       /\ get_tag SPAN_KIND sp = Some (Plain "tool")
       /\ resource sp = "tool"
       /\ is_llm_span sp = true.
Proof.
  destruct (plain_constructors_start_their_kind disabled_state "tool" tool None None None)
    as (Hres & (sp & Hsp & Hkind & Hres' & Hllm & _) & _).
  - apply list_elem_of_here.
  - split; [exact Hres|]. exists sp. repeat split; assumption.
Defined.

Lemma scope_applies_between_enter_and_exit_witness :
  exists sp,
    spans
      (exec (_start_span "task" None None None None None)
         (exec (register_annotation 11 (kw_tags first_scope) PNone (Some "renamed"))
            sample_state)) !! next_span_id sample_state = Some sp
    /\ name sp = "renamed".
Proof.
  destruct (scope_applies_between_enter_and_exit sample_state 11 (kw_tags first_scope)
              PNone "renamed" "task" None None None None None)
    as ((sp & Hsp & Hname & _) & _); try reflexivity.
  exists sp. split; [exact Hsp|exact Hname].
Defined.

Lemma start_hook_without_context_or_match_witness :
  _do_annotations 1 (set_context None (state_with_span open_llm_span))
  = (Raised AttributeError, set_context None (state_with_span open_llm_span))
  /\ current_trace_context (set_context None (state_with_span open_llm_span)) = None.
Proof.
  split; [|reflexivity].
  refine (proj1 (start_hook_without_context_or_match
                   (set_context None (state_with_span open_llm_span)) 1 open_llm_span
                   _ _) _); reflexivity.
Defined.

Lemma annotate_never_raises_witness :
  result (annotate None PNone PNone (PStr "hi") PNone PNone PNone PNone None)
    (state_with_span open_llm_span) = Done tt
  /\ _annotations
       (exec (annotate None PNone PNone (PStr "hi") PNone PNone PNone PNone None)
          (state_with_span open_llm_span))
     = _annotations (state_with_span open_llm_span).
Proof.
  destruct (annotate_never_raises (state_with_span open_llm_span) None PNone PNone
              (PStr "hi") PNone PNone PNone PNone None)
    as (Hres & _ & _ & Hreg & _).
  - intros ref Href. vm_compute in Href. injection Href as <-. by eexists.
  - split; [exact Hres|exact Hreg].
Defined.


Lemma export_span_result_witness :
  exists r evs,
    export_span (AOther PNone) (state_with_span open_llm_span)
    = (Done r, add_events evs (state_with_span open_llm_span))
    /\ r = PDict [("span_id", PStr "1"); ("trace_id", PStr "1")].
Proof.
  destruct (export_span_result (state_with_span open_llm_span) (AOther PNone))
    as (r & evs & Hrun & _ & _ & Hexp & _).
  - intros ref Href. vm_compute in Href. injection Href as <-. by eexists.
  - exists r, evs. split; [exact Hrun|].
    exact (Hexp 1 open_llm_span eq_refl eq_refl eq_refl).
Defined.

Lemma exported_span_is_a_span_context_witness :
  check_passes sample_state args_for_exported_span ChkSpanRefMapping = true
  /\ check_passes sample_state args_for_exported_span ChkSpanRefIds = true.
Proof.
  destruct (exported_span_is_a_span_context (state_with_span open_llm_span) (ASpan 1)
              (exported open_llm_span) args_for_exported_span sample_state)
    as (Hmap & Hids & _).
  - intros ref Href. injection Href as <-. by eexists.
  - reflexivity.
  - discriminate.
  - reflexivity.
  - split; [exact Hmap|exact Hids].
Defined.



Lemma enable_resolves_settings_witness :
  _llmobs_ml_app
    (base (rt_config (enable sample_asbool enable_with_defaults sample_runtime).2))
  = Some "legacy"
  /\ _dd_site (rt_config (enable sample_asbool enable_with_defaults sample_runtime).2)
     = Some "datadoghq.com".
Proof.
  destruct (enable_resolves_settings sample_asbool enable_with_defaults sample_runtime)
    as (Hsite & _ & _ & _ & _ & Happ & _).
  - reflexivity.
  - split; [|exact Hsite]. apply Happ; reflexivity.
Defined.


Lemma added_attribute_removes_its_report_witness :
  check_cookie "sid" ("sid=abc" +:+ "; Secure")
  = without VULN_INSECURE_COOKIE (check_cookie "sid" "sid=abc")
  /\ reported (check_cookie "sid" "sid=abc")
     = [(VULN_INSECURE_COOKIE, "sid"); (VULN_NO_HTTPONLY_COOKIE, "sid");
        (VULN_NO_SAMESITE_COOKIE, "sid")].
Proof.
  split; [|reflexivity].
  refine (proj1 (added_attribute_removes_its_report "sid" "sid=abc" _)).
  reflexivity.
Defined.

Lemma start_span_session_app_and_parent_witness :
  exists sp,
    spans (exec (_start_span "task" None (Some "s1") None None None) sample_state)
      !! next_span_id sample_state = Some sp
    /\ get_tag SESSION_ID sp = Some (Plain "s1")
    /\ get_tag ML_APP sp = Some (Plain "app")
    /\ get_tag PARENT_ID_KEY sp = Some (Plain "undefined").
Proof.
  destruct (start_span_session_app_and_parent sample_state "task" None (Some "s1")
              None None None)
    as (sp & _ & Hsp & _ & _ & _ & Hsid & (a & Ha & _ & Happ) & _ & Hundef & _).
  exists sp. split; [exact Hsp|]. split; [exact (Hsid "s1" eq_refl)|].
  split.
  - destruct (Happ eq_refl) as (st1 & sp1 & _ & Hcfg & Hwalk).
    rewrite Ha, Hwalk. unfold _get_ml_app, sample_imports. rewrite Hcfg.
    reflexivity.
  - apply Hundef; [reflexivity|]. intros st1 sp1. left. reflexivity.
Defined.

End MoreExamples.
